(** * Acx Shell: the [/protect] request handler of [app.py]

    A shallow embedding of [protect_apk] (app.py, lines 45-583) and of the
    platform operations it calls, followed by the properties of the job
    life cycle: validation order, command construction, output lookup,
    signature verification, working directory and workspace handling.

    Conventions of the model:
    - a Python [str] is a Rocq [string] whose characters are the code points
      U+0000 .. U+00FF; [bytes] are [list byte];
    - the host is POSIX ([os.name = 'posix'], separator [/]);
    - the file system is a tree of named entries, the order of the entries
      of a directory being the order in which [os.scandir] lists them;
    - everything the handler cannot decide (environment variables, what an
      external program does, the names [tempfile] draws) is a field of
      [host], a variable of the development;
    - a request arrives whole, with its Content-Length header, whose
      value is the length of the body;
    - the output of a child started with [text=True] either decodes to two
      strings or does not decode;
    - logging appends the level and the format string of the call to the
      log of the world; the values interpolated into a message are left
      out. *)

From Stdlib Require Import String Ascii List ZArith NArith Bool Lia DecimalString.
Import ListNotations.
Open Scope string_scope.
Open Scope list_scope.

Set Implicit Arguments.
Set Warnings "-register-all".

(** ** Python strings *)

Module PyStr.

(** [str.lower] on a code point below U+0100: the ASCII capitals and the
    Latin-1 capitals U+00C0 .. U+00DE (without U+00D7) move up by 32. *)
Definition lower_char (c : ascii) : ascii :=
  let n := N_of_ascii c in
  if ((65 <=? n) && (n <=? 90))%N then ascii_of_N (n + 32)
  else if ((192 <=? n) && (n <=? 222) && negb (n =? 215))%N
       then ascii_of_N (n + 32)
       else c.

Fixpoint lower (s : string) : string :=
  match s with
  | EmptyString => EmptyString
  | String c s' => String (lower_char c) (lower s')
  end.

(** [s.startswith(p)] *)
Definition startswith (s p : string) : bool := String.prefix p s.

(** [s.endswith(suf)]: some tail of [s] is [suf]. *)
Fixpoint endswith (s suf : string) : bool :=
  if String.eqb s suf then true
  else match s with
       | EmptyString => false
       | String _ s' => endswith s' suf
       end.

(** [s.endswith((a, b, ...))] *)
Definition endswith_any (s : string) (sufs : list string) : bool :=
  existsb (endswith s) sufs.

(** [sub in s] *)
Fixpoint contains (s sub : string) : bool :=
  if String.prefix sub s then true
  else match s with
       | EmptyString => false
       | String _ s' => contains s' sub
       end.

(** The characters [str.strip()] removes, below U+0100: TAB .. CR,
    FS .. US, space, NEL and the no-break space. *)
Definition is_space (c : ascii) : bool :=
  let n := N_of_ascii c in
  (((9 <=? n) && (n <=? 13)) || ((28 <=? n) && (n <=? 32))
   || (n =? 133) || (n =? 160))%N.

Fixpoint lstrip (s : string) : string :=
  match s with
  | EmptyString => EmptyString
  | String c s' => if is_space c then lstrip s' else s
  end.

Fixpoint rstrip (s : string) : string :=
  match s with
  | EmptyString => EmptyString
  | String c s' =>
      match rstrip s' with
      | EmptyString => if is_space c then EmptyString else String c EmptyString
      | r => String c r
      end
  end.

Definition strip (s : string) : string := rstrip (lstrip s).

(** Truth value of a string: the empty string is false. *)
Definition truthy (s : string) : bool := negb (String.eqb s "").

(** [a or b] on strings. *)
Definition or_else (a b : string) : string := if truthy a then a else b.

(** [sep.join(l)] *)
Definition join (sep : string) (l : list string) : string :=
  String.concat sep l.

(** [sorted(l, reverse=True)]: insertion into a descending list. *)
Fixpoint insert_desc (x : string) (l : list string) : list string :=
  match l with
  | [] => [x]
  | y :: l' => if String.leb y x then x :: l else y :: insert_desc x l'
  end.

Definition sorted_reverse (l : list string) : list string :=
  fold_right insert_desc [] l.

(** [str(n)] *)
Definition str_of_N (n : N) : string :=
  NilEmpty.string_of_uint (N.to_uint n).

Definition dquote_char : ascii := "034"%char.

(** A hexadecimal digit, in lower case. *)
Definition hex_digit (n : N) : ascii :=
  if (n <? 10)%N then ascii_of_N (48 + n) else ascii_of_N (87 + n).

(** [str.isprintable] on a code point below U+0100. *)
Definition printable (n : N) : bool :=
  (((32 <=? n) && (n <? 127)) || ((161 <=? n) && negb (n =? 173)))%N.

(** One character inside [repr(s)], the string being quoted by [quote]. *)
Definition repr_char (quote c : ascii) : string :=
  let n := N_of_ascii c in
  if Ascii.eqb c quote || Ascii.eqb c "\"%char then String "\" (String c "")
  else if (n =? 9)%N then "\t"
  else if (n =? 10)%N then "\n"
  else if (n =? 13)%N then "\r"
  else if printable n then String c ""
  else String "\" (String "x" (String (hex_digit (n / 16))
                                  (String (hex_digit (n mod 16)) ""))).

Fixpoint repr_chars (quote : ascii) (s : string) : string :=
  match s with
  | EmptyString => EmptyString
  | String c s' => (repr_char quote c ++ repr_chars quote s')%string
  end.

Fixpoint has_char (c : ascii) (s : string) : bool :=
  match s with
  | EmptyString => false
  | String x s' => Ascii.eqb x c || has_char c s'
  end.

(** [repr(s)]: single quotes, unless [s] holds a single quote and no
    double quote. *)
Definition repr (s : string) : string :=
  let quote := if has_char "'"%char s && negb (has_char dquote_char s)
               then dquote_char else "'"%char in
  String quote (repr_chars quote s ++ String quote "").

(** [repr(l)] of a list of strings *)
Definition repr_list (l : list string) : string :=
  ("[" ++ String.concat ", " (map repr l) ++ "]")%string.

End PyStr.

(** ** Multi-valued form data ([werkzeug.MultiDict]) *)

Module MultiDict.

Fixpoint get {A : Type} (k : string) (d : list (string * A)) : option A :=
  match d with
  | [] => None
  | (k', v) :: d' => if String.eqb k k' then Some v else get k d'
  end.

End MultiDict.

(** ** POSIX paths *)

Module Path.

(** [os.path.join(a, b)] of [posixpath]. *)
Definition join (a b : string) : string :=
  if PyStr.startswith b "/" then b
  else if String.eqb a "" || PyStr.endswith a "/" then a ++ b
       else a ++ "/" ++ b.

Definition join3 (a b c : string) : string := join (join a b) c.

(** The text between the separators of a path, [cur] being the part of
    the current one already read. *)
Fixpoint split_on (s : string) (cur : string) : list string :=
  match s with
  | EmptyString => [cur]
  | String c s' =>
      if Ascii.eqb c "/"%char then cur :: split_on s' ""
      else split_on s' (cur ++ String c "")
  end.

(** The names a path walks through; empty names and [.] name no step. *)
Definition components (s : string) : list string :=
  filter (fun c => negb (String.eqb c "" || String.eqb c "."))
         (split_on s "").

(** The absolute location a path denotes from working directory [cwd]. *)
Definition resolve (cwd : list string) (s : string) : list string :=
  if PyStr.startswith s "/" then components s else cwd ++ components s.

(** The text of an absolute location, as [os.getcwd] gives it. *)
Definition render (p : list string) : string :=
  "/" ++ PyStr.join "/" p.

(** [(p[:i], p[i:])] for [i = p.rfind('/') + 1] *)
Fixpoint cut_last_slash (p : string) : string * string :=
  match p with
  | EmptyString => (EmptyString, EmptyString)
  | String c s =>
      let (hd, tl) := cut_last_slash s in
      if PyStr.truthy hd then (String c hd, tl)
      else if Ascii.eqb c "/"%char then ("/", tl)
           else (EmptyString, String c tl)
  end.

Fixpoint all_slashes (s : string) : bool :=
  match s with
  | EmptyString => true
  | String c s' => Ascii.eqb c "/"%char && all_slashes s'
  end.

(** [s.rstrip('/')] *)
Fixpoint rstrip_slashes (s : string) : string :=
  match s with
  | EmptyString => EmptyString
  | String c s' =>
      match rstrip_slashes s' with
      | EmptyString =>
          if Ascii.eqb c "/"%char then EmptyString else String c EmptyString
      | r => String c r
      end
  end.

(** [os.path.split(p)] of [posixpath] *)
Definition split (p : string) : string * string :=
  let (hd, tl) := cut_last_slash p in
  (if PyStr.truthy hd && negb (all_slashes hd) then rstrip_slashes hd
   else hd, tl).

End Path.

(** ** The file tree *)

Module Fs.

Inductive node : Type :=
| File (data : list Byte.byte)
| Dir (entries : list (string * node)).

Definition is_dir (n : node) : bool :=
  match n with Dir _ => true | File _ => false end.

Fixpoint find (name : string) (es : list (string * node)) : option node :=
  match es with
  | [] => None
  | (k, n) :: es' => if String.eqb k name then Some n else find name es'
  end.

(** Replace the first entry called [name]; append it when there is none. *)
Fixpoint put (name : string) (n : node) (es : list (string * node))
  : list (string * node) :=
  match es with
  | [] => [(name, n)]
  | (k, m) :: es' =>
      if String.eqb k name then (k, n) :: es' else (k, m) :: put name n es'
  end.

Definition drop (name : string) (es : list (string * node))
  : list (string * node) :=
  filter (fun e => negb (String.eqb (fst e) name)) es.

Fixpoint lookup (p : list string) (n : node) : option node :=
  match p with
  | [] => Some n
  | c :: p' =>
      match n with
      | File _ => None
      | Dir es =>
          match find c es with
          | Some child => lookup p' child
          | None => None
          end
      end
  end.

Definition exists_at (p : list string) (n : node) : bool :=
  match lookup p n with Some _ => true | None => false end.

Definition isdir_at (p : list string) (n : node) : bool :=
  match lookup p n with Some m => is_dir m | None => false end.

(** Put [new] at [p]; the parent of [p] has to be a directory. *)
Fixpoint store (p : list string) (new : node) (n : node) : option node :=
  match p with
  | [] => Some new
  | c :: p' =>
      match n with
      | File _ => None
      | Dir es =>
          match p' with
          | [] => Some (Dir (put c new es))
          | _ :: _ =>
              match find c es with
              | Some child =>
                  match store p' new child with
                  | Some child' => Some (Dir (put c child' es))
                  | None => None
                  end
              | None => None
              end
          end
      end
  end.

(** A file lies on the way to [p], above its last name. *)
Fixpoint blocked (p : list string) (n : node) : bool :=
  match p with
  | [] => false
  | c :: p' =>
      match n with
      | File _ => true
      | Dir es =>
          match find c es with
          | Some child => blocked p' child
          | None => false
          end
      end
  end.

(** Remove the entry at [p] with all below it; the root stays. *)
Fixpoint remove_at (p : list string) (n : node) : node :=
  match p with
  | [] => n
  | c :: p' =>
      match n with
      | File _ => n
      | Dir es =>
          match p' with
          | [] => Dir (drop c es)
          | _ :: _ =>
              match find c es with
              | Some child => Dir (put c (remove_at p' child) es)
              | None => n
              end
          end
      end
  end.

Definition dirnames (es : list (string * node)) : list string :=
  map fst (filter (fun e => is_dir (snd e)) es).

Definition filenames (es : list (string * node)) : list string :=
  map fst (filter (fun e => negb (is_dir (snd e))) es).

(** [os.walk(top)], top-down: the triple of a directory, then the walks
    of its sub-directories in listing order. *)
Fixpoint walk (top : string) (n : node)
  : list (string * list string * list string) :=
  match n with
  | File _ => []
  | Dir es =>
      (top, dirnames es, filenames es)
      :: (fix below (l : list (string * node)) :=
            match l with
            | [] => []
            | (name, child) :: l' =>
                match child with
                | Dir _ => walk (Path.join top name) child
                | File _ => []
                end ++ below l'
            end) es
  end.

End Fs.

(** ** Exceptions, responses and the world *)

Inductive exn_class : Type :=
| TimeoutExpired        (* subprocess.TimeoutExpired *)
| FileNotFoundError
| FileExistsError
| IsADirectoryError
| NotADirectoryError
| OSError               (* any other OSError *)
| OtherException.       (* any other Exception *)

Record exn : Type := MkExn { cls : exn_class; text : string }.

(** [isinstance(e, IOError)]: [IOError] is [OSError]. *)
Definition is_IOError (e : exn) : bool :=
  match cls e with
  | TimeoutExpired | OtherException => false
  | _ => true
  end.

Definition is_TimeoutExpired (e : exn) : bool :=
  match cls e with TimeoutExpired => true | _ => false end.

Definition is_FileNotFoundError (e : exn) : bool :=
  match cls e with FileNotFoundError => true | _ => false end.

Definition is_FileExistsError (e : exn) : bool :=
  match cls e with FileExistsError => true | _ => false end.

(** [str(e)] of an [OSError] raised by a system call on [path]:
    [[Errno n] strerror: 'path'] *)
Definition oserror_text (errno : N) (strerror path : string) : string :=
  "[Errno " ++ PyStr.str_of_N errno ++ "] " ++ strerror ++ ": "
  ++ PyStr.repr path.

Definition ENOENT (path : string) : exn :=
  MkExn FileNotFoundError
        (oserror_text 2 "No such file or directory" path).
Definition EEXIST (path : string) : exn :=
  MkExn FileExistsError (oserror_text 17 "File exists" path).
Definition ENOTDIR (path : string) : exn :=
  MkExn NotADirectoryError (oserror_text 20 "Not a directory" path).
Definition EISDIR (path : string) : exn :=
  MkExn IsADirectoryError (oserror_text 21 "Is a directory" path).

(** The [error] text of a JSON answer. The one message that interpolates a
    floating-point rendering keeps its argument instead. *)
Inductive message : Type :=
| Text (s : string)
| FileSizeExceeds (file_size_bytes : N).
    (* f'File size ({file_size_bytes / (1024*1024):.2f} MB) exceeds maximum
       allowed size (150 MB) for free tier. Please use a smaller APK file.' *)

Inductive body : Type :=
| Json (error : message) (details : option string)
    (* jsonify({'error': ..., 'details': ...}) *)
| Attachment (data : list Byte.byte) (headers : list (string * string)).
    (* Response(BytesIO(file_data), mimetype=..., headers=...) *)

Record response : Type := MkResponse { status : N; payload : body }.

Inductive level : Type := INFO | WARNING | ERROR.

Record world : Type := MkWorld {
  fs : Fs.node;                       (* the file tree *)
  cwd : list string;                  (* the working directory *)
  procs : list (list string);         (* live child processes, by argv *)
  log : list (level * string);        (* what the logger received *)
  invoked : list (list string)
    (* the argument vectors handed to [subprocess.run], latest first *)
}.

Definition set_fs (f : Fs.node) (w : world) : world :=
  MkWorld f (cwd w) (procs w) (log w) (invoked w).
Definition set_cwd (c : list string) (w : world) : world :=
  MkWorld (fs w) c (procs w) (log w) (invoked w).
Definition set_procs (p : list (list string)) (w : world) : world :=
  MkWorld (fs w) (cwd w) p (log w) (invoked w).
Definition add_log (e : level * string) (w : world) : world :=
  MkWorld (fs w) (cwd w) (procs w) (log w ++ [e]) (invoked w).
Definition invoke (args : list string) (w : world) : world :=
  MkWorld (fs w) (cwd w) (procs w) (log w) (args :: invoked w).

(** ** The monad of the handler

    A statement either goes on with a value, leaves the function with a
    response ([return]) or raises. *)

Inductive result (A : Type) : Type :=
| Val (a : A)
| Return (r : response)
| Raise (e : exn).
Arguments Val {A} a.
Arguments Return {A} r.
Arguments Raise {A} e.

Definition M (A : Type) : Type := world -> result A * world.

Definition ret {A} (a : A) : M A := fun w => (Val a, w).

Definition bind {A B} (m : M A) (k : A -> M B) : M B :=
  fun w =>
    match m w with
    | (Val a, w') => k a w'
    | (Return r, w') => (Return r, w')
    | (Raise e, w') => (Raise e, w')
    end.

Definition return_ {A} (r : response) : M A := fun w => (Return r, w).
Definition raise {A} (e : exn) : M A := fun w => (Raise e, w).

(** [try: m  except Exception as e: h e]; a handler that does not match
    re-raises. *)
Definition try_except {A} (m : M A) (h : exn -> M A) : M A :=
  fun w =>
    match m w with
    | (Raise e, w') => h e w'
    | r => r
    end.

(** [try: m  except: pass] *)
Definition try_pass (m : M unit) : M unit :=
  try_except m (fun _ => ret tt).

Definition modify (f : world -> world) : M unit := fun w => (Val tt, f w).

Declare Scope py_scope.
Delimit Scope py_scope with py.
Notation "x <- m ;; k" := (bind m (fun x => k))
  (at level 61, m at next level, right associativity) : py_scope.
Notation "m ;; k" := (bind m (fun _ => k))
  (at level 61, right associativity) : py_scope.
Open Scope py_scope.

(** [for x in l: body x] *)
Fixpoint for_each {A} (l : list A) (body : A -> M unit) : M unit :=
  match l with
  | [] => ret tt
  | x :: l' => body x ;; for_each l' body
  end.

Definition when (b : bool) (m : M unit) : M unit :=
  if b then m else ret tt.

Definition jsonify (error : message) (details : option string) (st : N)
  : response := MkResponse st (Json error details).

(** *** Logging *)

Definition logger (l : level) (fmt : string) : M unit :=
  modify (add_log (l, fmt)).
Definition log_info := logger INFO.
Definition log_warning := logger WARNING.
Definition log_error := logger ERROR.

(** ["=" * 60] *)
Definition rule : string :=
  "============================================================".

(** ** The host and the platform calls *)

(** What starting a program leads to: it cannot be started, or it runs for
    [duration] time units, leaves the file tree as [after] and ends with an
    exit status and its two output streams. The streams are read with
    [text=True]: they decode to the strings [out] and [err], or they do
    not decode and [why] is the text of the [UnicodeDecodeError]. *)
Inductive behaviour : Type :=
| CannotStart (e : exn)
| Runs (duration : N) (code : Z) (out err : string) (after : Fs.node)
| Undecodable (duration : N) (code : Z) (why : string) (after : Fs.node).

Record host : Type := MkHost {
  environ : list (string * string);          (* os.environ *)
  module_dir : string;                       (* dirname of __file__, absolute *)
  tempdir : string;               (* tempfile.gettempdir(), absolute *)
  temp_names : list string;                  (* the names mkdtemp draws *)
  secure_filename : string -> string;        (* werkzeug.utils *)
  exec : list string -> list string -> Fs.node -> behaviour
    (* argv, working directory and file tree at the start of a program *)
}.

(** [subprocess.CompletedProcess] *)
Record completed : Type := MkCompleted {
  returncode : Z; stdout : string; stderr : string
}.

(** A started child, as [Popen] hands it out. *)
Record process : Type := MkProcess {
  argv : list string;
  duration : N;
  outcome : completed + string;   (* what is read, or why it does not decode *)
  leaves : Fs.node
}.

Definition os_name : string := "posix".

Fixpoint remove_first (a : list string) (l : list (list string))
  : list (list string) :=
  match l with
  | [] => []
  | x :: l' =>
      if list_eq_dec string_dec x a then l' else x :: remove_first a l'
  end.

Section Platform.

Variable h : host.

(** [os.environ.get(k, default)] *)
Definition environ_get (k default : string) : string :=
  match MultiDict.get k (environ h) with Some v => v | None => default end.

Definition at_path (w : world) (p : string) : option Fs.node :=
  Fs.lookup (Path.resolve (cwd w) p) (fs w).

(** What a system call raises on a path that leads nowhere: [ENOTDIR]
    when a file lies on the way, [ENOENT] otherwise. *)
Definition missing (w : world) (p : string) : exn :=
  if Fs.blocked (Path.resolve (cwd w) p) (fs w) then ENOTDIR p
  else ENOENT p.

Definition os_path_exists (p : string) : M bool :=
  fun w => (Val (match at_path w p with Some _ => true | None => false end), w).

Definition os_path_isdir (p : string) : M bool :=
  fun w => (Val (match at_path w p with
                 | Some n => Fs.is_dir n
                 | None => false
                 end), w).

Definition os_listdir (p : string) : M (list string) :=
  fun w =>
    match at_path w p with
    | Some (Fs.Dir es) => (Val (map fst es), w)
    | Some (Fs.File _) => (Raise (ENOTDIR p), w)
    | None => (Raise (missing w p), w)
    end.

Definition os_getcwd : M string :=
  fun w => (Val (Path.render (cwd w)), w).

Definition os_chdir (p : string) : M unit :=
  fun w =>
    match at_path w p with
    | Some (Fs.Dir _) => (Val tt, set_cwd (Path.resolve (cwd w) p) w)
    | Some (Fs.File _) => (Raise (ENOTDIR p), w)
    | None => (Raise (missing w p), w)
    end.

(** [os.mkdir(p)] *)
Definition os_mkdir (p : string) : M unit :=
  fun w =>
    let loc := Path.resolve (cwd w) p in
    match Fs.lookup loc (fs w) with
    | Some _ => (Raise (EEXIST p), w)
    | None =>
        match Fs.lookup (removelast loc) (fs w) with
        | Some (Fs.Dir _) =>
            match Fs.store loc (Fs.Dir []) (fs w) with
            | Some f => (Val tt, set_fs f w)
            | None => (Raise (missing w p), w)
            end
        | _ => (Raise (missing w p), w)
        end
    end.

(** [os.mkdir(name)] inside [os.makedirs(.., exist_ok=True)]: an error
    is let through unless [name] is a directory by then. *)
Definition mkdir_exist_ok (name : string) : M unit :=
  try_except (os_mkdir name)
    (fun e => isdir <- os_path_isdir name ;;
              if negb isdir then raise e else ret tt).

(** [os.makedirs(name, exist_ok=True)], after its CPython source: the
    missing directories above [name] first, then [name]; [fuel] bounds the
    depth of the recursion, each head being shorter than its path. *)
Fixpoint makedirs_from (fuel : nat) (name : string) : M unit :=
  let (head, tail) := Path.split name in
  let (head, tail) :=
    if negb (PyStr.truthy tail) then Path.split head else (head, tail) in
  ex <- os_path_exists head ;;
  if PyStr.truthy head && PyStr.truthy tail && negb ex then
    match fuel with
    | O => ret tt
    | S fuel' =>
        try_except (makedirs_from fuel' head)
          (fun e => if is_FileExistsError e then ret tt else raise e)
    end ;;
    if String.eqb tail "." then ret tt else mkdir_exist_ok name
  else mkdir_exist_ok name.

Definition os_makedirs (p : string) : M unit :=
  makedirs_from (String.length p) p.

(** [os.path.getsize(p)]; a directory counts for nothing here, the size
    is only ever logged. *)
Definition os_path_getsize (p : string) : M N :=
  fun w =>
    match at_path w p with
    | Some (Fs.File d) => (Val (N.of_nat (length d)), w)
    | Some (Fs.Dir _) => (Val 0%N, w)
    | None => (Raise (missing w p), w)
    end.

(** [os.walk(top)]; a top that cannot be listed yields nothing. *)
Definition os_walk (top : string)
  : M (list (string * list string * list string)) :=
  fun w =>
    (Val (match at_path w top with
          | Some n => Fs.walk top n
          | None => []
          end), w).

(** [with open(p, 'rb') as f: f.read()] *)
Definition read_file (p : string) : M (list Byte.byte) :=
  fun w =>
    match at_path w p with
    | Some (Fs.File d) => (Val d, w)
    | Some (Fs.Dir _) => (Raise (EISDIR p), w)
    | None => (Raise (missing w p), w)
    end.

(** [FileStorage.save(dst)]: [open(dst, 'wb')] and copy the stream. *)
Definition save (data : list Byte.byte) (dst : string) : M unit :=
  fun w =>
    let loc := Path.resolve (cwd w) dst in
    match Fs.lookup loc (fs w) with
    | Some (Fs.Dir _) => (Raise (EISDIR dst), w)
    | _ =>
        match Fs.lookup (removelast loc) (fs w) with
        | Some (Fs.Dir _) =>
            match Fs.store loc (Fs.File data) (fs w) with
            | Some f => (Val tt, set_fs f w)
            | None => (Raise (missing w dst), w)
            end
        | _ => (Raise (missing w dst), w)
        end
    end.

(** [shutil.rmtree(p, ignore_errors=True)]: a directory goes with all
    below it; anything else is an error, and errors are ignored. *)
Definition shutil_rmtree (p : string) : M unit :=
  fun w =>
    match at_path w p with
    | Some (Fs.Dir _) =>
        (Val tt, set_fs (Fs.remove_at (Path.resolve (cwd w) p) (fs w)) w)
    | _ => (Val tt, w)
    end.

(** [tempfile.mkdtemp(prefix=prefix, dir=dir)]: the first drawn name that
    is free; a name already taken is skipped, other errors of [mkdir]
    propagate. *)
Fixpoint mkdtemp_from (names : list string) (prefix dir : string)
  : M string :=
  match names with
  | [] =>
      raise (MkExn FileExistsError
               "[Errno 17] No usable temporary directory name found")
  | name :: rest =>
      let file := Path.join dir (prefix ++ name) in
      try_except (os_mkdir file ;; ret file)
        (fun e => match cls e with
                  | FileExistsError => mkdtemp_from rest prefix dir
                  | _ => raise e
                  end)
  end.

Definition mkdtemp (prefix dir : string) : M string :=
  mkdtemp_from (temp_names h) prefix dir.

(** *** [subprocess.run], after its CPython source: [Popen], then
    [communicate] under the timeout; a child that is still alive when
    [communicate] raises is killed before the exception goes on. *)

(** [str(e)] of [subprocess.TimeoutExpired] *)
Definition timeout_expired (args : list string) (timeout : N) : exn :=
  MkExn TimeoutExpired
    ("Command '" ++ PyStr.repr_list args ++ "' timed out after "
     ++ PyStr.str_of_N timeout ++ " seconds").

(** What [Popen] raises when it cannot enter the directory to start in. *)
Definition start_dir_error (w : world) (dir : option string) : option exn :=
  match dir with
  | Some d =>
      if Fs.isdir_at (Path.resolve (cwd w) d) (fs w) then None
      else Some (if Fs.exists_at (Path.resolve (cwd w) d) (fs w)
                 then ENOTDIR d else missing w d)
  | None => None
  end.

(** The directory a child starts in. *)
Definition start_dir (w : world) (dir : option string) : list string :=
  match dir with
  | Some d => Path.resolve (cwd w) d
  | None => cwd w
  end.

Definition Popen (args : list string) (dir : option string) : M process :=
  fun w =>
    let w0 := invoke args w in
    match start_dir_error w dir with
    | Some e => (Raise e, w0)
    | None =>
        match exec h args (start_dir w dir) (fs w) with
        | CannotStart e => (Raise e, w0)
        | Runs d rc o e after =>
            (Val (MkProcess args d (inl (MkCompleted rc o e)) after),
             set_procs (args :: procs w) w0)
        | Undecodable d rc why after =>
            (Val (MkProcess args d (inr why) after),
             set_procs (args :: procs w) w0)
        end
    end.

(** The child is gone and the tree is as it left it. *)
Definition reap (p : process) : M unit :=
  modify (fun w => set_fs (leaves p)
                     (set_procs (remove_first (argv p) (procs w)) w)).

(** The child is waited for under the timeout; what it wrote is decoded
    once it has ended. *)
Definition communicate (p : process) (timeout : N) : M completed :=
  if (timeout <? duration p)%N
  then raise (timeout_expired (argv p) timeout)
  else
    reap p ;;
    match outcome p with
    | inl result => ret result
    | inr why => raise (MkExn OtherException why)
    end.

(** [process.kill(); process.wait()] on a child that is alive. *)
Definition kill (p : process) : M unit := reap p.

(** [communicate] raises [TimeoutExpired] while the child is alive, and
    anything else after it has ended, when [kill] finds nothing to do. *)
Definition subprocess_run (args : list string) (timeout : N)
    (dir : option string) : M completed :=
  p <- Popen args dir ;;
  try_except (communicate p timeout)
    (fun e => (if is_TimeoutExpired e then kill p else ret tt) ;; raise e).

End Platform.

(** ** The request *)

(** [werkzeug.FileStorage]: the name the client gave and the bytes that
    arrived. *)
Record upload : Type := MkUpload {
  filename : string;
  stream : list Byte.byte
}.

(** What the body of a request holds: the uploaded files, the form
    fields, and [framing] bytes besides the contents of the files (the
    boundaries, the headers of the parts, the fields). *)
Record request : Type := MkRequest {
  files : list (string * upload);        (* request.files, once parsed *)
  form : list (string * string);         (* request.form, once parsed *)
  framing : N
}.

(** [file.seek(0, os.SEEK_END); file.tell()] *)
Definition seek_end_tell (f : upload) : N := N.of_nat (length (stream f)).

(** [request.content_length]: the length of the body. *)
Definition content_length (req : request) : N :=
  (framing req
   + fold_right (fun f n => seek_end_tell (snd f) + n) 0 (files req))%N.

(** [app.config['MAX_CONTENT_LENGTH']] (line 34) *)
Definition MAX_CONTENT_LENGTH : N := 150 * 1024 * 1024.

(** [str(e)] of werkzeug's [RequestEntityTooLarge] *)
Definition request_entity_too_large : exn :=
  MkExn OtherException
    "413 Request Entity Too Large: The data value transmitted exceeds the capacity limit.".

(** [request.files]: the first access parses the body, and a body longer
    than [MAX_CONTENT_LENGTH] is refused. *)
Definition request_files (req : request) : M (list (string * upload)) :=
  if (MAX_CONTENT_LENGTH <? content_length req)%N
  then raise request_entity_too_large
  else ret (files req).

(** [request.form.get(name) == 'true'] *)
Definition form_is_true (req : request) (name : string) : bool :=
  match MultiDict.get name (form req) with
  | Some v => String.eqb v "true"
  | None => false
  end.

(** [request.form.get(name, '')] *)
Definition form_get (req : request) (name : string) : string :=
  match MultiDict.get name (form req) with Some v => v | None => "" end.

Definition accepted_extensions : list string := [".apk"; ".aab"].

(** [max_size = 150 * 1024 * 1024] *)
Definition max_size : N := 150 * 1024 * 1024.

Definition dquote : string := String "034"%char EmptyString.

Definition str_of_N : N -> string := PyStr.str_of_N.

(** The locals a request carries into the inner [try] of the handler. *)
Record job : Type := MkJob {
  job_file : upload;
  job_cmd : list string;
  job_temp_dir : string;
  job_output_dir : string;
  job_original_cwd : string
}.

(** ** The handler, block by block *)

Section Handler.

Variable h : host.

(** [DPT_JAR_PATH] (line 39) *)
Definition DPT_JAR_PATH : string :=
  Path.join3 (module_dir h) "executable" "dpt.jar".

(** Lines 48-97: the checks on the upload, in the order of the source. *)
Definition validate (req : request) : M upload :=
  log_info rule ;;
  log_info "Acx Shell - APK Protection Request Received" ;;
  log_info rule ;;
  uploaded <- request_files req ;;
  match MultiDict.get "apk_file" uploaded with
  | None =>
      log_error "ERROR: {error_msg}" ;;
      return_ (jsonify (Text "No APK file provided") None 400)
  | Some file =>
      if String.eqb (filename file) "" then
        log_error "ERROR: {error_msg}" ;;
        return_ (jsonify (Text "No file selected") None 400)
      else if negb (PyStr.endswith_any (PyStr.lower (filename file))
                      accepted_extensions) then
        log_error "ERROR: {error_msg}" ;;
        return_ (jsonify
          (Text "Invalid file type. Only APK and AAB files are supported")
          None 400)
      else
        log_info "Processing file: {file.filename}" ;;
        let file_size_bytes := seek_end_tell file in
        if (max_size <? file_size_bytes)%N then
          log_error "ERROR: {error_msg}" ;;
          return_ (jsonify (FileSizeExceeds file_size_bytes) None 400)
        else
          log_info "File size validated: {} MB (within 150MB free tier limit)" ;;
          log_info "File hash (MD5): {file_hash}" ;;
          let original_filename := filename file in
          if PyStr.startswith original_filename "protected_" then
            log_warning
              "Duplicate protection attempt detected: {original_filename}" ;;
            return_ (jsonify (Text
              "This file appears to be already protected. Please upload the original APK file, not the protected version.")
              None 400)
          else ret file
  end.

(** Lines 99-114: the workspace and the staged input. The result is
    [(temp_dir, input_file_path, output_dir)]. *)
Definition stage (file : upload) : M (string * string * string) :=
  tmp <- os_path_exists "/tmp" ;;
  let temp_base := if tmp then "/tmp" else tempdir h in
  temp_dir <- mkdtemp h "apk_protect_" temp_base ;;
  let input_file_path :=
    Path.join temp_dir (secure_filename h (filename file)) in
  let output_dir := Path.join temp_dir "output" in
  os_makedirs output_dir ;;
  log_info "Saving uploaded file to: {input_file_path}" ;;
  save (stream file) input_file_path ;;
  saved_size <- os_path_getsize input_file_path ;;
  log_info "File saved. Size: {} MB" ;;
  ret (temp_dir, input_file_path, output_dir).

(** Lines 117-127: where the Java launcher is. *)
Definition find_java : M string :=
  let java_path := environ_get h "JAVA_HOME" "" in
  let bare := if String.eqb os_name "nt" then "java.exe" else "java" in
  java_cmd <-
    (if PyStr.truthy java_path then
       let java_exe := bare in
       let java_cmd := Path.join3 java_path "bin" java_exe in
       ex <- os_path_exists java_cmd ;;
       ret (if negb ex then bare else java_cmd)
     else ret bare) ;;
  log_info "Using Java command: {java_cmd}" ;;
  ret java_cmd.

Definition java_missing (details : string) : response :=
  jsonify (Text "Java JDK 21 is not installed or not found in PATH")
          (Some details) 500.

(** Lines 130-162: the five-unit probe of the launcher. *)
Definition check_java (java_cmd : string) : M unit :=
  try_except
    (log_info "Verifying Java installation..." ;;
     java_check <- subprocess_run h [java_cmd; "-version"] 5 None ;;
     log_info "Java check output: {}")
    (fun e =>
       if is_TimeoutExpired e then
         log_error "ERROR: {error_msg}" ;;
         return_ (java_missing
           "Please ensure Java JDK 21 is installed and JAVA_HOME is set correctly.")
       else if is_FileNotFoundError e then
         log_error "ERROR: {error_msg}" ;;
         log_error "Java command path: {java_cmd}" ;;
         log_error "JAVA_HOME: {}" ;;
         return_ (java_missing
           "Please ensure Java JDK 21 is installed and JAVA_HOME is set correctly.")
       else
         log_error "ERROR: {error_msg}" ;;
         log_error "{traceback}" ;;
         return_ (java_missing ("Error: " ++ text e))).

Definition config_file : string :=
  Path.join3 (module_dir h) "executable" "dpt-protect-config-template.json".

(** Lines 165-210: the command line. [options_used] only feeds the log
    and is left out. *)
Definition build_cmd (req : request)
    (java_cmd input_file_path output_dir : string) : M (list string) :=
  let cmd := [java_cmd; "-jar"; DPT_JAR_PATH;
              "-f"; input_file_path; "-o"; output_dir] in
  let cmd := if form_is_true req "debug" then cmd ++ ["--debug"] else cmd in
  let cmd := if form_is_true req "disable_acf"
             then cmd ++ ["--disable-acf"] else cmd in
  let cmd := if form_is_true req "dump_code"
             then cmd ++ ["--dump-code"] else cmd in
  let cmd := if form_is_true req "keep_classes" then cmd ++ ["-K"] else cmd in
  let cmd := if form_is_true req "noisy_log"
             then cmd ++ ["--noisy-log"] else cmd in
  let cmd := if form_is_true req "smaller" then cmd ++ ["-S"] else cmd in
  log_info "APK will be signed by dpt.jar (default behavior)" ;;
  let exclude_abis := PyStr.strip (form_get req "exclude_abis") in
  let cmd := if PyStr.truthy exclude_abis
             then cmd ++ ["-e"; exclude_abis] else cmd in
  cmd <-
    (if form_is_true req "use_protect_config" then
       ex <- os_path_exists config_file ;;
       ret (if ex then cmd ++ ["-c"; config_file] else cmd)
     else ret cmd) ;;
  log_info "Options selected: {}" ;;
  log_info "Running command: {}" ;;
  ret cmd.

(** Lines 248-253: every file below [output_dir] with an accepted
    ending, in the order [os.walk] meets them. *)
Definition accepted_in (t : string * list string * list string)
  : list string :=
  let '(root, _, fnames) := t in
  map (Path.join root)
      (filter (fun f => PyStr.endswith_any f accepted_extensions) fnames).

Definition find_output_files (output_dir : string) : M (list string) :=
  log_info "Searching for output file..." ;;
  triples <- os_walk output_dir ;;
  ret (flat_map accepted_in triples).

(** [[d for d in l if test d]] *)
Fixpoint filter_m {A} (test : A -> M bool) (l : list A) : M (list A) :=
  match l with
  | [] => ret []
  | x :: l' =>
      b <- test x ;;
      rest <- filter_m test l' ;;
      ret (if b then x :: rest else rest)
  end.

(** Lines 280-290: [apksigner] of the latest build-tools, if any. *)
Definition find_apksigner : M (option string) :=
  let android_home :=
    PyStr.or_else (environ_get h "ANDROID_HOME" "")
                  (environ_get h "ANDROID_SDK_ROOT" "") in
  if PyStr.truthy android_home then
    let apksigner_path := Path.join android_home "build-tools" in
    ex <- os_path_exists apksigner_path ;;
    if ex then
      names <- os_listdir apksigner_path ;;
      build_tools <-
        filter_m (fun d => os_path_isdir (Path.join apksigner_path d))
                 names ;;
      match PyStr.sorted_reverse build_tools with
      | latest_version :: _ =>
          let apksigner_cmd :=
            Path.join3 apksigner_path latest_version
              (if String.eqb os_name "nt" then "apksigner.bat"
               else "apksigner") in
          ex <- os_path_exists apksigner_cmd ;;
          ret (if negb ex then None else Some apksigner_cmd)
      | [] => ret None
      end
    else ret None
  else ret None.

(** Lines 293-300: [jarsigner] of the JDK. *)
Definition find_jarsigner : M string :=
  let java_path := environ_get h "JAVA_HOME" "" in
  let bare := if String.eqb os_name "nt" then "jarsigner.exe"
              else "jarsigner" in
  if PyStr.truthy java_path then
    let jarsigner_cmd := Path.join3 java_path "bin" bare in
    ex <- os_path_exists jarsigner_cmd ;;
    ret (if negb ex then bare else jarsigner_cmd)
  else ret bare.

(** Lines 304-318 *)
Definition try_apksigner (apksigner_cmd : option string)
    (output_file : string) : M bool :=
  match apksigner_cmd with
  | None => ret false
  | Some c =>
      ex <- os_path_exists c ;;
      if PyStr.truthy c && ex then
        try_except
          (verify_result <-
             subprocess_run h [c; "verify"; "--print-certs"; output_file]
                            30 None ;;
           if (returncode verify_result =? 0)%Z then
             log_info "APK signature verified using apksigner" ;;
             ret true
           else
             log_warning "APK signature verification failed: {}" ;;
             ret false)
          (fun e =>
             log_warning "Could not verify with apksigner: {e}" ;;
             ret false)
      else ret false
  end.

(** Lines 320-334 *)
Definition try_jarsigner (signature_valid : bool)
    (jarsigner_cmd output_file : string) : M bool :=
  if negb signature_valid && PyStr.truthy jarsigner_cmd then
    try_except
      (verify_result <-
         subprocess_run h
           [jarsigner_cmd; "-verify"; "-verbose"; "-certs"; output_file]
           30 None ;;
       if (returncode verify_result =? 0)%Z
          && PyStr.contains (PyStr.lower (stdout verify_result))
                            "jar verified"
       then
         log_info "APK signature verified using jarsigner" ;;
         ret true
       else
         log_warning
           "APK signature verification failed or APK is not signed" ;;
         ret signature_valid)
      (fun e =>
         log_warning "Could not verify with jarsigner: {e}" ;;
         ret signature_valid)
  else ret signature_valid.

(** Lines 271-349: the advisory signature check. *)
Definition verify_signature (output_file : string) : M unit :=
  try_except
    (log_info "Verifying APK signature..." ;;
     apksigner_cmd <- find_apksigner ;;
     jarsigner_cmd <- find_jarsigner ;;
     signature_valid <- try_apksigner apksigner_cmd output_file ;;
     signature_valid <-
       try_jarsigner signature_valid jarsigner_cmd output_file ;;
     if negb signature_valid then
       log_warning rule ;;
       log_warning "APK SIGNATURE WARNING" ;;
       log_warning rule ;;
       log_warning "The protected APK may not be properly signed." ;;
       log_warning
         "This can cause 'package appears to be invalid' error on Android." ;;
       log_warning
         "dpt.jar should sign the APK by default, but verification failed." ;;
       log_warning rule
     else
       log_info "APK is properly signed and ready for installation")
    (fun e =>
       log_warning "Could not verify APK signature: {e}" ;;
       log_warning "Continuing anyway - APK should be signed by dpt.jar").

(** [project_root = os.path.dirname(os.path.abspath(__file__))] *)
Definition project_root : string := module_dir h.

(** The name test of lines 363, 428, 517 and 557. *)
Definition dotted_name (item : string) : bool :=
  PyStr.contains item "." && negb (String.eqb item "venv")
  && negb (PyStr.startswith item ".").

(** Lines 367-370 and 432-435: some directory below holds a [.json]. *)
Definition has_json_below (item_path : string) : M bool :=
  triples <- os_walk item_path ;;
  ret (existsb (fun t : string * list string * list string =>
                  existsb (fun f => PyStr.endswith f ".json") (snd t))
               triples).

(** Lines 356-382: the sweep of dump folders after a run. *)
Definition sweep_dump_folders : M unit :=
  log_info "Cleaning up any folders created in project root..." ;;
  try_except
    (items <- os_listdir project_root ;;
     for_each items (fun item =>
       let item_path := Path.join project_root item in
       d <- os_path_isdir item_path ;;
       when (d && dotted_name item)
         (has_json <-
            try_except (has_json_below item_path) (fun _ => ret false) ;;
          when has_json
            (log_info "Removing dump-code folder: {item_path}" ;;
             try_except
               (shutil_rmtree item_path ;;
                log_info "Successfully removed: {item}")
               (fun e => log_warning "Could not remove {item_path}: {e}")))))
    (fun e => log_warning "Error during cleanup: {e}").

(** Lines 392-418: the result is read into memory. *)
Definition load_output (output_file : string) : M (list Byte.byte) :=
  try_except
    (log_info "Reading output file: {output_file}" ;;
     file_data <- read_file output_file ;;
     if (length file_data =? 0)%nat then
       log_error "Output file is empty!" ;;
       return_ (jsonify (Text "Protected file is empty")
         (Some "The protection process completed but generated an empty file. Please try again.")
         500)
     else
       log_info "File read successfully. Size: {} MB" ;;
       ret file_data)
    (fun e =>
       if is_IOError e then
         log_error "Error reading output file: {e}" ;;
         return_ (jsonify (Text "Failed to read protected file")
           (Some ("Could not read the output file: " ++ text e)%string) 500)
       else
         log_error "Unexpected error reading file: {e}" ;;
         log_error "{traceback}" ;;
         return_ (jsonify (Text "Unexpected error reading file")
           (Some (text e)) 500)).

(** Lines 420-442: the workspace goes, then the dump folders. *)
Definition cleanup_after_success (temp_dir : string) : M unit :=
  try_except
    (shutil_rmtree temp_dir ;;
     ex <- os_path_exists project_root ;;
     when ex
       (items <- os_listdir project_root ;;
        for_each items (fun item =>
          let item_path := Path.join project_root item in
          d <- os_path_isdir item_path ;;
          when (d && dotted_name item)
            (try_except
               (has_json <- has_json_below item_path ;;
                when has_json
                  (log_info "Cleaning up dump-code folder: {item}" ;;
                   shutil_rmtree item_path))
               (fun e =>
                  log_warning "Error cleaning up {item_path}: {e}")))))
    (fun e => log_warning "Error during cleanup: {cleanup_error}").

(** Lines 468-482 *)
Definition file_response (file_data : list Byte.byte)
    (output_filename : string) : response :=
  MkResponse 200
    (Attachment file_data
       [("Content-Disposition",
         ("attachment; filename=" ++ dquote ++ output_filename ++ dquote)%string);
        ("Content-Length", str_of_N (N.of_nat (length file_data)));
        ("Content-Type", "application/vnd.android.package-archive");
        ("Cache-Control", "no-cache, no-store, must-revalidate");
        ("Pragma", "no-cache");
        ("Expires", "0");
        ("Accept-Ranges", "bytes");
        ("Connection", "keep-alive")]).

(** Lines 444-493 *)
Definition respond (file_data : list Byte.byte) (output_filename : string)
  : M unit :=
  log_info rule ;;
  log_info "PROTECTION SUCCESSFUL!" ;;
  log_info "Output file: {output_filename}" ;;
  log_info "File size: {} MB" ;;
  log_info rule ;;
  try_except
    (log_info "Preparing file response. Size: {} MB ({} bytes)" ;;
     log_info "File response created. Headers set. Starting transfer..." ;;
     return_ (file_response file_data output_filename))
    (fun e =>
       log_error "Error creating response: {response_error}" ;;
       log_error "{traceback}" ;;
       return_ (jsonify (Text "Failed to create file response")
                  (Some ("Error: " ++ text e)%string) 500)).

(** Lines 510-523 and 550-563: the workspace goes, then every dotted
    directory of the project root. *)
Definition cleanup_after_failure (temp_dir : string) : M unit :=
  try_pass
    (shutil_rmtree temp_dir ;;
     items <- os_listdir project_root ;;
     for_each items (fun item =>
       let item_path := Path.join project_root item in
       d <- os_path_isdir item_path ;;
       when (d && dotted_name item)
         (try_pass (shutil_rmtree item_path)))).

Definition protection_failed (result : completed) : response :=
  let error_details := PyStr.or_else (stderr result) (stdout result) in
  jsonify (Text "Protection failed") (Some error_details) 500.

Definition no_output (result : completed) : response :=
  jsonify (Text "No output file generated")
    (Some (PyStr.or_else
             (PyStr.or_else (stdout result) (stderr result))
             "No output file found in output directory"))
    500.

(** Lines 247-269: the output file is the first one found. *)
Definition resolve_output (result : completed) (output_dir : string)
  : M string :=
  output_files <- find_output_files output_dir ;;
  match output_files with
  | [] =>
      log_error rule ;;
      log_error "NO OUTPUT FILE GENERATED" ;;
      log_error rule ;;
      log_error "Output directory: {output_dir}" ;;
      log_error "STDOUT: {result.stdout}" ;;
      log_error "STDERR: {result.stderr}" ;;
      log_error rule ;;
      return_ (no_output result)
  | output_file :: _ =>
      log_info "Found output file: {output_file}" ;;
      ret output_file
  end.

(** Lines 271-493: from the signature check to the response. *)
Definition deliver (file : upload) (temp_dir original_cwd : string)
    (output_file : string) : M unit :=
  verify_signature output_file ;;
  os_chdir original_cwd ;;
  sweep_dump_folders ;;
  output_size <- os_path_getsize output_file ;;
  log_info "Output file size: {} MB" ;;
  let output_filename :=
    ("protected_" ++ secure_filename h (filename file))%string in
  file_data <- load_output output_file ;;
  cleanup_after_success temp_dir ;;
  respond file_data output_filename.

(** Lines 220-493: the body of the inner [try]. *)
Definition protection_body (file : upload) (cmd : list string)
    (temp_dir output_dir original_cwd : string) : M unit :=
  log_info "Starting APK protection process..." ;;
  log_info "Working directory: {temp_dir}" ;;
  result <- subprocess_run h cmd 300 (Some temp_dir) ;;
  log_info "Command completed with return code: {result.returncode}" ;;
  if negb (returncode result =? 0)%Z then
    log_error rule ;;
    log_error "PROTECTION FAILED" ;;
    log_error rule ;;
    log_error "Return code: {result.returncode}" ;;
    log_error "STDERR: {result.stderr}" ;;
    log_error "STDOUT: {result.stdout}" ;;
    log_error rule ;;
    return_ (protection_failed result)
  else
    output_file <- resolve_output result output_dir ;;
    deliver file temp_dir original_cwd output_file.

Definition timeout_text : string :=
  "Process timed out. Free tier limit: 5 minutes processing time. Please try a smaller APK (max 150MB) or wait and retry.".

(** Lines 495-524: [except subprocess.TimeoutExpired] *)
Definition on_timeout (temp_dir original_cwd : string) : M unit :=
  try_pass (os_chdir original_cwd) ;;
  log_error rule ;;
  log_error "PROCESS TIMEOUT" ;;
  log_error rule ;;
  log_error
    "The APK protection process timed out after 5 minutes (free tier limit)." ;;
  log_error "The APK might be too large or complex." ;;
  log_error rule ;;
  cleanup_after_failure temp_dir ;;
  return_ (jsonify (Text timeout_text) None 500).

(** Lines 525-564: [except Exception as e] *)
Definition on_error (e : exn) (temp_dir original_cwd : string) : M unit :=
  try_pass (os_chdir original_cwd) ;;
  log_error "{error_log}" ;;
  cleanup_after_failure temp_dir ;;
  return_ (jsonify (Text ("Error running protection: " ++ text e)) None 500).

(** Lines 220-564: the inner [try] with its two handlers. *)
Definition run_protection (file : upload) (cmd : list string)
    (temp_dir output_dir original_cwd : string) : M unit :=
  try_except
    (protection_body file cmd temp_dir output_dir original_cwd)
    (fun e =>
       if is_TimeoutExpired e then on_timeout temp_dir original_cwd
       else on_error e temp_dir original_cwd).

(** Lines 99-217: from the workspace to the change of directory. *)
Definition prepare (req : request) (file : upload) : M job :=
  dirs <- stage file ;;
  let '(temp_dir, input_file_path, output_dir) := dirs in
  java_cmd <- find_java ;;
  check_java java_cmd ;;
  cmd <- build_cmd req java_cmd input_file_path output_dir ;;
  original_cwd <- os_getcwd ;;
  os_chdir temp_dir ;;
  ret (MkJob file cmd temp_dir output_dir original_cwd).

(** Lines 48-217: all that comes before the inner [try]. *)
Definition prelude (req : request) : M job :=
  file <- validate req ;;
  prepare req file.

(** Lines 48-564: the body of the outer [try]. *)
Definition protect_body (req : request) : M unit :=
  j <- prelude req ;;
  run_protection (job_file j) (job_cmd j) (job_temp_dir j)
                 (job_output_dir j) (job_original_cwd j).

(** Lines 566-583: the outer [except Exception as e] *)
Definition on_server_error (e : exn) : M unit :=
  let error_msg := if PyStr.truthy (text e) then text e
                   else "Unknown error" in
  log_error "{error_log}" ;;
  return_ (jsonify (Text ("Server error: " ++ error_msg)) None 500).

(** [protect_apk] (lines 46-583) *)
Definition protect_apk (req : request) : M unit :=
  try_except (protect_body req) on_server_error.

End Handler.

(** What the caller receives from a run. *)
Definition answer {A} (r : result A * world) : option response :=
  match fst r with
  | Return x => Some x
  | _ => None
  end.

Definition final {A} (r : result A * world) : world := snd r.

(** ** The health probe ([health], app.py lines 585-616) *)

(** The dictionary that [health] hands to [jsonify]. *)
Record health_report : Type := MkHealth {
  health_status : string;
  dpt_jar_exists : bool;
  java_available : bool;
  java_version : string
}.

(** [s.split('\n')[0]] *)
Fixpoint first_line (s : string) : string :=
  match s with
  | EmptyString => EmptyString
  | String c s' =>
      if Ascii.eqb c "010"%char then EmptyString
      else String c (first_line s')
  end.

Section Health.

Variable h : host.

(** Lines 590-609: the launcher is looked up as in [protect_apk] and
    probed; any exception leaves the defaults. The result is
    [(java_available, java_version)]. *)
Definition probe_java : M (bool * string) :=
  try_except
    (let java_path := environ_get h "JAVA_HOME" "" in
     let bare := if String.eqb os_name "nt" then "java.exe" else "java" in
     java_cmd <-
       (if PyStr.truthy java_path then
          let java_exe := bare in
          let java_cmd := Path.join3 java_path "bin" java_exe in
          ex <- os_path_exists java_cmd ;;
          ret (if negb ex then bare else java_cmd)
        else ret bare) ;;
     result <- subprocess_run h [java_cmd; "-version"] 5 None ;;
     ret (true,
          if PyStr.truthy (stderr result) then first_line (stderr result)
          else "Unknown"))
    (fun _ => ret (false, "Not found")).

(** [health] (lines 586-616) *)
Definition health : M health_report :=
  probed <- probe_java ;;
  jar <- os_path_exists (DPT_JAR_PATH h) ;;
  ret (MkHealth "ok" jar (fst probed) (snd probed)).

End Health.

(** * The set-up script (main.py) *)

Module Setup.

(** [platform.system()] on the POSIX host that [os_name] stands for. *)
Definition platform_system : string := "Linux".

(** [s.split()]: the words of [s] between runs of white space; [cur] is
    the word being read. *)
Fixpoint split_from (cur s : string) : list string :=
  match s with
  | EmptyString => if PyStr.truthy cur then [cur] else []
  | String c s' =>
      if PyStr.is_space c
      then (if PyStr.truthy cur then cur :: split_from "" s'
            else split_from "" s')
      else split_from (cur ++ String c "") s'
  end.

Definition split (s : string) : list string := split_from "" s.

(** [l[0]] *)
Definition item0 (l : list string) : M string :=
  match l with
  | x :: _ => ret x
  | [] => raise (MkExn OtherException "list index out of range")
  end.

(** What the script writes to the terminal: the calls of [print_step],
    [print_success], [print_error] and [print_warning] with their text,
    and a bare [print]. The texts are characters below U+0100; the three
    symbols are given by the constructor. *)
Inductive output : Type :=
| Step (n : N) (text : string)      (* "[n] text" *)
| Success (text : string)           (* U+2713, then the text *)
| Error (text : string)             (* U+2717, then the text *)
| Warning (text : string)           (* U+26A0, then the text *)
| Plain (text : string).

(** The symbol an output begins with, by its code point. *)
Definition symbol (o : output) : option string :=
  match o with
  | Success _ => Some "2713"
  | Error _ => Some "2717"
  | Warning _ => Some "26a0"
  | Step _ _ | Plain _ => None
  end.

Section Setup.

Variable h : host.

(** The terminal: what writing an output raises, if [sys.stdout] does not
    take it (an encoding without the symbols, a closed pipe). *)
Variable terminal : output -> option exn.

Definition print (o : output) : M unit :=
  match terminal o with
  | Some e => raise e
  | None => ret tt
  end.

(** [check_command] (lines 51-62) *)
Definition check_command (cmd : string) : M bool :=
  try_except
    (result <- subprocess_run h
                 (if negb (String.eqb cmd "java") then [cmd; "--version"]
                  else [cmd; "-version"]) 5 None ;;
     ret (Z.eqb (returncode result) 0))
    (fun _ => ret false).

(** Lines 102-119 of [check_java]: the probe of the launcher found. The
    warning of line 114 takes the first word of the output. *)
Definition check_version (java_cmd : string) : M (bool * option string) :=
  try_except
    (result <- subprocess_run h [java_cmd; "-version"] 5 None ;;
     let version_output := PyStr.or_else (stderr result) (stdout result) in
     if PyStr.contains version_output "21"
        || PyStr.contains version_output
             ("openjdk version " ++ dquote ++ "21")
     then
       print (Success "Java JDK 21 found") ;;
       ret (true, Some java_cmd)
     else
       word <- (if PyStr.truthy version_output
                then item0 (split version_output)
                else ret "Unknown") ;;
       print (Warning ("Java found but version might not be 21: " ++ word)) ;;
       print (Warning "Continuing anyway...") ;;
       ret (true, Some java_cmd))
    (fun e =>
       print (Error ("Error checking Java: " ++ text e)) ;;
       ret (false, None)).

(** [check_java] (lines 74-119) *)
Definition check_java : M (bool * option string) :=
  print (Step 2 "Checking Java JDK 21 installation...") ;;
  let java_home := environ_get h "JAVA_HOME" "" in
  java_cmd <-
    (if PyStr.truthy java_home then
       let java_exe :=
         if String.eqb platform_system "Windows" then "java.exe"
         else "java" in
       let java_cmd := Path.join3 java_home "bin" java_exe in
       ex <- os_path_exists java_cmd ;;
       ret (if negb ex then None else Some java_cmd)
     else ret None) ;;
  missing <-
    match java_cmd with
    | None => ret true
    | Some c => ex <- os_path_exists c ;; ret (negb ex)
    end ;;
  if missing : bool then
    found <- check_command "java" ;;
    if found : bool then check_version "java"
    else
      print (Error "Java JDK 21 not found!") ;;
      print (Warning "Please install Java JDK 21:") ;;
      (if String.eqb platform_system "Windows"
       then print (Plain
              "  Windows: https://adoptium.net/temurin/releases/?version=21")
       else print (Plain
              "  Linux/Mac: Use package manager or download from Adoptium")) ;;
      ret (false, None)
  else
    match java_cmd with
    | Some c => check_version c
    | None => ret (false, None)
    end.

End Setup.

End Setup.

(** ** A small host for concrete runs *)

Module Demo.

Import Fs.

Definition apk_bytes : list Byte.byte := [Byte.x50; Byte.x4b; Byte.x03].

(** [/tmp], the project under [/srv/app] and a home directory. *)
Definition tree : node :=
  Dir [("tmp", Dir []);
       ("srv", Dir [("app", Dir [("executable",
                        Dir [("dpt.jar", File [Byte.x00])])])]);
       ("home", Dir [("user", Dir [])])].

Definition start : world := MkWorld tree ["home"; "user"] [] [] [].

(** A tool that writes [name] with [data] into the output directory it
    is given after [-o], takes [d] time units and exits with [rc]. *)
Definition writes (name : string) (data : list Byte.byte)
    (args : list string) (t : node) : node :=
  match nth_error args 6 with
  | Some out =>
      match store (Path.components out ++ [name]) (File data) t with
      | Some t' => t'
      | None => t
      end
  | None => t
  end.

Definition is_probe (args : list string) : bool :=
  match args with
  | [_; v] => String.eqb v "-version"
  | _ => false
  end.

Definition is_tool (args : list string) : bool :=
  match nth_error args 1 with
  | Some a => String.eqb a "-jar"
  | None => false
  end.

(** The launcher answers its probe; the tool behaves as [tool]; nothing
    else can be started. *)
Definition host_with
    (tool : list string -> node -> behaviour) : host :=
  MkHost [] "/srv/app" "/var/tmp" ["k3x9"]
    (fun s => s)
    (fun args _ t =>
       if is_probe args then Runs 1 0 "" "openjdk version 21" t
       else if is_tool args then tool args t
       else CannotStart (MkExn FileNotFoundError "No such file or directory")).

Definition copies : host :=
  host_with (fun args t =>
    Runs 40 0 "done" "" (writes "app_signed.apk" apk_bytes args t)).

Definition fails (o e : string) : host :=
  host_with (fun args t => Runs 2 1 o e t).

Definition hangs : host :=
  host_with (fun args t => Runs 301 0 "" "" t).

Definition silent : host :=
  host_with (fun args t => Runs 2 0 "" "" t).

(** The tool copies, and the verifier [jarsigner] behaves as [verifier]. *)
Definition is_jarsigner (args : list string) : bool :=
  match args with
  | c :: _ => String.eqb c "jarsigner"
  | [] => false
  end.

Definition copies_and (verifier : node -> behaviour) : host :=
  MkHost [] "/srv/app" "/var/tmp" ["k3x9"]
    (fun s => s)
    (fun args _ t =>
       if is_probe args then Runs 1 0 "" "openjdk version 21" t
       else if is_tool args
            then Runs 40 0 "done" "" (writes "app_signed.apk" apk_bytes args t)
            else if is_jarsigner args then verifier t
                 else CannotStart
                        (MkExn FileNotFoundError "No such file or directory")).

(** A workspace after a run: a text file, a sub-directory with a package
    and a bundle, in this listing order. *)
Definition after_run : world :=
  MkWorld
    (Dir [("tmp", Dir [("w", Dir [("output",
        Dir [("report.txt", File [Byte.x01]);
             ("deep", Dir [("first.apk", File [Byte.x02])]);
             ("second.aab", File [Byte.x03])])])])])
    ["tmp"; "w"] [] [] [].

(** The tool cannot be started. *)
Definition unstartable : host :=
  host_with (fun args t => CannotStart (MkExn OSError "Exec format error")).

(** No name is left for a workspace. *)
Definition crowded : world :=
  MkWorld (Dir [("tmp", Dir [("apk_protect_k3x9", Dir [])]);
                ("home", Dir [("user", Dir [])])])
          ["home"; "user"] [] [] [].

(** The launcher hangs on its probe. *)
Definition no_java : host :=
  MkHost [] "/srv/app" "/var/tmp" ["k3x9"] (fun s => s)
    (fun args _ t => Runs 6 0 "" "" t).

(** The project with its configuration template in place. *)
Definition tree_with_template : node :=
  Dir [("tmp", Dir []);
       ("srv", Dir [("app", Dir [("executable",
           Dir [("dpt.jar", File [Byte.x00]);
                ("dpt-protect-config-template.json", File [Byte.x7b])])])]);
       ("home", Dir [("user", Dir [])])].

Definition start_with_template : world :=
  MkWorld tree_with_template ["home"; "user"] [] [] [].

(** A form with one file; 200 bytes of framing. *)
Definition post (name : string) (data : list Byte.byte)
    (fields : list (string * string)) : request :=
  MkRequest [("apk_file", MkUpload name data)] fields 200.

(** One byte more than the limit of 150 MiB. *)
Definition oversized : list Byte.byte :=
  repeat Byte.x00 (N.to_nat 157286401).

(** A JDK under [/opt/jdk], named by [JAVA_HOME]; its launcher takes one
    time unit, exits with 1 and prints [out] on its error stream. *)
Definition jdk_tree : node :=
  Dir [("opt", Dir [("jdk", Dir [("bin", Dir [("java", File [Byte.x7f])])])]);
       ("home", Dir [("user", Dir [])])].

Definition jdk_start : world := MkWorld jdk_tree ["home"; "user"] [] [] [].

Definition with_jdk (out : string) : host :=
  MkHost [("JAVA_HOME", "/opt/jdk")] "/srv/app" "/var/tmp" ["k3x9"]
    (fun s => s)
    (fun args _ t => Runs 1 1 "" out t).

(** The project with two folders of its owner beside [executable]: one
    with a dot in its name, one with a dot and a [.json] file. *)
Definition project_tree : node :=
  Dir [("tmp", Dir []);
       ("srv", Dir [("app",
          Dir [("executable", Dir [("dpt.jar", File [Byte.x00])]);
               ("backup.old", Dir [("notes.txt", File [Byte.x01])]);
               ("site.data", Dir [("conf", Dir [("a.json", File [Byte.x7b])])]);
               ("README.md", File [Byte.x23])])]);
       ("home", Dir [("user", Dir [])])].

Definition project_start : world :=
  MkWorld project_tree ["home"; "user"] [] [] [].

(** The tool ends in time with status 1, and its output does not decode. *)
Definition garbles : host :=
  host_with (fun args t =>
    Undecodable 2 1
      "'utf-8' codec can't decode byte 0xff in position 0: invalid start byte"
      t).

(** Every program ends in time with status 0, and its output does not
    decode. *)
Definition garbled_java : host :=
  MkHost [] "/srv/app" "/var/tmp" ["k3x9"] (fun s => s)
    (fun args _ t =>
       Undecodable 1 0
         "'utf-8' codec can't decode byte 0xff in position 0: invalid start byte"
         t).

(** A terminal that takes all the script writes, and one whose encoding
    lacks the three symbols. *)
Definition utf8 : Setup.output -> option exn := fun _ => None.

Definition ascii_only : Setup.output -> option exn :=
  fun o =>
    match Setup.symbol o with
    | Some code =>
        Some (MkExn OtherException
                ("'ascii' codec can't encode character '\u" ++ code
                 ++ "' in position 5: ordinal not in range(128)"))
    | None => None
    end.

End Demo.

(** ** Vocabulary of the properties *)

(** The answers of the handler that the properties name. *)
Definition invalid_type : response :=
  jsonify (Text "Invalid file type. Only APK and AAB files are supported")
          None 400.

Definition too_large (file_size_bytes : N) : response :=
  jsonify (FileSizeExceeds file_size_bytes) None 400.

Definition already_protected : response :=
  jsonify (Text
    "This file appears to be already protected. Please upload the original APK file, not the protected version.")
    None 400.

Definition timed_out : response := jsonify (Text timeout_text) None 500.

(** [s] is [suf] with something in front, [p] with something behind. *)
Definition ends_with (s suf : string) : Prop :=
  exists stem, s = (stem ++ suf)%string.

Definition begins_with (s p : string) : Prop :=
  exists rest, s = (p ++ rest)%string.

(** A file name of an accepted type, whatever its case. *)
Definition accepted_name (name : string) : Prop :=
  ends_with (PyStr.lower name) ".apk" \/ ends_with (PyStr.lower name) ".aab".

(** The answer to a request whose body is refused. *)
Definition refused : response :=
  jsonify (Text "Server error: 413 Request Entity Too Large: The data value transmitted exceeds the capacity limit.")
          None 500.

(** *** What a computation may do

    [sat R P m]: from any world [m] leads to a world related by [R], and
    a response it returns satisfies [P]. *)
Definition sat (R : world -> world -> Prop) (P : response -> Prop)
    {A} (m : M A) : Prop :=
  forall w, R w (snd (m w)) /\ (forall r, fst (m w) = Return r -> P r).

Definition anywhere (_ _ : world) : Prop := True.
Definition no_answer (_ : response) : Prop := False.
Definition any_answer (_ : response) : Prop := True.

(** No child process appears or disappears. *)
Definition same_procs (w w' : world) : Prop := procs w' = procs w.

(** A log entry below the error level. *)
Definition calm (e : level * string) : Prop := fst e <> ERROR.

(** Nothing but the file tree changes, and the log grows by calm entries. *)
Definition steady (w w' : world) : Prop :=
  cwd w' = cwd w /\ procs w' = procs w /\
  exists l, log w' = log w ++ l /\ Forall calm l.

(** The answer is an internal failure or the result. *)
Definition served (r : response) : Prop := status r = 500%N \/ status r = 200%N.

(** *** The command line, in the words of the specification *)

Record options : Type := MkOptions {
  opt_debug : bool;
  opt_disable_acf : bool;
  opt_dump_code : bool;
  opt_keep_classes : bool;
  opt_noisy_log : bool;
  opt_smaller : bool;
  opt_exclude_abis : string;      (* empty: not selected *)
  opt_protect_config : bool
}.

(** The options a request selects. *)
Definition options_of (req : request) : options :=
  MkOptions (form_is_true req "debug") (form_is_true req "disable_acf")
    (form_is_true req "dump_code") (form_is_true req "keep_classes")
    (form_is_true req "noisy_log") (form_is_true req "smaller")
    (PyStr.strip (form_get req "exclude_abis"))
    (form_is_true req "use_protect_config").

Definition flag (selected : bool) (args : list string) : list string :=
  if selected then args else [].

(** The optional part: one flag per selected option, in the fixed order;
    [template] tells whether the configuration flag is passed. *)
Definition option_flags (o : options) (config : string) (template : bool)
  : list string :=
  flag (opt_debug o) ["--debug"]
  ++ flag (opt_disable_acf o) ["--disable-acf"]
  ++ flag (opt_dump_code o) ["--dump-code"]
  ++ flag (opt_keep_classes o) ["-K"]
  ++ flag (opt_noisy_log o) ["--noisy-log"]
  ++ flag (opt_smaller o) ["-S"]
  ++ flag (PyStr.truthy (opt_exclude_abis o)) ["-e"; opt_exclude_abis o]
  ++ flag template ["-c"; config].

(** The optional part as the claim words it: a flag for every selected
    option, the configuration template included. *)
Definition claimed_flags (o : options) (config : string) : list string :=
  option_flags o config (opt_protect_config o).

(** The argument vector: the tool, the input, the output directory, the
    optional part. *)
Definition argument_vector (tool : list string) (input output : string)
    (optional : list string) : list string :=
  tool ++ ["-f"; input] ++ ["-o"; output] ++ optional.

(** The tool as the handler starts it: the launcher on the jar. *)
Definition tool_of (h : host) (java_cmd : string) : list string :=
  [java_cmd; "-jar"; DPT_JAR_PATH h].

Definition no_options : options :=
  MkOptions false false false false false false "" false.

(** *** The scan of the output directory *)

(** [holds_file n f]: a file called [f] lies somewhere below [n]. *)
Inductive holds_file : Fs.node -> string -> Prop :=
| holds_here : forall es f d,
    In (f, Fs.File d) es -> holds_file (Fs.Dir es) f
| holds_below : forall es name es' f,
    In (name, Fs.Dir es') es -> holds_file (Fs.Dir es') f ->
    holds_file (Fs.Dir es) f.

(** The files [os.walk] meets, in its order, each with its directory. *)
Definition scan_order (triples : list (string * list string * list string))
  : list (string * string) :=
  flat_map (fun t : string * list string * list string =>
              map (pair (fst (fst t))) (snd t)) triples.

Definition accepted_file (f : string) : bool :=
  PyStr.endswith_any f accepted_extensions.

(** What [os.walk(top)] finds in world [w]. *)
Definition scanned (w : world) (top : string)
  : list (string * list string * list string) :=
  match at_path w top with
  | Some n => Fs.walk top n
  | None => []
  end.

(** The walks of the sub-directories of a directory, in listing order. *)
Definition walk_below (top : string) (es : list (string * Fs.node))
  : list (string * list string * list string) :=
  flat_map (fun e : string * Fs.node =>
              match snd e with
              | Fs.Dir _ => Fs.walk (Path.join top (fst e)) (snd e)
              | Fs.File _ => []
              end) es.

(** *** More relations between worlds *)

(** The working directory stays. *)
Definition same_cwd (w w' : world) : Prop := cwd w' = cwd w.

(** No directory appears: what is a directory afterwards was one before. *)
Definition no_new_dirs (w w' : world) : Prop :=
  forall p, Fs.isdir_at p (fs w') = true -> Fs.isdir_at p (fs w) = true.

(** Only the log changes. *)
Definition only_logs (w w' : world) : Prop :=
  fs w' = fs w /\ cwd w' = cwd w /\ procs w' = procs w.

(** The answer is an internal failure. *)
Definition failed (r : response) : Prop := status r = 500%N.

(** The answer is a rejection of the request. *)
Definition rejected (r : response) : Prop := status r = 400%N.

(** [m] never runs to its end: it leaves by [return] or by an exception. *)
Definition ends_early {A} (m : M A) : Prop :=
  forall w a, fst (m w) <> Val a.

(** *** The run of the tool *)


(** *** The sweep of the project root *)

(** A name as a directory lists it: not empty, not [.], no separator. *)
Definition plain_name (s : string) : Prop :=
  s <> "" /\ s <> "." /\ PyStr.contains s "/" = false.

(** Some directory of the tree [n], walked from [path], holds a file
    whose name ends in [.json]. *)
Definition holds_json (path : string) (n : Fs.node) : bool :=
  existsb (fun t : string * list string * list string =>
             existsb (fun f => PyStr.endswith f ".json") (snd t))
          (Fs.walk path n).

(** What the cleanup after a failure removes from the project root, and
    what the cleanup after a success removes. *)
Definition swept_on_failure (name : string) (o : option Fs.node) : bool :=
  match o with
  | Some (Fs.Dir _) => dotted_name name
  | _ => false
  end.

Definition swept_on_success (path name : string) (o : option Fs.node)
  : bool :=
  match o with
  | Some (Fs.Dir es) => dotted_name name && holds_json path (Fs.Dir es)
  | _ => false
  end.

(** *** The probes of the launcher *)

(** Every character of [s] is white space. *)
Fixpoint all_space (s : string) : bool :=
  match s with
  | EmptyString => true
  | String c s' => PyStr.is_space c && all_space s'
  end.

(** [s] is not empty and holds white space only. *)
Definition blank (s : string) : bool := PyStr.truthy s && all_space s.

(** The probe of [cmd] with [flag], started in world [w], ends within 5
    time units with exit status [rc] and an output that decodes. *)
Definition probe_ends (h : host) (cmd flag : string) (w : world) (rc : Z)
  : Prop :=
  exists d o e after,
    exec h [cmd; flag] (cwd w) (fs w) = Runs d rc o e after /\ (d <= 5)%N.

(** *** The set-up script *)

(** What the handler of lines 118-119 of main.py makes of an exception:
    it reports it, if the terminal takes the report. *)
Definition version_check_failed (terminal : Setup.output -> option exn)
    (e : exn) : result (bool * option string) :=
  match terminal (Setup.Error ("Error checking Java: " ++ text e)) with
  | Some x => Raise x
  | None => Val (false, None)
  end.

(** The result is one that [check_java] of the script returns for the
    launcher [c], or an exception that the terminal raised. *)
Definition returned_or_print_error
    (terminal : Setup.output -> option exn) (c : string)
    (r : result (bool * option string)) : Prop :=
  r = Val (false, None) \/ r = Val (true, Some c) \/
  exists o e, terminal o = Some e /\ r = Raise e.

(** *** The workspace *)

(** Where the workspace is made (lines 99-102). *)
Definition temp_base (h : host) (w : world) : string :=
  match at_path w "/tmp" with Some _ => "/tmp" | None => tempdir h end.

(** Every name that [mkdtemp] draws for a workspace is taken. *)
Definition no_free_name (h : host) (w : world) : Prop :=
  forall name, In name (temp_names h) ->
    at_path w (Path.join (temp_base h w) ("apk_protect_" ++ name)) <> None.

(** *** The launches *)

(** The launches of [w'] are those of [w] and some more. *)
Definition more_invoked (w w' : world) : Prop :=
  exists later, invoked w' = later ++ invoked w.

(** No launch is made. *)
Definition same_invoked (w w' : world) : Prop := invoked w' = invoked w.

(** * Properties *)

(** ** Strings *)

Lemma endswith_spec (s suf : string) :
  PyStr.endswith s suf = true <-> ends_with s suf.
Proof.
  unfold ends_with. induction s as [|c s IH]; cbn [PyStr.endswith].
  - destruct (String.eqb_spec "" suf) as [E|E].
    + split; [intros _; exists ""; subst; reflexivity | reflexivity].
    + split; [discriminate|].
      intros [stem H]. destruct stem; simpl in H; [congruence | discriminate].
  - destruct (String.eqb_spec (String c s) suf) as [E|E].
    + split; [intros _; exists ""; subst; reflexivity | reflexivity].
    + rewrite IH. split.
      * intros [stem H]. exists (String c stem). simpl. now rewrite H.
      * intros [stem H]. destruct stem as [|c' stem]; simpl in H.
        -- congruence.
        -- exists stem. congruence.
Qed.

Lemma accepted_name_spec (name : string) :
  PyStr.endswith_any (PyStr.lower name) accepted_extensions = true
  <-> accepted_name name.
Proof.
  unfold accepted_name, PyStr.endswith_any, accepted_extensions. simpl.
  rewrite orb_false_r, orb_true_iff, !endswith_spec. reflexivity.
Qed.

Lemma startswith_spec (s p : string) :
  PyStr.startswith s p = true <-> begins_with s p.
Proof.
  unfold PyStr.startswith, begins_with. revert s.
  induction p as [|c p IH]; intros [|c' s]; simpl.
  - split; [intros _; exists ""; reflexivity | reflexivity].
  - split; [intros _; exists (String c' s); reflexivity | reflexivity].
  - split; [discriminate | intros [rest H]; discriminate].
  - destruct (Ascii.ascii_dec c c') as [E|E].
    + subst. rewrite IH. split; intros [rest H]; exists rest; congruence.
    + split; [discriminate | intros [rest H]; congruence].
Qed.

(** ** What [subprocess.run] leaves behind *)

Lemma remove_first_head (a : list string) (l : list (list string)) :
  remove_first a (a :: l) = l.
Proof. simpl. destruct (list_eq_dec string_dec a a); congruence. Qed.

Lemma reap_started (args : list string) (d : N)
    (c : completed + string) (after : Fs.node) (w : world) :
  reap (MkProcess args d c after) (set_procs (args :: procs w) w)
  = (Val tt, set_fs after w).
Proof.
  unfold reap, modify, set_fs, set_procs.
  cbn [argv leaves procs fs cwd log invoked]. rewrite remove_first_head.
  reflexivity.
Qed.

(** [subprocess.run] in one step. *)
Lemma subprocess_run_eq (h : host) (args : list string) (t : N)
    (dir : option string) (w : world) :
  subprocess_run h args t dir w =
  match start_dir_error w dir with
  | Some e => (Raise e, invoke args w)
  | None =>
      match exec h args (start_dir w dir) (fs w) with
      | CannotStart e => (Raise e, invoke args w)
      | Runs d rc o e after =>
          if (t <? d)%N
          then (Raise (timeout_expired args t), set_fs after (invoke args w))
          else (Val (MkCompleted rc o e), set_fs after (invoke args w))
      | Undecodable d rc why after =>
          if (t <? d)%N
          then (Raise (timeout_expired args t), set_fs after (invoke args w))
          else (Raise (MkExn OtherException why),
                set_fs after (invoke args w))
      end
  end.
Proof.
  unfold subprocess_run, bind, Popen. cbv zeta.
  destruct (start_dir_error w dir); [reflexivity|].
  destruct (exec h args _ (fs w)) as [e|d rc o e after|d rc why after];
    [reflexivity| |];
    unfold try_except, communicate; cbn [duration outcome argv];
    (destruct (t <? d)%N;
     [unfold raise, timeout_expired, bind, kill; cbn [is_TimeoutExpired cls];
      change (procs w) with (procs (invoke args w));
      rewrite reap_started; reflexivity
     |unfold bind, raise, ret;
      change (procs w) with (procs (invoke args w));
      rewrite reap_started; reflexivity]).
Qed.

(** The directory given to [subprocess.run] is there. *)
Lemma start_dir_ok (w : world) (dir : string) :
  Fs.isdir_at (Path.resolve (cwd w) dir) (fs w) = true ->
  start_dir_error w (Some dir) = None.
Proof. intros H. unfold start_dir_error. rewrite H. reflexivity. Qed.

(** Whatever the program does, [subprocess.run] ends in the world it
    started from, up to the launch it records and the file tree, and does
    not leave the handler. *)
Lemma subprocess_run_world (h : host) (args : list string) (t : N)
    (dir : option string) (w : world) :
  (snd (subprocess_run h args t dir w) = invoke args w
   \/ exists f, snd (subprocess_run h args t dir w)
               = set_fs f (invoke args w))
  /\ (forall r, fst (subprocess_run h args t dir w) <> Return r).
Proof.
  rewrite subprocess_run_eq.
  destruct (start_dir_error w dir);
    [split; [left; reflexivity | discriminate]|].
  destruct (exec h args _ (fs w)) as [e|d rc o e after|d rc why after];
    [split; [left; reflexivity | discriminate]| |];
    (destruct (t <? d)%N;
     (split; [right; eexists; reflexivity | discriminate])).
Qed.


(** A program that ends in time hands back its result. *)
Lemma subprocess_run_completes (h : host) (args : list string) (t : N)
    (dir : string) (w : world) (d : N) (rc : Z) (o e : string)
    (after : Fs.node) :
  Fs.isdir_at (Path.resolve (cwd w) dir) (fs w) = true ->
  exec h args (Path.resolve (cwd w) dir) (fs w) = Runs d rc o e after ->
  (d <= t)%N ->
  subprocess_run h args t (Some dir) w
  = (Val (MkCompleted rc o e), set_fs after (invoke args w)).
Proof.
  intros Hd He Ht. rewrite subprocess_run_eq, (start_dir_ok w dir Hd).
  cbn [start_dir]. rewrite He.
  assert (E : (t <? d)%N = false) by (apply N.ltb_ge; exact Ht).
  rewrite E. reflexivity.
Qed.

(** The launch is recorded, whatever comes of it. *)
Lemma subprocess_run_invoked (h : host) (args : list string) (t : N)
    (dir : option string) (w : world) :
  invoked (snd (subprocess_run h args t dir w)) = args :: invoked w.
Proof.
  destruct (subprocess_run_world h args t dir w) as [[E|[f E]] _];
    rewrite E; reflexivity.
Qed.

(** ** The rules of [sat] *)

Section Sat.

Variable R : world -> world -> Prop.
Variable P : response -> Prop.
Hypothesis R_refl : forall w, R w w.
Hypothesis R_trans : forall a b c, R a b -> R b c -> R a c.

Lemma sat_ret A (a : A) : sat R P (ret a).
Proof. intros w; simpl; split; [apply R_refl | discriminate]. Qed.

Lemma sat_raise A (e : exn) : sat R P (@raise A e).
Proof. intros w; simpl; split; [apply R_refl | discriminate]. Qed.

Lemma sat_return A (r : response) : P r -> sat R P (@return_ A r).
Proof.
  intros H w; simpl; split; [apply R_refl|].
  intros r0 E; inversion E; subst; exact H.
Qed.

Lemma sat_bind A B (m : M A) (k : A -> M B) :
  sat R P m -> (forall a, sat R P (k a)) -> sat R P (bind m k).
Proof.
  intros Hm Hk w. unfold bind. destruct (Hm w) as [H1 H2].
  destruct (m w) as [[a|r|e] w1]; simpl in *.
  - destruct (Hk a w1) as [H3 H4]. split; [eapply R_trans; eauto | exact H4].
  - split; [exact H1 |]. intros r0 E; inversion E; subst. now apply H2.
  - split; [exact H1 | discriminate].
Qed.

Lemma sat_try_except A (m : M A) (hd : exn -> M A) :
  sat R P m -> (forall e, sat R P (hd e)) -> sat R P (try_except m hd).
Proof.
  intros Hm Hh w. unfold try_except. destruct (Hm w) as [H1 H2].
  destruct (m w) as [[a|r|e] w1]; simpl in *.
  - split; [exact H1 | discriminate].
  - split; [exact H1 | exact H2].
  - destruct (Hh e w1) as [H3 H4]. split; [eapply R_trans; eauto | exact H4].
Qed.

Lemma sat_try_pass (m : M unit) : sat R P m -> sat R P (try_pass m).
Proof. intros H. apply sat_try_except; [exact H | intros; apply sat_ret]. Qed.

Lemma sat_when (b : bool) (m : M unit) : sat R P m -> sat R P (when b m).
Proof. intros H. destruct b; simpl; [exact H | apply sat_ret]. Qed.

Lemma sat_for_each A (l : list A) (body : A -> M unit) :
  (forall x, sat R P (body x)) -> sat R P (for_each l body).
Proof.
  intros H. induction l as [|x l IH]; simpl.
  - apply sat_ret.
  - apply sat_bind; [apply H | intros _; exact IH].
Qed.

Lemma sat_filter_m A (test : A -> M bool) (l : list A) :
  (forall x, sat R P (test x)) -> sat R P (filter_m test l).
Proof.
  intros H. induction l as [|x l IH]; simpl.
  - apply sat_ret.
  - apply sat_bind; [apply H | intros b].
    apply sat_bind; [exact IH | intros rest; apply sat_ret].
Qed.

(** A computation that only looks at the world. *)
Lemma sat_reader A (f : world -> result A) :
  (forall w r, f w <> Return r) -> sat R P (fun w => (f w, w)).
Proof.
  intros H w; simpl. split; [apply R_refl|]. intros r E. destruct (H _ _ E).
Qed.

Lemma sat_os_path_exists p : sat R P (os_path_exists p).
Proof. apply (sat_reader (fun w => Val _)). discriminate. Qed.

Lemma sat_os_path_isdir p : sat R P (os_path_isdir p).
Proof. apply (sat_reader (fun w => Val _)). discriminate. Qed.

Lemma sat_os_getcwd : sat R P os_getcwd.
Proof. apply (sat_reader (fun w => Val _)). discriminate. Qed.

Lemma sat_os_walk p : sat R P (os_walk p).
Proof. apply (sat_reader (fun w => Val _)). discriminate. Qed.

Lemma sat_os_listdir p : sat R P (os_listdir p).
Proof.
  intros w. unfold os_listdir.
  destruct (at_path w p) as [[d|es]|]; cbn [fst snd];
    (split; [apply R_refl | discriminate]).
Qed.

Lemma sat_os_path_getsize p : sat R P (os_path_getsize p).
Proof.
  intros w. unfold os_path_getsize.
  destruct (at_path w p) as [[d|es]|]; cbn [fst snd];
    (split; [apply R_refl | discriminate]).
Qed.

Lemma sat_read_file p : sat R P (read_file p).
Proof.
  intros w. unfold read_file.
  destruct (at_path w p) as [[d|es]|]; cbn [fst snd];
    (split; [apply R_refl | discriminate]).
Qed.

Lemma sat_has_json_below p : sat R P (has_json_below p).
Proof.
  unfold has_json_below.
  apply sat_bind; [apply sat_os_walk | intros; apply sat_ret].
Qed.

(** Steps that change the world need [R] to allow the change. *)
Hypothesis R_log : forall l s w, l <> ERROR -> R w (add_log (l, s) w).

Lemma sat_log_info s : sat R P (log_info s).
Proof. intros w; simpl; split; [apply R_log | ]; discriminate. Qed.

Lemma sat_log_warning s : sat R P (log_warning s).
Proof. intros w; simpl; split; [apply R_log | ]; discriminate. Qed.

Hypothesis R_fs : forall f w, R w (set_fs f w).

Lemma sat_shutil_rmtree p : sat R P (shutil_rmtree p).
Proof.
  intros w. unfold shutil_rmtree.
  destruct (at_path w p) as [[d|es]|]; simpl;
    (split; [first [apply R_fs | apply R_refl] | discriminate]).
Qed.

Lemma sat_os_mkdir p : sat R P (os_mkdir p).
Proof.
  intros w. unfold os_mkdir. cbv zeta.
  destruct (Fs.lookup (Path.resolve (cwd w) p) (fs w)); cbn [fst snd];
    [split; [apply R_refl | discriminate]|].
  destruct (Fs.lookup _ (fs w)) as [[d|es]|]; cbn [fst snd];
    try (split; [apply R_refl | discriminate]).
  destruct (Fs.store _ _ _); cbn [fst snd];
    (split; [first [apply R_fs | apply R_refl] | discriminate]).
Qed.

Lemma sat_mkdir_exist_ok p : sat R P (mkdir_exist_ok p).
Proof.
  unfold mkdir_exist_ok. apply sat_try_except; [apply sat_os_mkdir|].
  intros e. apply sat_bind; [apply sat_os_path_isdir|].
  intros b. destruct (negb b); [apply sat_raise | apply sat_ret].
Qed.

Lemma sat_makedirs_from fuel p : sat R P (makedirs_from fuel p).
Proof.
  revert p. induction fuel as [|fuel IH]; intros p; cbn [makedirs_from];
    destruct (Path.split p) as [hd tl];
    destruct (if negb (PyStr.truthy tl) then Path.split hd else (hd, tl))
      as [hd' tl'];
    (apply sat_bind; [apply sat_os_path_exists|]); intros ex;
    (destruct (PyStr.truthy hd' && PyStr.truthy tl' && negb ex);
     [|apply sat_mkdir_exist_ok]);
    (apply sat_bind;
     [|intros _; destruct (String.eqb tl' ".");
       [apply sat_ret | apply sat_mkdir_exist_ok]]).
  - apply sat_ret.
  - apply sat_try_except; [apply IH|].
    intros e. destruct (is_FileExistsError e);
      [apply sat_ret | apply sat_raise].
Qed.

Lemma sat_os_makedirs p : sat R P (os_makedirs p).
Proof. apply sat_makedirs_from. Qed.

Lemma sat_save data p : sat R P (save data p).
Proof.
  intros w. unfold save. cbv zeta.
  assert (T : forall o : option Fs.node,
    let r := match o with
             | Some (Fs.Dir _) =>
                 match Fs.store (Path.resolve (cwd w) p) (Fs.File data) (fs w)
                 with
                 | Some f => (Val tt, set_fs f w)
                 | None => (Raise (missing w p), w)
                 end
             | _ => (Raise (missing w p), w)
             end in
    R w (snd r) /\ (forall r0, fst r = Return r0 -> P r0)).
  { intros [[d|es]|]; cbn [fst snd];
      try (split; [apply R_refl | discriminate]).
    destruct (Fs.store _ _ _); cbn [fst snd];
      (split; [first [apply R_fs | apply R_refl] | discriminate]). }
  destruct (Fs.lookup (Path.resolve (cwd w) p) (fs w)) as [[d|es]|];
    try apply T.
  cbn [fst snd]. split; [apply R_refl | discriminate].
Qed.

Lemma sat_mkdtemp_from names prefix dir :
  sat R P (mkdtemp_from names prefix dir).
Proof.
  induction names as [|n names IH]; simpl.
  - apply sat_raise.
  - apply sat_try_except.
    + apply sat_bind; [apply sat_os_mkdir | intros; apply sat_ret].
    + intros e. destruct (cls e); first [exact IH | apply sat_raise].
Qed.

Hypothesis R_invoke : forall a w, R w (invoke a w).

Lemma sat_subprocess_run h args t dir : sat R P (subprocess_run h args t dir).
Proof.
  intros w. destruct (subprocess_run_world h args t dir w) as [[E|[f E]] N].
  - rewrite E. split; [apply R_invoke | intros r H; destruct (N _ H)].
  - rewrite E. split; [|intros r H; destruct (N _ H)].
    apply (R_trans (R_invoke args w) (R_fs f (invoke args w))).
Qed.

Hypothesis R_err : forall s w, R w (add_log (ERROR, s) w).

Lemma sat_log_error s : sat R P (log_error s).
Proof. intros w; simpl; split; [apply R_err | discriminate]. Qed.

Hypothesis R_cwd : forall c w, R w (set_cwd c w).

Lemma sat_os_chdir p : sat R P (os_chdir p).
Proof.
  intros w. unfold os_chdir.
  destruct (at_path w p) as [[d|es]|]; cbn [fst snd];
    (split; [first [apply R_cwd | apply R_refl] | discriminate]).
Qed.

End Sat.

(** ** The blocks of the handler under [sat] *)

Ltac sat_step :=
  lazymatch goal with
  | |- sat _ _ (bind _ _) => apply sat_bind; [assumption | | intros ?]
  | |- sat _ _ (try_except _ _) =>
      apply sat_try_except; [assumption | | intros ?]
  | |- sat _ _ (try_pass _) => apply sat_try_pass; [assumption..|]
  | |- sat _ _ (when _ _) => apply sat_when; [assumption|]
  | |- sat _ _ (for_each _ _) =>
      apply sat_for_each; [assumption.. | intros ?]
  | |- sat _ _ (filter_m _ _) =>
      apply sat_filter_m; [assumption.. | intros ?]
  | |- sat _ _ (ret _) => apply sat_ret; assumption
  | |- sat _ _ (raise _) => apply sat_raise; assumption
  | |- sat _ _ (return_ _) => apply sat_return; [assumption|]
  | |- sat _ _ (log_info _) => apply sat_log_info; assumption
  | |- sat _ _ (log_warning _) => apply sat_log_warning; assumption
  | |- sat _ _ (log_error _) => apply sat_log_error; assumption
  | |- sat _ _ (os_path_exists _) => apply sat_os_path_exists; assumption
  | |- sat _ _ (os_path_isdir _) => apply sat_os_path_isdir; assumption
  | |- sat _ _ os_getcwd => apply sat_os_getcwd; assumption
  | |- sat _ _ (os_walk _) => apply sat_os_walk; assumption
  | |- sat _ _ (os_listdir _) => apply sat_os_listdir; assumption
  | |- sat _ _ (os_path_getsize _) => apply sat_os_path_getsize; assumption
  | |- sat _ _ (read_file _) => apply sat_read_file; assumption
  | |- sat _ _ (has_json_below _) => apply sat_has_json_below; assumption
  | |- sat _ _ (shutil_rmtree _) => apply sat_shutil_rmtree; assumption
  | |- sat _ _ (os_makedirs _) => apply sat_os_makedirs; assumption
  | |- sat _ _ (save _ _) => apply sat_save; assumption
  | |- sat _ _ (os_chdir _) => apply sat_os_chdir; assumption
  | |- sat _ _ (mkdtemp_from _ _ _) => apply sat_mkdtemp_from; assumption
  | |- sat _ _ (subprocess_run _ _ _ _) =>
      apply sat_subprocess_run; assumption
  | |- sat _ _ (if ?b then _ else _) => destruct b
  | |- sat _ _ (match ?x with _ => _ end) => destruct x
  end.

Ltac sat_steps := cbv zeta; repeat (sat_step; cbv zeta).

(** The answers are closed by their status. *)
Ltac sat_answer :=
  match goal with
  | H : forall r, served r -> ?P r |- ?P _ =>
      solve [apply H; unfold served; simpl; auto]
  | H : forall r, status r = 400%N -> ?P r |- ?P _ =>
      solve [apply H; reflexivity]
  end.

Ltac sat_block := sat_steps; try sat_answer.

Section Blocks.

Variable R : world -> world -> Prop.
Variable P : response -> Prop.
Hypothesis R_refl : forall w, R w w.
Hypothesis R_trans : forall a b c, R a b -> R b c -> R a c.
Hypothesis R_log : forall l s w, l <> ERROR -> R w (add_log (l, s) w).
Hypothesis R_fs : forall f w, R w (set_fs f w).
Hypothesis R_invoke : forall a w, R w (invoke a w).
Hypothesis R_err : forall s w, R w (add_log (ERROR, s) w).
Hypothesis R_cwd : forall c w, R w (set_cwd c w).
Hypothesis P_served : forall r, served r -> P r.
Hypothesis P_rejected : forall r, status r = 400%N -> P r.

Variable h : host.

Lemma sat_find_apksigner : sat R P (find_apksigner h).
Proof. unfold find_apksigner. sat_steps. Qed.

Lemma sat_find_jarsigner : sat R P (find_jarsigner h).
Proof. unfold find_jarsigner. sat_steps. Qed.

Lemma sat_try_apksigner c f : sat R P (try_apksigner h c f).
Proof. unfold try_apksigner. sat_steps. Qed.

Lemma sat_try_jarsigner b c f : sat R P (try_jarsigner h b c f).
Proof. unfold try_jarsigner. sat_steps. Qed.

Lemma sat_verify_signature f : sat R P (verify_signature h f).
Proof.
  unfold verify_signature.
  apply sat_try_except; [assumption | | intros e; sat_steps].
  apply sat_bind; [assumption | sat_step | intros _].
  apply sat_bind; [assumption | apply sat_find_apksigner | intros c].
  apply sat_bind; [assumption | apply sat_find_jarsigner | intros j].
  apply sat_bind; [assumption | apply sat_try_apksigner | intros v].
  apply sat_bind; [assumption | apply sat_try_jarsigner | intros v'].
  sat_steps.
Qed.

Lemma sat_sweep_dump_folders : sat R P (sweep_dump_folders h).
Proof. unfold sweep_dump_folders. sat_block. Qed.

Lemma sat_load_output f : sat R P (load_output f).
Proof. unfold load_output. sat_block. Qed.

Lemma sat_cleanup_after_success t : sat R P (cleanup_after_success h t).
Proof. unfold cleanup_after_success. sat_block. Qed.

Lemma sat_respond d n : sat R P (respond d n).
Proof. unfold respond. sat_block. Qed.

Lemma sat_cleanup_after_failure t : sat R P (cleanup_after_failure h t).
Proof. unfold cleanup_after_failure. sat_block. Qed.

Lemma sat_resolve_output c o : sat R P (resolve_output c o).
Proof. unfold resolve_output, find_output_files. sat_block. Qed.

Lemma sat_deliver f t c o : sat R P (deliver h f t c o).
Proof.
  unfold deliver.
  apply sat_bind; [assumption | apply sat_verify_signature; assumption |].
  intros _. apply sat_bind; [assumption | sat_step | intros _].
  apply sat_bind; [assumption | apply sat_sweep_dump_folders | intros _].
  apply sat_bind; [assumption | sat_step | intros n].
  apply sat_bind; [assumption | sat_step | intros _]. cbv zeta.
  apply sat_bind; [assumption | apply sat_load_output | intros d].
  apply sat_bind; [assumption | apply sat_cleanup_after_success | intros _].
  apply sat_respond.
Qed.

Lemma sat_on_timeout t c : sat R P (on_timeout h t c).
Proof.
  unfold on_timeout.
  repeat (apply sat_bind;
          [assumption | first [apply sat_cleanup_after_failure | sat_steps]
          | intros _]).
  sat_block.
Qed.

Lemma sat_on_error e t c : sat R P (on_error h e t c).
Proof.
  unfold on_error.
  repeat (apply sat_bind;
          [assumption | first [apply sat_cleanup_after_failure | sat_steps]
          | intros _]).
  sat_block.
Qed.

Lemma sat_protection_body f cmd t o c :
  sat R P (protection_body h f cmd t o c).
Proof.
  unfold protection_body.
  apply sat_bind; [assumption | sat_step | intros _].
  apply sat_bind; [assumption | sat_step | intros _].
  apply sat_bind; [assumption | sat_step | intros res].
  apply sat_bind; [assumption | sat_step | intros _].
  destruct (negb (returncode res =? 0)%Z).
  - sat_block.
  - apply sat_bind; [assumption | apply sat_resolve_output | intros f'].
    apply sat_deliver.
Qed.

Lemma sat_run_protection f cmd t o c :
  sat R P (run_protection h f cmd t o c).
Proof.
  unfold run_protection.
  apply sat_try_except; [assumption | apply sat_protection_body |].
  intros e. destruct (is_TimeoutExpired e);
    [apply sat_on_timeout | apply sat_on_error].
Qed.

Lemma sat_validate req : sat R P (validate req).
Proof. unfold validate, request_files. sat_block. Qed.

Lemma sat_stage f : sat R P (stage h f).
Proof. unfold stage, mkdtemp. sat_block. Qed.

Lemma sat_find_java : sat R P (find_java h).
Proof. unfold find_java. sat_block. Qed.

Lemma sat_check_java j : sat R P (check_java h j).
Proof. unfold check_java. sat_block. Qed.

Lemma sat_build_cmd req j i o : sat R P (build_cmd h req j i o).
Proof. unfold build_cmd. sat_block. Qed.

Lemma sat_prepare req f : sat R P (prepare h req f).
Proof.
  unfold prepare.
  apply sat_bind; [assumption | apply sat_stage | intros [[t i] o]].
  apply sat_bind; [assumption | apply sat_find_java | intros j].
  apply sat_bind; [assumption | apply sat_check_java | intros _].
  apply sat_bind; [assumption | apply sat_build_cmd | intros cmd].
  sat_block.
Qed.

Lemma sat_prelude req : sat R P (prelude h req).
Proof.
  unfold prelude.
  apply sat_bind; [assumption | apply sat_validate | intros f].
  apply sat_prepare.
Qed.

Lemma sat_on_server_error e : sat R P (on_server_error e).
Proof. unfold on_server_error. sat_block. Qed.

(** From a validated upload on, as [protect_apk] goes on (lines 99-583). *)
Lemma sat_after_validate req f :
  sat R P (try_except
             (bind (prepare h req f)
                (fun j => run_protection h (job_file j) (job_cmd j)
                            (job_temp_dir j) (job_output_dir j)
                            (job_original_cwd j)))
             on_server_error).
Proof.
  apply sat_try_except; [assumption | | apply sat_on_server_error].
  apply sat_bind; [assumption | apply sat_prepare | intros j].
  apply sat_run_protection.
Qed.

Lemma sat_protect_apk req : sat R P (protect_apk h req).
Proof.
  unfold protect_apk, protect_body.
  apply sat_try_except; [assumption | | apply sat_on_server_error].
  apply sat_bind; [assumption | apply sat_prelude | intros j].
  apply sat_run_protection.
Qed.

End Blocks.

(** ** The relations between worlds *)

Lemma same_procs_refl (w : world) : same_procs w w.
Proof. reflexivity. Qed.

Lemma same_procs_trans (a b c : world) :
  same_procs a b -> same_procs b c -> same_procs a c.
Proof. unfold same_procs. congruence. Qed.

Lemma same_procs_log (e : level * string) (w : world) :
  same_procs w (add_log e w).
Proof. reflexivity. Qed.

Lemma same_procs_fs (f : Fs.node) (w : world) : same_procs w (set_fs f w).
Proof. reflexivity. Qed.

Lemma same_procs_cwd (c : list string) (w : world) :
  same_procs w (set_cwd c w).
Proof. reflexivity. Qed.

Lemma same_procs_invoke (a : list string) (w : world) :
  same_procs w (invoke a w).
Proof. reflexivity. Qed.

Lemma steady_refl (w : world) : steady w w.
Proof.
  repeat split. exists []. rewrite app_nil_r. split; [reflexivity | constructor].
Qed.

Lemma steady_trans (a b c : world) : steady a b -> steady b c -> steady a c.
Proof.
  intros (C1 & P1 & l1 & L1 & F1) (C2 & P2 & l2 & L2 & F2).
  split; [congruence|]. split; [congruence|].
  exists (l1 ++ l2). rewrite L2, L1, app_assoc. split; [reflexivity|].
  apply Forall_app; split; assumption.
Qed.

Lemma steady_log (l : level) (s : string) (w : world) :
  l <> ERROR -> steady w (add_log (l, s) w).
Proof.
  intros H. repeat split. exists [(l, s)]. split; [reflexivity|].
  constructor; [exact H | constructor].
Qed.

Lemma steady_fs (f : Fs.node) (w : world) : steady w (set_fs f w).
Proof.
  repeat split. exists []. simpl. rewrite app_nil_r.
  split; [reflexivity | constructor].
Qed.

Lemma steady_invoke (a : list string) (w : world) : steady w (invoke a w).
Proof.
  repeat split. exists []. simpl. rewrite app_nil_r.
  split; [reflexivity | constructor].
Qed.

Lemma bind_val A B (m : M A) (k : A -> M B) (w w1 : world) (a : A) :
  m w = (Val a, w1) -> bind m k w = k a w1.
Proof. intros E. unfold bind. rewrite E. reflexivity. Qed.

Lemma bind_raise A B (m : M A) (k : A -> M B) (w w1 : world) (e : exn) :
  m w = (Raise e, w1) -> bind m k w = (Raise e, w1).
Proof. intros E. unfold bind. rewrite E. reflexivity. Qed.

Lemma bind_return A B (m : M A) (k : A -> M B) (w w1 : world)
    (r : response) :
  m w = (Return r, w1) -> bind m k w = (Return r, w1).
Proof. intros E. unfold bind. rewrite E. reflexivity. Qed.

(** A [try] whose handler ends normally lets no exception out. *)
Lemma try_except_total A (m : M A) (hd : exn -> M A) (w : world) :
  (forall e w1, exists a w2, hd e w1 = (Val a, w2)) ->
  forall e, fst (try_except m hd w) <> Raise e.
Proof.
  intros H e. unfold try_except.
  destruct (m w) as [[a|r|e0] w1]; simpl; try discriminate.
  destruct (H e0 w1) as (a & w2 & E). rewrite E. discriminate.
Qed.

(** ** Validation *)

(** The decision of lines 52-97: a body over the limit is refused when it
    is parsed, then the checks on the upload follow in their order. *)
Lemma validate_fst (req : request) (w : world) :
  fst (validate req w) =
  if (MAX_CONTENT_LENGTH <? content_length req)%N
  then Raise request_entity_too_large
  else
    match MultiDict.get "apk_file" (files req) with
    | None => Return (jsonify (Text "No APK file provided") None 400)
    | Some file =>
        if String.eqb (filename file) "" then
          Return (jsonify (Text "No file selected") None 400)
        else if negb (PyStr.endswith_any (PyStr.lower (filename file))
                        accepted_extensions) then Return invalid_type
        else if (max_size <? seek_end_tell file)%N then
          Return (too_large (seek_end_tell file))
        else if PyStr.startswith (filename file) "protected_" then
          Return already_protected
        else Val file
    end.
Proof.
  unfold validate, request_files, bind, log_info, log_error, log_warning,
    logger, modify, return_, ret, raise.
  destruct (MAX_CONTENT_LENGTH <? content_length req)%N; [reflexivity|].
  destruct (MultiDict.get "apk_file" (files req)) as [file|]; [|reflexivity].
  destruct (String.eqb (filename file) ""); [reflexivity|].
  destruct (negb _); [reflexivity|].
  destruct (max_size <? seek_end_tell file)%N; [reflexivity|].
  destruct (PyStr.startswith (filename file) "protected_"); reflexivity.
Qed.

(** Validation only writes to the log. *)
Lemma validate_frame (req : request) (w : world) :
  fs (snd (validate req w)) = fs w /\
  cwd (snd (validate req w)) = cwd w /\
  procs (snd (validate req w)) = procs w.
Proof.
  unfold validate, request_files, bind, log_info, log_error, log_warning,
    logger, modify, return_, ret, raise.
  destruct (MAX_CONTENT_LENGTH <? content_length req)%N; [repeat split|].
  destruct (MultiDict.get "apk_file" (files req)) as [file|];
    [|repeat split].
  destruct (String.eqb (filename file) ""); [repeat split|].
  destruct (negb _); [repeat split|].
  destruct (max_size <? seek_end_tell file)%N; [repeat split|].
  destruct (PyStr.startswith (filename file) "protected_"); repeat split.
Qed.

(** The bytes of an upload are part of the body. *)
Lemma upload_in_body (req : request) (k : string) (file : upload) :
  MultiDict.get k (files req) = Some file ->
  (seek_end_tell file <= content_length req)%N.
Proof.
  unfold content_length. generalize (framing req).
  induction (files req) as [|[k' f] l IH]; intros n H; [discriminate|].
  cbn [MultiDict.get] in H. cbn [fold_right snd].
  destruct (String.eqb k k').
  - inversion H; subst. lia.
  - specialize (IH n H). lia.
Qed.

(** A body within the limit holds no upload over the limit: the size
    check of lines 71-81 lets every parsed upload through. *)
Lemma parsed_upload_fits (req : request) (file : upload) :
  (content_length req <= MAX_CONTENT_LENGTH)%N ->
  MultiDict.get "apk_file" (files req) = Some file ->
  (max_size <? seek_end_tell file)%N = false.
Proof.
  intros Hc Hf. apply N.ltb_ge.
  pose proof (upload_in_body req "apk_file" Hf) as U.
  change max_size with MAX_CONTENT_LENGTH. lia.
Qed.

(** The decision for a body within the limit. *)
Lemma validate_parsed (req : request) (w : world) :
  (content_length req <= MAX_CONTENT_LENGTH)%N ->
  fst (validate req w) =
  match MultiDict.get "apk_file" (files req) with
  | None => Return (jsonify (Text "No APK file provided") None 400)
  | Some file =>
      if String.eqb (filename file) "" then
        Return (jsonify (Text "No file selected") None 400)
      else if negb (PyStr.endswith_any (PyStr.lower (filename file))
                      accepted_extensions) then Return invalid_type
      else if PyStr.startswith (filename file) "protected_" then
        Return already_protected
      else Val file
  end.
Proof.
  intros Hc. rewrite validate_fst.
  assert (E : (MAX_CONTENT_LENGTH <? content_length req)%N = false)
    by (apply N.ltb_ge; exact Hc).
  rewrite E.
  destruct (MultiDict.get "apk_file" (files req)) as [file|] eqn:Hf;
    [|reflexivity].
  rewrite (parsed_upload_fits req Hc Hf). reflexivity.
Qed.

(** A rejection by the validation is the answer of the handler. *)
Lemma protect_apk_rejected (h : host) (req : request) (w : world)
    (r : response) :
  fst (validate req w) = Return r ->
  protect_apk h req w = (Return r, snd (validate req w)).
Proof.
  intros H. unfold protect_apk, protect_body, prelude, try_except, bind.
  destruct (validate req w) as [[f|r0|e] w1]; simpl in H; try discriminate.
  inversion H; subst. reflexivity.
Qed.

(** A body over the limit is answered by the outer handler. *)
Lemma protect_apk_refused (h : host) (req : request) (w : world) :
  (MAX_CONTENT_LENGTH < content_length req)%N ->
  answer (protect_apk h req w) = Some refused /\
  fs (final (protect_apk h req w)) = fs w /\
  cwd (final (protect_apk h req w)) = cwd w /\
  procs (final (protect_apk h req w)) = procs w /\
  invoked (final (protect_apk h req w)) = invoked w.
Proof.
  intros H. apply N.ltb_lt in H.
  unfold protect_apk, protect_body, prelude, validate, request_files,
    try_except, bind, log_info, logger, modify, raise, answer, final.
  rewrite H. repeat split.
Qed.

(** After a successful validation the handler goes on with the workspace. *)
Lemma protect_apk_validated (h : host) (req : request) (w : world)
    (f : upload) :
  fst (validate req w) = Val f ->
  protect_apk h req w =
  try_except
    (bind (prepare h req f)
       (fun j => run_protection h (job_file j) (job_cmd j)
                   (job_temp_dir j) (job_output_dir j)
                   (job_original_cwd j)))
    on_server_error (snd (validate req w)).
Proof.
  intros H. unfold protect_apk, protect_body, prelude, try_except, bind.
  destruct (validate req w) as [[f0|r0|e] w1]; simpl in H; try discriminate.
  inversion H; subst. reflexivity.
Qed.

(** Past the validation every answer is an internal failure or the
    result. *)
Lemma served_after_validate (h : host) (req : request) (w : world)
    (f : upload) (r : response) :
  fst (validate req w) = Val f ->
  answer (protect_apk h req w) = Some r -> served r.
Proof.
  intros H A. rewrite (protect_apk_validated h req w H) in A.
  unfold answer in A.
  destruct (@sat_after_validate anywhere served
              (fun w => I) (fun a b c _ _ => I)
              (fun l s w _ => I) (fun f w => I) (fun a w => I)
              (fun s w => I) (fun c w => I) (fun r H => H) h req f
              (snd (validate req w))) as [_ S].
  destruct (fst (try_except _ _ _)) as [a|r0|e]; try discriminate.
  inversion A; subst. apply S. reflexivity.
Qed.

Lemma validate_accepts_type (req : request) (file : upload) (w : world) :
  (content_length req <= MAX_CONTENT_LENGTH)%N ->
  MultiDict.get "apk_file" (files req) = Some file ->
  String.eqb (filename file) "" = false ->
  accepted_name (filename file) ->
  fst (validate req w) =
  if PyStr.startswith (filename file) "protected_"
  then Return already_protected
  else Val file.
Proof.
  intros Hc Hf Hn Ha. rewrite (validate_parsed req w Hc), Hf, Hn.
  apply accepted_name_spec in Ha. rewrite Ha. reflexivity.
Qed.

Lemma validate_rejects_type (req : request) (file : upload) (w : world) :
  (content_length req <= MAX_CONTENT_LENGTH)%N ->
  MultiDict.get "apk_file" (files req) = Some file ->
  String.eqb (filename file) "" = false ->
  ~ accepted_name (filename file) ->
  fst (validate req w) = Return invalid_type.
Proof.
  intros Hc Hf Hn Ha. rewrite (validate_parsed req w Hc), Hf, Hn.
  destruct (PyStr.endswith_any _ _) eqn:E; [|reflexivity].
  apply accepted_name_spec in E. contradiction.
Qed.

Lemma oversized_length (name : string) :
  seek_end_tell (MkUpload name Demo.oversized) = 157286401%N.
Proof.
  unfold seek_end_tell, Demo.oversized. cbn [stream].
  rewrite repeat_length. apply N2Nat.id.
Qed.

(** The body of a form with one file: the file and 200 bytes. *)
Lemma post_length (name : string) (data : list Byte.byte)
    (fields : list (string * string)) :
  content_length (Demo.post name data fields)
  = (200 + seek_end_tell (MkUpload name data))%N.
Proof.
  unfold content_length, Demo.post. cbn [framing files fold_right snd].
  lia.
Qed.

(** ** C10: the type check *)

(** C10. The file-type check accepts exactly the names whose lowercased
    form ends in [.apk] or [.aab]: a request that is parsed (its body is
    within the limit of line 34) and carries a named file is answered
    "Invalid file type" if and only if the lowercased name has neither
    ending. Case does not matter, so [APP.APK] passes the check. *)
Theorem C10_type_check_ignores_case
    (h : host) (req : request) (file : upload) (w : world) :
  (content_length req <= MAX_CONTENT_LENGTH)%N ->
  MultiDict.get "apk_file" (files req) = Some file ->
  String.eqb (filename file) "" = false ->
  (answer (protect_apk h req w) = Some invalid_type
   <-> ~ accepted_name (filename file)).
Proof.
  intros Hc Hf Hn. split.
  - intros A Ha.
    pose proof (validate_accepts_type req w Hc Hf Hn Ha) as V.
    destruct (PyStr.startswith (filename file) "protected_").
    + rewrite (protect_apk_rejected h req w V) in A. discriminate.
    + destruct (served_after_validate h req w V A); discriminate.
  - intros Ha.
    rewrite (protect_apk_rejected h req w
               (validate_rejects_type req w Hc Hf Hn Ha)).
    reflexivity.
Qed.

Lemma C10_app_apk_passes :
  accepted_name "APP.APK" /\
  answer (protect_apk Demo.copies
            (Demo.post "APP.APK" Demo.apk_bytes []) Demo.start)
  <> Some invalid_type.
Proof.
  assert (A : accepted_name "APP.APK") by (left; exists "app"; reflexivity).
  split; [exact A|]. intros H.
  refine (proj1 (@C10_type_check_ignores_case Demo.copies
                  (Demo.post "APP.APK" Demo.apk_bytes [])
                  (MkUpload "APP.APK" Demo.apk_bytes) Demo.start
                  _ eq_refl eq_refl) H A).
  vm_compute. discriminate.
Defined.

(** ** C6: the size check *)

(** The size check of lines 71-81 never answers: an upload over 150 MiB
    makes a body over [MAX_CONTENT_LENGTH], which is refused when the
    body is parsed (line 53). *)
Lemma size_check_never_answers (h : host) (req : request) (w : world)
    (n : N) :
  answer (protect_apk h req w) <> Some (too_large n).
Proof.
  intros A.
  destruct (N.ltb_spec MAX_CONTENT_LENGTH (content_length req)) as [L|L].
  - rewrite (proj1 (protect_apk_refused h req w L)) in A. discriminate.
  - pose proof (validate_parsed req w L) as V.
    destruct (MultiDict.get "apk_file" (files req)) as [file|].
    + destruct (String.eqb (filename file) "");
        [rewrite (protect_apk_rejected h req w V) in A; discriminate|].
      destruct (negb _);
        [rewrite (protect_apk_rejected h req w V) in A; discriminate|].
      destruct (PyStr.startswith (filename file) "protected_");
        [rewrite (protect_apk_rejected h req w V) in A; discriminate|].
      destruct (served_after_validate h req w V A); discriminate.
    + rewrite (protect_apk_rejected h req w V) in A. discriminate.
Qed.

(** An upload over the limit is answered with status 500, whatever its
    name and whatever else the request carries. *)
Lemma oversized_upload_refused (h : host) (req : request) (w : world)
    (file : upload) :
  MultiDict.get "apk_file" (files req) = Some file ->
  (max_size < seek_end_tell file)%N ->
  answer (protect_apk h req w) = Some refused /\
  fs (final (protect_apk h req w)) = fs w.
Proof.
  intros Hf Hs. pose proof (upload_in_body req "apk_file" Hf) as U.
  assert (L : (MAX_CONTENT_LENGTH < content_length req)%N)
    by (change MAX_CONTENT_LENGTH with max_size; lia).
  destruct (protect_apk_refused h req w L) as (A & F & _).
  split; assumption.
Qed.

(** C6. The code at the failing input: a package of 150 MiB and one byte,
    uploaded under the accepted name [big.apk]. The request is refused
    while its body is parsed (line 53, under [MAX_CONTENT_LENGTH] of line
    34) and the outer handler answers with status 500; the size check of
    lines 71-81, with its answer of status 400, is not reached. *)
Theorem C6_oversized_upload_answered_500 :
  accepted_name "big.apk" /\
  (max_size < seek_end_tell (MkUpload "big.apk" Demo.oversized))%N /\
  answer (protect_apk Demo.copies
            (Demo.post "big.apk" Demo.oversized []) Demo.start)
  = Some (jsonify (Text "Server error: 413 Request Entity Too Large: The data value transmitted exceeds the capacity limit.")
                  None 500) /\
  answer (protect_apk Demo.copies
            (Demo.post "big.apk" Demo.oversized []) Demo.start)
  <> Some (too_large (seek_end_tell (MkUpload "big.apk" Demo.oversized))) /\
  fs (final (protect_apk Demo.copies
               (Demo.post "big.apk" Demo.oversized []) Demo.start))
  = fs Demo.start.
Proof.
  assert (S : (max_size
               < seek_end_tell (MkUpload "big.apk" Demo.oversized))%N)
    by (rewrite oversized_length; reflexivity).
  destruct (@oversized_upload_refused Demo.copies
              (Demo.post "big.apk" Demo.oversized []) Demo.start
              (MkUpload "big.apk" Demo.oversized) eq_refl S) as [A F].
  split; [left; exists "big"; reflexivity|]. split; [exact S|].
  split; [exact A|]. split; [apply size_check_never_answers | exact F].
Qed.


(** ** C8: the marker of an already processed file *)

(** C8, as stated, fails: [protected_notes.txt] begins with the marker and
    is answered "invalid file type", not "already protected", because the
    type is checked first. *)
Lemma C8_marked_text_file :
  begins_with "protected_notes.txt" "protected_" /\
  answer (protect_apk Demo.copies
            (Demo.post "protected_notes.txt" Demo.apk_bytes []) Demo.start)
  = Some invalid_type /\
  invalid_type <> already_protected.
Proof.
  split; [exists "notes.txt"; reflexivity|].
  split; [vm_compute; reflexivity | discriminate].
Qed.

(** C8, amended. In a request that is parsed (its body is within the
    limit of line 34), an upload whose name begins with [protected_] is
    rejected with status 400 while the file tree, the working directory
    and the process table are as before, so nothing has been allocated
    for the job; the error is "already protected" when the name passes
    the type check, which comes first, and "invalid file type" when it
    does not. *)
Theorem C8_marked_upload_rejected
    (h : host) (req : request) (file : upload) (w : world) :
  (content_length req <= MAX_CONTENT_LENGTH)%N ->
  MultiDict.get "apk_file" (files req) = Some file ->
  begins_with (filename file) "protected_" ->
  (exists r, answer (protect_apk h req w) = Some r /\ status r = 400%N) /\
  fs (final (protect_apk h req w)) = fs w /\
  cwd (final (protect_apk h req w)) = cwd w /\
  procs (final (protect_apk h req w)) = procs w /\
  (accepted_name (filename file) ->
   answer (protect_apk h req w) = Some already_protected) /\
  (~ accepted_name (filename file) ->
   answer (protect_apk h req w) = Some invalid_type).
Proof.
  intros Hc Hf Hb.
  assert (Hn : String.eqb (filename file) "" = false).
  { destruct Hb as [rest E]. rewrite E. reflexivity. }
  apply startswith_spec in Hb.
  assert (V : exists r, fst (validate req w) = Return r /\ status r = 400%N
              /\ (accepted_name (filename file) -> r = already_protected)
              /\ (~ accepted_name (filename file) -> r = invalid_type)).
  { rewrite (validate_parsed req w Hc), Hf, Hn, Hb.
    destruct (PyStr.endswith_any _ _) eqn:E; cbn [negb].
    - eexists. split; [reflexivity|]. split; [reflexivity|].
      split; [reflexivity|]. intros Ha. apply accepted_name_spec in E.
      contradiction.
    - eexists. split; [reflexivity|]. split; [reflexivity|].
      split; [|reflexivity].
      intros Ha. apply accepted_name_spec in Ha. congruence. }
  destruct V as (r & V & S & A & B).
  rewrite (protect_apk_rejected h req w V). unfold final, answer.
  cbn [fst snd].
  split; [exists r; split; [reflexivity | exact S]|].
  destruct (validate_frame req w) as (F1 & F2 & F3).
  repeat (split; [assumption|]).
  split; [intros Ha; now rewrite (A Ha) | intros Ha; now rewrite (B Ha)].
Qed.

Lemma C8_marked_package :
  answer (protect_apk Demo.copies
            (Demo.post "protected_app.apk" Demo.apk_bytes []) Demo.start)
  = Some already_protected /\
  fs (final (protect_apk Demo.copies
               (Demo.post "protected_app.apk" Demo.apk_bytes []) Demo.start))
  = Demo.tree.
Proof.
  destruct (@C8_marked_upload_rejected Demo.copies
              (Demo.post "protected_app.apk" Demo.apk_bytes [])
              (MkUpload "protected_app.apk" Demo.apk_bytes) Demo.start)
    as (_ & F & _ & _ & A & _).
  - vm_compute. discriminate.
  - reflexivity.
  - exists "app.apk". reflexivity.
  - split; [apply A | exact F].
    left. exists "protected_app". reflexivity.
Defined.

(** A marked package in a body over the limit is refused like any other
    body over the limit, before its name is looked at. *)
Example oversized_marked_package_refused :
  answer (protect_apk Demo.copies
            (Demo.post "protected_big.apk" Demo.oversized []) Demo.start)
  = Some refused.
Proof.
  apply (@oversized_upload_refused Demo.copies
           (Demo.post "protected_big.apk" Demo.oversized []) Demo.start
           (MkUpload "protected_big.apk" Demo.oversized) eq_refl).
  rewrite oversized_length. reflexivity.
Qed.
(** ** C3: the command line *)

(** What the handler builds is the argument vector of the specification,
    the configuration flag being passed when the option is selected and
    the template exists. *)
Lemma build_cmd_fst (h : host) (req : request)
    (java_cmd input output : string) (w : world) :
  fst (build_cmd h req java_cmd input output w)
  = Val (argument_vector (tool_of h java_cmd) input output
           (option_flags (options_of req) (config_file h)
              (opt_protect_config (options_of req)
               && Fs.exists_at (Path.resolve (cwd w) (config_file h))
                               (fs w)))).
Proof.
  unfold build_cmd, argument_vector, option_flags, options_of, tool_of,
    flag, bind, log_info, logger, modify, ret, os_path_exists, at_path,
    Fs.exists_at.
  cbn [opt_debug opt_disable_acf opt_dump_code opt_keep_classes
       opt_noisy_log opt_smaller opt_exclude_abis opt_protect_config
       fs cwd add_log].
  destruct (form_is_true req "debug"), (form_is_true req "disable_acf"),
    (form_is_true req "dump_code"), (form_is_true req "keep_classes"),
    (form_is_true req "noisy_log"), (form_is_true req "smaller"),
    (PyStr.truthy (PyStr.strip (form_get req "exclude_abis"))),
    (form_is_true req "use_protect_config");
    cbn [andb fs cwd add_log fst snd]; try reflexivity;
    destruct (Fs.lookup _ (fs w)); reflexivity.
Qed.

(** C3, as stated, fails: with the configuration option selected and no
    template file in the project, the vector carries no [-c] flag. *)
Lemma C3_selected_template_missing :
  opt_protect_config
    (options_of (Demo.post "app.apk" Demo.apk_bytes
                   [("use_protect_config", "true")])) = true /\
  fst (build_cmd Demo.silent
         (Demo.post "app.apk" Demo.apk_bytes [("use_protect_config", "true")])
         "java" "/tmp/w/app.apk" "/tmp/w/output" Demo.start)
  = Val ["java"; "-jar"; "/srv/app/executable/dpt.jar";
         "-f"; "/tmp/w/app.apk"; "-o"; "/tmp/w/output"] /\
  fst (build_cmd Demo.silent
         (Demo.post "app.apk" Demo.apk_bytes [("use_protect_config", "true")])
         "java" "/tmp/w/app.apk" "/tmp/w/output" Demo.start)
  <> Val (argument_vector (tool_of Demo.silent "java")
            "/tmp/w/app.apk" "/tmp/w/output"
            (claimed_flags
               (options_of (Demo.post "app.apk" Demo.apk_bytes
                              [("use_protect_config", "true")]))
               (config_file Demo.silent))).
Proof.
  split; [reflexivity|]. split; [reflexivity|].
  vm_compute. discriminate.
Qed.

(** Every option selected, the template present: eight flags in order,
    the list of ABIs stripped of its blanks. *)
Example all_options_selected :
  fst (build_cmd Demo.silent
         (Demo.post "app.apk" Demo.apk_bytes
            [("use_protect_config", "true"); ("smaller", "true");
             ("exclude_abis", "  x86,x86_64 "); ("noisy_log", "true");
             ("keep_classes", "true"); ("dump_code", "true");
             ("disable_acf", "true"); ("debug", "true")])
         "java" "/tmp/w/app.apk" "/tmp/w/output" Demo.start_with_template)
  = Val ["java"; "-jar"; "/srv/app/executable/dpt.jar";
         "-f"; "/tmp/w/app.apk"; "-o"; "/tmp/w/output";
         "--debug"; "--disable-acf"; "--dump-code"; "-K"; "--noisy-log";
         "-S"; "-e"; "x86,x86_64";
         "-c"; "/srv/app/executable/dpt-protect-config-template.json"].
Proof. vm_compute. reflexivity. Qed.

(** A value other than [true] selects nothing. *)
Example only_true_selects :
  fst (build_cmd Demo.silent
         (Demo.post "app.apk" Demo.apk_bytes
            [("debug", "True"); ("smaller", "1"); ("exclude_abis", "   ")])
         "java" "/tmp/w/app.apk" "/tmp/w/output" Demo.start)
  = Val ["java"; "-jar"; "/srv/app/executable/dpt.jar";
         "-f"; "/tmp/w/app.apk"; "-o"; "/tmp/w/output"].
Proof. vm_compute. reflexivity. Qed.

(** ** C5, C1 and C2: the tool exits with a failure *)

(** A tool that ends in time with a failure status: the inner [try]
    returns "Protection failed" at once. The world is the one the tool
    left, with the working directory still the one of the invocation. *)
Lemma run_protection_failure (h : host) (f : upload) (cmd : list string)
    (t o c : string) (w : world) (d : N) (rc : Z) (so se : string)
    (after : Fs.node) :
  Fs.isdir_at (Path.resolve (cwd w) t) (fs w) = true ->
  exec h cmd (Path.resolve (cwd w) t) (fs w) = Runs d rc so se after ->
  (d <= 300)%N -> rc <> 0%Z ->
  exists w',
    run_protection h f cmd t o c w
    = (Return (protection_failed (MkCompleted rc so se)), w') /\
    fs w' = after /\ cwd w' = cwd w /\ procs w' = procs w.
Proof.
  intros Hd He Hle Hrc.
  unfold run_protection, try_except, protection_body.
  do 2 (erewrite bind_val by reflexivity).
  erewrite bind_val.
  2:{ apply (@subprocess_run_completes h cmd 300 t _ d rc so se after);
        [exact Hd | exact He | exact Hle]. }
  erewrite bind_val by reflexivity. cbn [returncode].
  apply Z.eqb_neq in Hrc. rewrite Hrc. cbn [negb].
  do 7 (erewrite bind_val by reflexivity).
  eexists. split; [reflexivity|]. repeat split.
Qed.

(** C5. The code at the failing input: the tool exits with status 1 and
    has written nothing to either stream. The answer is "Protection
    failed" with status 500, and its details are the empty text. *)
Theorem C5_silent_failure_has_empty_details :
  answer (protect_apk (Demo.fails "" "")
            (Demo.post "app.apk" Demo.apk_bytes []) Demo.start)
  = Some (jsonify (Text "Protection failed") (Some "") 500).
Proof. vm_compute. reflexivity. Qed.

(** With something on a stream the details are not empty: the error
    stream first, the output stream otherwise. *)
Lemma protection_failed_details (c : completed) :
  payload (protection_failed c)
  = Json (Text "Protection failed")
         (Some (if PyStr.truthy (stderr c) then stderr c else stdout c)).
Proof. reflexivity. Qed.

(** C1. The code at the failing input: the tool exits with status 1. The
    answer is "Protection failed" with status 500, and the workspace
    [/tmp/apk_protect_k3x9], which did not exist before the request, is
    still there with the staged input in it. *)
Theorem C1_workspace_left_after_tool_failure :
  let r := protect_apk (Demo.fails "" "boom")
             (Demo.post "app.apk" Demo.apk_bytes []) Demo.start in
  answer r = Some (jsonify (Text "Protection failed") (Some "boom") 500) /\
  Fs.isdir_at ["tmp"; "apk_protect_k3x9"] (fs Demo.start) = false /\
  Fs.isdir_at ["tmp"; "apk_protect_k3x9"] (fs (final r)) = true /\
  Fs.lookup ["tmp"; "apk_protect_k3x9"; "app.apk"] (fs (final r))
  = Some (Fs.File Demo.apk_bytes).
Proof. vm_compute. repeat split. Qed.

(** C2. The code at the failing input: the tool exits with status 1. The
    request started in [/home/user] and ends in the workspace. *)
Theorem C2_cwd_left_in_workspace_after_tool_failure :
  let r := protect_apk (Demo.fails "" "boom")
             (Demo.post "app.apk" Demo.apk_bytes []) Demo.start in
  answer r = Some (jsonify (Text "Protection failed") (Some "boom") 500) /\
  cwd Demo.start = ["home"; "user"] /\
  cwd (final r) = ["tmp"; "apk_protect_k3x9"].
Proof. vm_compute. repeat split. Qed.

(** The same holds when the tool succeeds and leaves no output file. *)
Example no_output_leaves_workspace_and_cwd :
  let r := protect_apk Demo.silent
             (Demo.post "app.apk" Demo.apk_bytes []) Demo.start in
  answer r = Some (jsonify (Text "No output file generated")
                     (Some "No output file found in output directory") 500) /\
  Fs.isdir_at ["tmp"; "apk_protect_k3x9"] (fs (final r)) = true /\
  cwd (final r) = ["tmp"; "apk_protect_k3x9"].
Proof. vm_compute. repeat split. Qed.

(** The sibling paths do restore and tear down: success and timeout. *)
Example success_restores_and_tears_down :
  let r := protect_apk Demo.copies
             (Demo.post "app.apk" Demo.apk_bytes []) Demo.start in
  answer r = Some (file_response Demo.apk_bytes "protected_app.apk") /\
  fs (final r) = Demo.tree /\
  cwd (final r) = ["home"; "user"] /\
  procs (final r) = [].
Proof. vm_compute. repeat split. Qed.

Example timeout_restores_and_tears_down :
  let r := protect_apk Demo.hangs
             (Demo.post "app.apk" Demo.apk_bytes []) Demo.start in
  answer r = Some timed_out /\
  fs (final r) = Demo.tree /\
  cwd (final r) = ["home"; "user"] /\
  procs (final r) = [].
Proof. vm_compute. repeat split. Qed.

(** ** C9: signature verification *)


(** A verifier that hangs, one that rejects and one that cannot be
    started: the result is delivered all the same. *)
Example verifier_hangs_result_delivered :
  let r := protect_apk (Demo.copies_and (fun t => Runs 31 0 "jar verified" "" t))
             (Demo.post "app.apk" Demo.apk_bytes []) Demo.start in
  answer r = Some (file_response Demo.apk_bytes "protected_app.apk") /\
  In (WARNING, "Could not verify with jarsigner: {e}") (log (final r)).
Proof. vm_compute. split; [reflexivity|]. tauto. Qed.

Example verifier_rejects_result_delivered :
  let r := protect_apk (Demo.copies_and (fun t => Runs 1 1 "" "unsigned" t))
             (Demo.post "app.apk" Demo.apk_bytes []) Demo.start in
  answer r = Some (file_response Demo.apk_bytes "protected_app.apk") /\
  In (WARNING, "APK signature verification failed or APK is not signed")
     (log (final r)).
Proof. vm_compute. split; [reflexivity|]. tauto. Qed.

Example verifier_accepts_result_delivered :
  let r := protect_apk
             (Demo.copies_and (fun t => Runs 1 0 "  Jar Verified." "" t))
             (Demo.post "app.apk" Demo.apk_bytes []) Demo.start in
  answer r = Some (file_response Demo.apk_bytes "protected_app.apk") /\
  In (INFO, "APK signature verified using jarsigner") (log (final r)).
Proof. vm_compute. split; [reflexivity|]. tauto. Qed.

(** ** C4: the timeout of the tool *)

(** [try: m  except: pass] ends normally when [m] holds no [return]. *)
Lemma try_pass_val (m : M unit) (w : world) :
  sat anywhere no_answer m -> exists w', try_pass m w = (Val tt, w').
Proof.
  intros H. destruct (H w) as [_ N]. unfold try_pass, try_except.
  destruct (m w) as [[[]|r|e] w1]; simpl in *.
  - exists w1. reflexivity.
  - destruct (N r eq_refl).
  - exists w1. reflexivity.
Qed.

Lemma cleanup_after_failure_val (h : host) (t : string) (w : world) :
  exists w', cleanup_after_failure h t w = (Val tt, w').
Proof.
  unfold cleanup_after_failure. apply try_pass_val.
  assert (Hr : forall w0 : world, anywhere w0 w0) by (intros; exact I).
  assert (Ht : forall a b c : world, anywhere a b -> anywhere b c ->
                                     anywhere a c) by (intros; exact I).
  assert (Hf : forall (f : Fs.node) (w0 : world), anywhere w0 (set_fs f w0))
    by (intros; exact I).
  sat_steps.
Qed.

(** The handler of the timeout always answers "timed out", whatever the
    state of the file tree. *)
Lemma on_timeout_returns (h : host) (t c : string) (w : world) :
  exists w', on_timeout h t c w = (Return timed_out, w') /\
             procs w' = procs w.
Proof.
  assert (S : same_procs w (snd (on_timeout h t c w))).
  { apply (@sat_on_timeout same_procs any_answer same_procs_refl
             same_procs_trans same_procs_fs
             (fun s w0 => same_procs_log (ERROR, s) w0) same_procs_cwd
             (fun r _ => I) h t c w). }
  revert S. unfold on_timeout.
  destruct (@try_pass_val (os_chdir c) w) as [w1 E1].
  { apply sat_os_chdir; intros; exact I. }
  rewrite (@bind_val _ _ _ _ _ _ _ E1).
  do 6 (erewrite bind_val by reflexivity).
  destruct (cleanup_after_failure_val h t
              (add_log (ERROR, rule)
                 (add_log (ERROR, "The APK might be too large or complex.")
                    (add_log (ERROR,
                       "The APK protection process timed out after 5 minutes (free tier limit).")
                       (add_log (ERROR, rule)
                          (add_log (ERROR, "PROCESS TIMEOUT")
                             (add_log (ERROR, rule) w1)))))))
    as [w2 E2].
  rewrite (@bind_val _ _ _ _ _ _ _ E2). intros S. exists w2. split; [reflexivity|].
  exact S.
Qed.




(** ** C7: the output file *)

(** Induction on a file tree, the entries of a directory included. *)
Lemma node_rect_entries (Q : Fs.node -> Prop) :
  (forall d, Q (Fs.File d)) ->
  (forall es, Forall (fun e => Q (snd e)) es -> Q (Fs.Dir es)) ->
  forall n, Q n.
Proof.
  intros HF HD. fix IH 1. intros [d|es].
  - apply HF.
  - apply HD. induction es as [|[k c] es IHes]; constructor.
    + apply IH.
    + exact IHes.
Qed.

Lemma walk_dir (top : string) (es : list (string * Fs.node)) :
  Fs.walk top (Fs.Dir es)
  = (top, Fs.dirnames es, Fs.filenames es) :: walk_below top es.
Proof.
  cbn [Fs.walk]. f_equal. unfold walk_below.
  induction es as [|[k c] es IH]; [reflexivity|].
  cbn [flat_map fst snd]. rewrite <- IH. destruct c; reflexivity.
Qed.

Lemma in_filenames (f : string) (es : list (string * Fs.node)) :
  In f (Fs.filenames es) <-> exists d, In (f, Fs.File d) es.
Proof.
  unfold Fs.filenames. rewrite in_map_iff. split.
  - intros [[k n] [E H]]. apply filter_In in H. destruct H as [H D].
    simpl in *. subst. destruct n as [d|]; [|discriminate].
    exists d. exact H.
  - intros [d H]. exists (f, Fs.File d). split; [reflexivity|].
    apply filter_In. split; [exact H | reflexivity].
Qed.

(** The scan meets exactly the files that lie below the directory. *)
Lemma scan_meets_all (n : Fs.node) :
  forall top f,
    (exists root, In (root, f) (scan_order (Fs.walk top n)))
    <-> holds_file n f.
Proof.
  induction n as [d|es IH] using node_rect_entries; intros top f.
  - split; [intros [root []] | intros H; inversion H].
  - rewrite walk_dir. split.
    + intros [root H]. cbn [scan_order flat_map fst snd] in H.
      apply in_app_or in H. destruct H as [H|H].
      * apply in_map_iff in H. destruct H as [x [E H]].
        inversion E; subst. apply in_filenames in H. destruct H as [d H].
        eapply holds_here; exact H.
      * apply in_flat_map in H. destruct H as [[[r ds] fs] [H1 H2]].
        unfold walk_below in H1. apply in_flat_map in H1.
        destruct H1 as [[k c] [H3 H4]]. cbn [fst snd] in H4.
        destruct c as [d|es']; [destruct H4|].
        rewrite Forall_forall in IH. specialize (IH _ H3). cbn [snd] in IH.
        eapply holds_below; [exact H3|].
        apply (IH (Path.join top k) f). exists root.
        unfold scan_order. apply in_flat_map.
        exists (r, ds, fs). split; [exact H4 | exact H2].
    + intros H. inversion H as [es0 f0 d Hin|es0 k es' f0 Hin Hsub]; subst.
      * exists top. cbn [scan_order flat_map fst snd].
        apply in_or_app. left. apply in_map. apply in_filenames.
        exists d. exact Hin.
      * rewrite Forall_forall in IH. specialize (IH _ Hin). cbn [snd] in IH.
        apply (IH (Path.join top k) f) in Hsub. destruct Hsub as [root Hr].
        exists root. cbn [scan_order flat_map fst snd].
        apply in_or_app. right. fold (scan_order (walk_below top es)).
        unfold scan_order in *. apply in_flat_map in Hr.
        destruct Hr as [t [H1 H2]]. apply in_flat_map.
        exists t. split; [|exact H2].
        unfold walk_below. apply in_flat_map.
        exists (k, Fs.Dir es'). split; [exact Hin | exact H1].
Qed.

(** The candidates are the accepted files of the scan, in its order. *)
Lemma candidates_of_scan (triples : list (string * list string * list string)) :
  flat_map accepted_in triples
  = map (fun x => Path.join (fst x) (snd x))
        (filter (fun x => accepted_file (snd x)) (scan_order triples)).
Proof.
  induction triples as [|[[root ds] fs] l IH]; [reflexivity|].
  cbn [flat_map scan_order fst snd]. fold (scan_order l).
  rewrite filter_app, map_app, <- IH. f_equal.
  unfold accepted_in. clear.
  induction fs as [|f fs IH]; [reflexivity|].
  cbn [filter map snd]. fold (accepted_file f).
  destruct (accepted_file f); cbn [map fst snd]; rewrite IH; reflexivity.
Qed.

Lemma filter_none A (p : A -> bool) (l : list A) :
  filter p l = [] <-> forall x, In x l -> p x = false.
Proof.
  induction l as [|a l IH]; simpl.
  - split; [intros _ x [] | reflexivity].
  - destruct (p a) eqn:E.
    + split; [discriminate|]. intros H. rewrite (H a) in E; [discriminate|].
      left; reflexivity.
    + rewrite IH. split.
      * intros H x [->|Hx]; [exact E | apply H; exact Hx].
      * intros H x Hx. apply H. right; exact Hx.
Qed.

Lemma filter_first A (p : A -> bool) (before after : list A) (x : A) :
  Forall (fun y => p y = false) before -> p x = true ->
  filter p (before ++ x :: after) = x :: filter p after.
Proof.
  intros Hb Hx. induction Hb as [|y l Hy Hl IH]; simpl.
  - rewrite Hx. reflexivity.
  - rewrite Hy. exact IH.
Qed.

(** The decision of lines 247-269. *)
Lemma resolve_output_fst (c : completed) (o : string) (w : world) :
  fst (resolve_output c o w)
  = match flat_map accepted_in (scanned w o) with
    | [] => Return (no_output c)
    | output_file :: _ => Val output_file
    end.
Proof.
  unfold resolve_output, find_output_files, bind, log_info, log_error,
    logger, modify, os_walk, ret, return_, scanned, at_path.
  cbn [fs cwd add_log fst snd].
  destruct (flat_map accepted_in _); reflexivity.
Qed.

Lemma find_output_files_eq (o : string) (w : world) :
  find_output_files o w
  = (Val (flat_map accepted_in (scanned w o)),
     add_log (INFO, "Searching for output file...") w).
Proof. reflexivity. Qed.

Lemma resolve_output_none (c : completed) (o : string) (w : world) :
  flat_map accepted_in (scanned w o) = [] ->
  exists w', resolve_output c o w = (Return (no_output c), w') /\
             fs w' = fs w /\ cwd w' = cwd w.
Proof.
  intros Hs. unfold resolve_output.
  rewrite (@bind_val _ _ _ _ _ _ _ (find_output_files_eq o w)), Hs.
  do 7 (erewrite bind_val by reflexivity).
  eexists. split; [reflexivity|]. split; reflexivity.
Qed.

(** A failed resolution is the answer of the inner [try]: when the tool
    ends in time with status 0 and the scan meets no accepted file, the
    request is answered "No output file generated". *)
Lemma run_protection_no_output (h : host) (f : upload) (cmd : list string)
    (t o c : string) (w : world) (d : N) (so se : string) (after : Fs.node) :
  Fs.isdir_at (Path.resolve (cwd w) t) (fs w) = true ->
  exec h cmd (Path.resolve (cwd w) t) (fs w) = Runs d 0 so se after ->
  (d <= 300)%N ->
  flat_map accepted_in (scanned (set_fs after w) o) = [] ->
  exists w',
    run_protection h f cmd t o c w
    = (Return (no_output (MkCompleted 0 so se)), w') /\
    fs w' = after /\ cwd w' = cwd w.
Proof.
  intros Hd He Hle Hs.
  unfold run_protection, try_except, protection_body.
  do 2 (erewrite bind_val by reflexivity).
  erewrite bind_val.
  2:{ apply (@subprocess_run_completes h cmd 300 t _ d 0 so se after);
        [exact Hd | exact He | exact Hle]. }
  erewrite bind_val by reflexivity. cbn [returncode Z.eqb negb].
  match goal with
  | |- context [bind (resolve_output ?c o) _ ?w0] =>
      destruct (@resolve_output_none c o w0 Hs) as (w' & E & F & C)
  end.
  rewrite (@bind_return _ _ _ _ _ _ _ E).
  exists w'. split; [reflexivity|]. split; [exact F | exact C].
Qed.

(** C7. Output resolution answers "No output file generated" (status
    500) if and only if the recursive scan of the output directory meets
    no file with an accepted ending; otherwise it selects the first
    accepted file in the order of the scan, whatever its name, size or
    age. The scan meets exactly the files that lie below the directory. *)
Theorem C7_output_resolution
    (result : completed) (output_dir : string) (w : world) :
  (fst (resolve_output result output_dir w) = Return (no_output result)
   <-> forall root f, In (root, f) (scan_order (scanned w output_dir)) ->
                      accepted_file f = false) /\
  status (no_output result) = 500%N /\
  (forall before root f after,
     scan_order (scanned w output_dir) = before ++ (root, f) :: after ->
     Forall (fun x => accepted_file (snd x) = false) before ->
     accepted_file f = true ->
     fst (resolve_output result output_dir w) = Val (Path.join root f)) /\
  (forall n f, at_path w output_dir = Some n ->
     ((exists root, In (root, f) (scan_order (scanned w output_dir)))
      <-> holds_file n f)).
Proof.
  rewrite resolve_output_fst, candidates_of_scan.
  split; [|split; [reflexivity | split]].
  - destruct (filter _ _) as [|x l] eqn:E; cbn [map].
    + split; [intros _ | reflexivity].
      intros root f H.
      exact (proj1 (filter_none _ _) E (root, f) H).
    + split; [discriminate|]. intros H.
      assert (F : filter (fun x => accepted_file (snd x))
                    (scan_order (scanned w output_dir)) = []).
      { apply filter_none. intros [root f] Hin. apply (H root f Hin). }
      congruence.
  - intros before root f after E Hb Hf. rewrite E.
    rewrite (@filter_first _ (fun x => accepted_file (snd x)) before after
               (root, f) Hb Hf).
    reflexivity.
  - intros n f E. unfold scanned. rewrite E. apply scan_meets_all.
Qed.

Lemma C7_first_met_is_selected :
  scan_order (scanned Demo.after_run "/tmp/w/output")
  = [("/tmp/w/output", "report.txt"); ("/tmp/w/output", "second.aab");
     ("/tmp/w/output/deep", "first.apk")] /\
  fst (resolve_output (MkCompleted 0 "" "") "/tmp/w/output" Demo.after_run)
  = Val "/tmp/w/output/second.aab".
Proof.
  split; [vm_compute; reflexivity|].
  apply (proj1 (proj2 (proj2
           (C7_output_resolution (MkCompleted 0 "" "") "/tmp/w/output"
              Demo.after_run)))
           [("/tmp/w/output", "report.txt")] "/tmp/w/output" "second.aab"
           [("/tmp/w/output/deep", "first.apk")]).
  - vm_compute. reflexivity.
  - constructor; [reflexivity | constructor].
  - reflexivity.
Defined.

(** * Further properties of the handler *)

(** ** How a sequence ends *)

Lemma bind_inv A B (m : M A) (k : A -> M B) (w w' : world) (r : result B) :
  bind m k w = (r, w') ->
  (exists a w1, m w = (Val a, w1) /\ k a w1 = (r, w'))
  \/ (exists x, m w = (Return x, w') /\ r = Return x)
  \/ (exists e, m w = (Raise e, w') /\ r = Raise e).
Proof.
  unfold bind. destruct (m w) as [[a|x|e] w1]; intros E.
  - left. exists a, w1. split; [reflexivity | exact E].
  - right. left. inversion E; subst. exists x. split; reflexivity.
  - right. right. inversion E; subst. exists e. split; reflexivity.
Qed.

Lemma try_except_inv A (m : M A) (hd : exn -> M A) (w w' : world)
    (r : result A) :
  try_except m hd w = (r, w') ->
  (exists e w1, m w = (Raise e, w1) /\ hd e w1 = (r, w'))
  \/ (m w = (r, w') /\ forall e, r <> Raise e).
Proof.
  unfold try_except. destruct (m w) as [[a|x|e] w1]; intros E.
  - right. inversion E; subst. split; [reflexivity | discriminate].
  - right. inversion E; subst. split; [reflexivity | discriminate].
  - left. exists e, w1. split; [reflexivity | exact E].
Qed.

Lemma ends_return A (r : response) : ends_early (@return_ A r).
Proof. intros w a. discriminate. Qed.

Lemma ends_raise A (e : exn) : ends_early (@raise A e).
Proof. intros w a. discriminate. Qed.

Lemma ends_bind A B (m : M A) (k : A -> M B) :
  (forall a, ends_early (k a)) -> ends_early (bind m k).
Proof.
  intros H w b. unfold bind. destruct (m w) as [[a|x|e] w1]; simpl.
  - apply H.
  - discriminate.
  - discriminate.
Qed.

Lemma ends_try_except A (m : M A) (hd : exn -> M A) :
  ends_early m -> (forall e, ends_early (hd e)) ->
  ends_early (try_except m hd).
Proof.
  intros Hm Hh w a. unfold try_except. specialize (Hm w).
  destruct (m w) as [[a0|x|e] w1]; simpl in *.
  - destruct (Hm a0 eq_refl).
  - discriminate.
  - apply Hh.
Qed.

Ltac ends_step :=
  lazymatch goal with
  | |- ends_early (bind _ _) => apply ends_bind; intros ?
  | |- ends_early (try_except _ _) => apply ends_try_except; [| intros ?]
  | |- ends_early (return_ _) => apply ends_return
  | |- ends_early (raise _) => apply ends_raise
  | |- ends_early (if ?b then _ else _) => destruct b
  | |- ends_early (match ?x with _ => _ end) => destruct x
  end.

Lemma ends_respond (d : list Byte.byte) (n : string) :
  ends_early (respond d n).
Proof. unfold respond. repeat ends_step. Qed.

Lemma ends_deliver (h : host) (f : upload) (t c o : string) :
  ends_early (deliver h f t c o).
Proof.
  unfold deliver. do 8 (apply ends_bind; intros ?). apply ends_respond.
Qed.

Lemma ends_on_timeout (h : host) (t c : string) :
  ends_early (on_timeout h t c).
Proof. unfold on_timeout. repeat ends_step. Qed.

Lemma ends_on_error (h : host) (e : exn) (t c : string) :
  ends_early (on_error h e t c).
Proof. unfold on_error. repeat ends_step. Qed.

Lemma ends_run_protection (h : host) (f : upload) (cmd : list string)
    (t o c : string) :
  ends_early (run_protection h f cmd t o c).
Proof.
  unfold run_protection. apply ends_try_except.
  - unfold protection_body. do 4 (apply ends_bind; intros ?).
    destruct (negb _).
    + repeat ends_step.
    + apply ends_bind. intros ?. apply ends_deliver.
  - intros e. destruct (is_TimeoutExpired e);
      [apply ends_on_timeout | apply ends_on_error].
Qed.

Lemma on_server_error_returns (e : exn) (w : world) :
  exists r w', on_server_error e w = (Return r, w') /\ status r = 500%N.
Proof. eexists. eexists. split; reflexivity. Qed.

(** The handler always leaves by [return]. *)
Lemma protect_apk_returns (h : host) (req : request) (w : world) :
  exists r w', protect_apk h req w = (Return r, w').
Proof.
  destruct (protect_apk h req w) as [[a|r|e] w'] eqn:E.
  - exfalso. revert E. unfold protect_apk. intros E.
    assert (N : ends_early (try_except (protect_body h req) on_server_error)).
    { apply ends_try_except.
      - unfold protect_body. apply ends_bind. intros j.
        apply ends_run_protection.
      - intros e. unfold on_server_error. repeat ends_step. }
    apply (N w a). rewrite E. reflexivity.
  - exists r, w'. reflexivity.
  - exfalso. unfold protect_apk in E. apply try_except_inv in E.
    destruct E as [(e0 & w1 & _ & E)|[_ N]].
    + destruct (on_server_error_returns e0 w1) as (r & w2 & E2 & _).
      rewrite E2 in E. discriminate.
    + exact (N e eq_refl).
Qed.

(** ** Every request is answered *)

(** Whatever the request, the host and the world, [protect_apk] lets no
    exception out and hands back a response, with status 200, 400 or 500. *)
Theorem protect_apk_always_answers (h : host) (req : request) (w : world) :
  exists r, answer (protect_apk h req w) = Some r /\
            (status r = 200%N \/ status r = 400%N \/ status r = 500%N).
Proof.
  destruct (protect_apk_returns h req w) as (r & w' & E).
  exists r. unfold answer. rewrite E. split; [reflexivity|].
  destruct (@sat_protect_apk anywhere
              (fun r => status r = 200%N \/ status r = 400%N
                        \/ status r = 500%N)
              (fun _ => I) (fun _ _ _ _ _ => I) (fun _ _ _ _ => I)
              (fun _ _ => I) (fun _ _ => I) (fun _ _ => I) (fun _ _ => I)
              (fun r H => match H with
                          | or_introl A => or_intror (or_intror A)
                          | or_intror A => or_introl A
                          end)
              (fun r H => or_intror (or_introl H)) h req w) as [_ S].
  apply S. rewrite E. reflexivity.
Qed.

(** ** Rejections *)

(** The validation raises only when the body is over the limit. *)
Lemma validate_raises_over_limit (req : request) (w : world) (e : exn) :
  fst (validate req w) = Raise e ->
  (MAX_CONTENT_LENGTH < content_length req)%N.
Proof.
  rewrite validate_fst.
  destruct (MAX_CONTENT_LENGTH <? content_length req)%N eqn:L;
    [intros _; apply N.ltb_lt; exact L|].
  destruct (MultiDict.get "apk_file" (files req)) as [file|]; [|discriminate].
  destruct (String.eqb (filename file) ""); [discriminate|].
  destruct (negb _); [discriminate|].
  destruct (max_size <? seek_end_tell file)%N; [discriminate|].
  destruct (PyStr.startswith (filename file) "protected_"); discriminate.
Qed.

Lemma validate_returns_rejections (req : request) (w : world) (r : response) :
  fst (validate req w) = Return r -> status r = 400%N.
Proof.
  intros E.
  destruct (@sat_validate anywhere rejected (fun _ => I)
              (fun _ _ _ _ _ => I) (fun _ _ _ _ => I) (fun _ _ => I)
              (fun r H => H) req w) as [_ S].
  apply S. exact E.
Qed.

(** A request is answered with status 400 exactly when the validation
    (lines 52-97) rejects it, and then nothing but the log has changed:
    no workspace, no child process, the same working directory. *)
Theorem status_400_only_from_validation
    (h : host) (req : request) (w : world) (r : response) :
  answer (protect_apk h req w) = Some r ->
  (status r = 400%N <-> fst (validate req w) = Return r) /\
  (status r = 400%N -> only_logs w (final (protect_apk h req w))).
Proof.
  intros A.
  assert (K : status r = 400%N <-> fst (validate req w) = Return r).
  { destruct (fst (validate req w)) as [f|x|e] eqn:V.
    - split; [|discriminate]. intros S.
      destruct (served_after_validate h req w V A) as [H|H];
        rewrite H in S; discriminate.
    - rewrite (protect_apk_rejected h req w V) in A. inversion A; subst.
      split; [reflexivity|]. intros _.
      apply (validate_returns_rejections req w V).
    - destruct (@protect_apk_refused h req w
                  (@validate_raises_over_limit req w e V))
        as [B _].
      rewrite B in A. inversion A; subst.
      split; discriminate. }
  split; [exact K|]. intros S. apply K in S.
  rewrite (protect_apk_rejected h req w S). unfold final. simpl.
  apply validate_frame.
Qed.

Lemma status_400_marked_package :
  (status already_protected = 400%N
   <-> fst (validate (Demo.post "protected_app.apk" Demo.apk_bytes [])
              Demo.start) = Return already_protected) /\
  (status already_protected = 400%N ->
   only_logs Demo.start
     (final (protect_apk Demo.copies
               (Demo.post "protected_app.apk" Demo.apk_bytes [])
               Demo.start))).
Proof.
  apply (@status_400_only_from_validation Demo.copies
           (Demo.post "protected_app.apk" Demo.apk_bytes []) Demo.start
           already_protected).
  vm_compute. reflexivity.
Defined.

(** A request whose body is within the limit and that has no [apk_file]
    part is answered "No APK file provided", one whose file has an empty
    name "No file selected", both with status 400. *)
Theorem missing_upload_rejected (h : host) (req : request) (w : world) :
  (content_length req <= MAX_CONTENT_LENGTH)%N ->
  (MultiDict.get "apk_file" (files req) = None ->
   answer (protect_apk h req w)
   = Some (jsonify (Text "No APK file provided") None 400)) /\
  (forall file,
     MultiDict.get "apk_file" (files req) = Some file ->
     filename file = "" ->
     answer (protect_apk h req w)
     = Some (jsonify (Text "No file selected") None 400)).
Proof.
  intros Hc. split.
  - intros H.
    assert (V : fst (validate req w)
                = Return (jsonify (Text "No APK file provided") None 400)).
    { rewrite (validate_parsed req w Hc), H. reflexivity. }
    rewrite (protect_apk_rejected h req w V). reflexivity.
  - intros file H N.
    assert (V : fst (validate req w)
                = Return (jsonify (Text "No file selected") None 400)).
    { rewrite (validate_parsed req w Hc), H, N. reflexivity. }
    rewrite (protect_apk_rejected h req w V). reflexivity.
Qed.

Lemma missing_upload_examples :
  answer (protect_apk Demo.copies (MkRequest [] [("debug", "true")] 120)
            Demo.start)
  = Some (jsonify (Text "No APK file provided") None 400) /\
  answer (protect_apk Demo.copies (Demo.post "" Demo.apk_bytes [])
            Demo.start)
  = Some (jsonify (Text "No file selected") None 400).
Proof.
  split.
  - apply (proj1 (@missing_upload_rejected Demo.copies
                    (MkRequest [] [("debug", "true")] 120) Demo.start
                    ltac:(vm_compute; discriminate))).
    reflexivity.
  - apply (proj2 (@missing_upload_rejected Demo.copies
                    (Demo.post "" Demo.apk_bytes []) Demo.start
                    ltac:(vm_compute; discriminate))
                 (MkUpload "" Demo.apk_bytes)); reflexivity.
Defined.

(** A request without the part whose body is over the limit is refused
    like any other such request. *)
Example missing_upload_over_the_limit :
  answer (protect_apk Demo.copies
            (MkRequest [] [("debug", "true")] 157286401) Demo.start)
  = Some refused.
Proof.
  apply protect_apk_refused. vm_compute. reflexivity.
Qed.

(** ** The file tree: what is stored is found, what is removed is gone *)

Lemma find_put (a c : string) (x : Fs.node) (es : list (string * Fs.node)) :
  Fs.find a (Fs.put c x es)
  = if String.eqb c a then Some x else Fs.find a es.
Proof.
  induction es as [|[k m] es IH]; simpl.
  - reflexivity.
  - destruct (String.eqb_spec k c) as [E|E]; simpl.
    + subst. destruct (String.eqb c a); reflexivity.
    + rewrite IH. destruct (String.eqb_spec k a) as [E1|E1];
        [|reflexivity].
      destruct (String.eqb_spec c a) as [E2|E2]; [congruence | reflexivity].
Qed.

Lemma find_drop (a c : string) (es : list (string * Fs.node)) :
  Fs.find a (Fs.drop c es)
  = if String.eqb c a then None else Fs.find a es.
Proof.
  unfold Fs.drop. induction es as [|[k m] es IH]; simpl.
  - destruct (String.eqb c a); reflexivity.
  - destruct (String.eqb_spec k c) as [E|E]; simpl.
    + subst. rewrite IH. destruct (String.eqb c a); reflexivity.
    + rewrite IH. destruct (String.eqb_spec k a) as [E1|E1];
        [|reflexivity].
      destruct (String.eqb_spec c a) as [E2|E2]; [congruence | reflexivity].
Qed.

Lemma lookup_store (p : list string) (new n n' : Fs.node) :
  Fs.store p new n = Some n' -> Fs.lookup p n' = Some new.
Proof.
  revert n n'. induction p as [|c p IH]; intros n n' H.
  - simpl in H. inversion H. reflexivity.
  - destruct n as [d|es]; [discriminate|]. cbn [Fs.store] in H.
    destruct p as [|c' p'].
    + inversion H; subst. simpl. rewrite find_put, String.eqb_refl.
      reflexivity.
    + destruct (Fs.find c es) as [child|]; [|discriminate].
      destruct (Fs.store (c' :: p') new child) as [child'|] eqn:S;
        [|discriminate].
      inversion H; subst. cbn [Fs.lookup].
      rewrite find_put, String.eqb_refl. apply (IH _ _ S).
Qed.

Lemma lookup_remove_self (p : list string) (n : Fs.node) :
  p <> [] -> Fs.lookup p (Fs.remove_at p n) = None.
Proof.
  revert n. induction p as [|c p IH]; intros n Hp; [congruence|].
  destruct n as [d|es]; [reflexivity|]. cbn [Fs.remove_at].
  destruct p as [|c' p'].
  - cbn [Fs.lookup]. rewrite find_drop, String.eqb_refl. reflexivity.
  - destruct (Fs.find c es) as [child|] eqn:F.
    + cbn [Fs.lookup]. rewrite find_put, String.eqb_refl.
      apply IH. discriminate.
    + cbn [Fs.lookup]. rewrite F. reflexivity.
Qed.

(** Removing never makes a path appear, nor a file into a directory. *)
Lemma lookup_remove_shrinks (q p : list string) (n m' : Fs.node) :
  Fs.lookup p (Fs.remove_at q n) = Some m' ->
  exists m, Fs.lookup p n = Some m /\ Fs.is_dir m = Fs.is_dir m'.
Proof.
  revert p n m'. induction q as [|c q IH]; intros p n m' H.
  - exists m'. split; [exact H | reflexivity].
  - destruct n as [d|es]; [exists m'; split; [exact H | reflexivity]|].
    cbn [Fs.remove_at] in H. destruct q as [|c' q'].
    + destruct p as [|a p'].
      * inversion H; subst. eexists. split; reflexivity.
      * cbn [Fs.lookup] in *. rewrite find_drop in H.
        destruct (String.eqb c a); [discriminate|].
        exists m'. split; [exact H | reflexivity].
    + destruct (Fs.find c es) as [child|] eqn:F.
      * destruct p as [|a p'].
        -- inversion H; subst. eexists. split; reflexivity.
        -- cbn [Fs.lookup] in *. rewrite find_put in H.
           destruct (String.eqb_spec c a) as [E|E].
           ++ subst. rewrite F. apply IH. exact H.
           ++ exists m'. split; [exact H | reflexivity].
      * exists m'. split; [exact H | reflexivity].
Qed.

Lemma isdir_remove_shrinks (q p : list string) (n : Fs.node) :
  Fs.isdir_at p (Fs.remove_at q n) = true -> Fs.isdir_at p n = true.
Proof.
  unfold Fs.isdir_at.
  destruct (Fs.lookup p (Fs.remove_at q n)) as [m'|] eqn:E; [|discriminate].
  destruct (lookup_remove_shrinks q p n E) as (m & L & D).
  rewrite L, D. trivial.
Qed.

(** ** The platform calls on the tree *)

Lemma os_mkdir_val (p : string) (w w' : world) :
  os_mkdir p w = (Val tt, w') ->
  at_path w p = None /\ at_path w' p = Some (Fs.Dir []) /\
  cwd w' = cwd w /\ procs w' = procs w /\ log w' = log w.
Proof.
  unfold os_mkdir, at_path. cbv zeta.
  destruct (Fs.lookup (Path.resolve (cwd w) p) (fs w)) eqn:L;
    [discriminate|].
  destruct (Fs.lookup (removelast _) (fs w)) as [[d|es]|];
    try discriminate.
  destruct (Fs.store _ _ (fs w)) as [f|] eqn:S; [|discriminate].
  intros E. inversion E; subst. simpl.
  split; [reflexivity|]. split; [apply (lookup_store _ _ _ S)|].
  repeat split.
Qed.

Lemma os_mkdir_unchanged (p : string) (w w' : world) (r : result unit) :
  os_mkdir p w = (r, w') -> r <> Val tt -> w' = w.
Proof.
  unfold os_mkdir. cbv zeta.
  destruct (Fs.lookup (Path.resolve (cwd w) p) (fs w));
    [intros E; inversion E; reflexivity|].
  destruct (Fs.lookup (removelast _) (fs w)) as [[d|es]|];
    try (intros E; inversion E; reflexivity).
  destruct (Fs.store _ _ (fs w)) as [f|];
    [|intros E; inversion E; reflexivity].
  intros E N. inversion E; subst. congruence.
Qed.

Lemma mkdtemp_from_fresh (names : list string) (prefix dir : string)
    (w w' : world) (file : string) :
  mkdtemp_from names prefix dir w = (Val file, w') ->
  exists name, In name names /\
    file = Path.join dir (prefix ++ name) /\
    at_path w file = None /\ at_path w' file = Some (Fs.Dir []) /\
    cwd w' = cwd w /\ procs w' = procs w /\ log w' = log w.
Proof.
  induction names as [|n names IH]; [discriminate|].
  cbn [mkdtemp_from]. intros E. apply try_except_inv in E.
  destruct E as [(e & w1 & E1 & E2)|[E1 _]].
  - apply bind_inv in E1.
    destruct E1 as [(a & w2 & _ & E1)|[(x & _ & E1)|(e0 & E1 & _)]];
      try discriminate.
    apply os_mkdir_unchanged in E1; [|discriminate]. subst w1.
    destruct (cls e); try discriminate.
    destruct (IH E2) as (name & I & R).
    exists name. split; [right; exact I | exact R].
  - apply bind_inv in E1.
    destruct E1 as [(a & w2 & E1 & E2)|[(x & _ & E1)|(e0 & _ & E1)]];
      try discriminate.
    inversion E2; subst. destruct a.
    exists n. split; [left; reflexivity|]. split; [reflexivity|].
    apply (os_mkdir_val _ _ E1).
Qed.

(** [mkdtemp] never hands out a directory that existed: the path it
    returns was free before the call and is an empty directory after it,
    named by the prefix and one of the drawn names. *)
Lemma mkdtemp_is_fresh (h : host) (prefix dir file : string)
    (w w' : world) :
  mkdtemp h prefix dir w = (Val file, w') ->
  exists name, In name (temp_names h) /\
    file = Path.join dir (prefix ++ name) /\
    at_path w file = None /\ at_path w' file = Some (Fs.Dir []) /\
    cwd w' = cwd w /\ procs w' = procs w /\ log w' = log w.
Proof. apply mkdtemp_from_fresh. Qed.

Lemma save_val (data : list Byte.byte) (p : string) (w w' : world) :
  save data p w = (Val tt, w') ->
  at_path w' p = Some (Fs.File data) /\
  cwd w' = cwd w /\ procs w' = procs w /\ log w' = log w.
Proof.
  unfold save, at_path. cbv zeta.
  destruct (Fs.lookup (Path.resolve (cwd w) p) (fs w)) as [[d|es]|];
    try discriminate;
    (destruct (Fs.lookup (removelast _) (fs w)) as [[d'|es']|];
       try discriminate;
     destruct (Fs.store _ _ (fs w)) as [f|] eqn:S; [|discriminate];
     intros E; inversion E; subst; simpl;
     split; [apply (lookup_store _ _ _ S) | repeat split]).
Qed.

Ltac bind_val H a w1 E :=
  apply bind_inv in H;
  destruct H as [(a & w1 & E & H)|[(? & _ & H)|(? & _ & H)]];
  [| discriminate | discriminate].

Lemma os_path_exists_eq (p : string) (w w' : world) (b : bool) :
  os_path_exists p w = (Val b, w') ->
  w' = w /\
  b = match at_path w p with Some _ => true | None => false end.
Proof. unfold os_path_exists. intros E. inversion E. split; reflexivity. Qed.

(** [os.makedirs] touches nothing but the file tree. *)
Lemma os_makedirs_val (p : string) (w w' : world) :
  os_makedirs p w = (Val tt, w') ->
  cwd w' = cwd w /\ procs w' = procs w /\ log w' = log w.
Proof.
  intros E.
  pose proof (proj1 (@sat_os_makedirs
                (fun a b => cwd b = cwd a /\ procs b = procs a
                            /\ log b = log a) any_answer
                (fun _ => conj eq_refl (conj eq_refl eq_refl))
                (fun a b c H1 H2 =>
                   match H1, H2 with
                   | conj A1 (conj B1 C1), conj A2 (conj B2 C2) =>
                       conj (eq_trans A2 A1)
                         (conj (eq_trans B2 B1) (eq_trans C2 C1))
                   end)
                (fun _ _ => conj eq_refl (conj eq_refl eq_refl)) p w)) as K.
  rewrite E in K. exact K.
Qed.

Lemma os_path_getsize_world (p : string) (w w' : world) (r : result N) :
  os_path_getsize p w = (r, w') -> w' = w.
Proof.
  unfold os_path_getsize.
  destruct (at_path w p) as [[d|es]|]; intros E; inversion E; reflexivity.
Qed.

(** ** The workspace and the staged input (lines 99-114) *)

(** What the rest of the handler relies on: the workspace is new, and
    staging moves neither the working directory nor the children. *)
Lemma stage_fresh
    (h : host) (file : upload) (w w' : world) (t i o : string) :
  stage h file w = (Val (t, i, o), w') ->
  at_path w t = None /\ cwd w' = cwd w /\ procs w' = procs w.
Proof.
  unfold stage. intros H.
  bind_val H tmp w1 E1. apply os_path_exists_eq in E1.
  destruct E1 as [-> ->]. cbv zeta in H.
  bind_val H td w2 E2. apply mkdtemp_is_fresh in E2.
  destruct E2 as (name & I & T & F & _ & C2 & P2 & _).
  bind_val H u3 w3 E3. destruct u3. apply os_makedirs_val in E3.
  destruct E3 as (C3 & P3 & _).
  bind_val H u4 w4 E4. inversion E4; subst u4 w4. clear E4.
  bind_val H u5 w5 E5. destruct u5. apply save_val in E5.
  destruct E5 as (S5 & C5 & P5 & _).
  bind_val H sz w6 E6. apply os_path_getsize_world in E6. subst w6.
  bind_val H u7 w7 E7. inversion E7; subst u7 w7. clear E7.
  inversion H; subst. clear H.
  split; [exact F|]. simpl in *. split; congruence.
Qed.

(** When staging succeeds, the workspace is a directory that did not
    exist before, under [/tmp] if that exists and under the system
    directory otherwise; the input path and the output directory lie in
    it; the file at the input path holds exactly the uploaded bytes; the
    working directory and the process table are untouched. *)
Theorem stage_creates_fresh_workspace
    (h : host) (file : upload) (w w' : world) (t i o : string) :
  stage h file w = (Val (t, i, o), w') ->
  (exists name, In name (temp_names h) /\
     t = Path.join (if Fs.exists_at ["tmp"] (fs w) then "/tmp"
                    else tempdir h)
                   ("apk_protect_" ++ name)) /\
  at_path w t = None /\
  i = Path.join t (secure_filename h (filename file)) /\
  o = Path.join t "output" /\
  at_path w' i = Some (Fs.File (stream file)) /\
  cwd w' = cwd w /\ procs w' = procs w.
Proof.
  unfold stage. intros H.
  bind_val H tmp w1 E1. apply os_path_exists_eq in E1.
  destruct E1 as [-> ->]. cbv zeta in H.
  bind_val H td w2 E2. apply mkdtemp_is_fresh in E2.
  destruct E2 as (name & I & T & F & _ & C2 & P2 & _).
  bind_val H u3 w3 E3. destruct u3. apply os_makedirs_val in E3.
  destruct E3 as (C3 & P3 & _).
  bind_val H u4 w4 E4. inversion E4; subst u4 w4. clear E4.
  bind_val H u5 w5 E5. destruct u5. apply save_val in E5.
  destruct E5 as (S5 & C5 & P5 & _).
  bind_val H sz w6 E6. apply os_path_getsize_world in E6. subst w6.
  bind_val H u7 w7 E7. inversion E7; subst u7 w7. clear E7.
  inversion H; subst. clear H.
  split; [exists name; split; [exact I | reflexivity]|].
  split; [exact F|]. split; [reflexivity|]. split; [reflexivity|].
  split; [exact S5|]. simpl in *. split; congruence.
Qed.

Lemma stage_demo :
  at_path Demo.start "/tmp/apk_protect_k3x9" = None /\
  at_path (snd (stage Demo.copies (MkUpload "app.apk" Demo.apk_bytes)
                  Demo.start))
          "/tmp/apk_protect_k3x9/app.apk"
  = Some (Fs.File Demo.apk_bytes).
Proof.
  destruct (@stage_creates_fresh_workspace Demo.copies
              (MkUpload "app.apk" Demo.apk_bytes) Demo.start
              (snd (stage Demo.copies (MkUpload "app.apk" Demo.apk_bytes)
                      Demo.start))
              "/tmp/apk_protect_k3x9" "/tmp/apk_protect_k3x9/app.apk"
              "/tmp/apk_protect_k3x9/output")
    as (_ & F & _ & _ & S & _).
  - vm_compute. reflexivity.
  - split; [exact F | exact S].
Defined.

(** ** The Java check (lines 129-162) *)

Lemma check_java_fst (h : host) (java_cmd : string) (w : world) :
  fst (check_java h java_cmd w) =
  match exec h [java_cmd; "-version"] (cwd w) (fs w) with
  | CannotStart e =>
      Return (java_missing
        (if is_TimeoutExpired e || is_FileNotFoundError e
         then "Please ensure Java JDK 21 is installed and JAVA_HOME is set correctly."
         else "Error: " ++ text e))
  | Runs d rc o e after =>
      if (5 <? d)%N
      then Return (java_missing
        "Please ensure Java JDK 21 is installed and JAVA_HOME is set correctly.")
      else Val tt
  | Undecodable d rc why after =>
      if (5 <? d)%N
      then Return (java_missing
        "Please ensure Java JDK 21 is installed and JAVA_HOME is set correctly.")
      else Return (java_missing ("Error: " ++ why))
  end.
Proof.
  unfold check_java, try_except.
  erewrite bind_val by reflexivity.
  unfold bind at 1. rewrite subprocess_run_eq. cbv beta iota zeta.
  cbn [cwd fs add_log start_dir_error start_dir].
  destruct (exec h [java_cmd; "-version"] (cwd w) (fs w))
    as [e|d rc o e after|d rc why after].
  - destruct e as [[] tx]; reflexivity.
  - destruct (5 <? d)%N; reflexivity.
  - destruct (5 <? d)%N; reflexivity.
Qed.

(** The check passes exactly when the probe [java -version] ends within
    5 time units with an output that decodes as text, whatever its exit
    status and what it wrote; in every other case (it cannot be started,
    it runs longer, or its output does not decode) the request is
    answered with status 500 and "Java JDK 21 is not installed or not
    found in PATH". *)
Theorem check_java_passes_iff_probe_ends
    (h : host) (java_cmd : string) (w : world) :
  (fst (check_java h java_cmd w) = Val tt
   <-> exists d rc o e after,
         exec h [java_cmd; "-version"] (cwd w) (fs w) = Runs d rc o e after
         /\ (d <= 5)%N) /\
  (fst (check_java h java_cmd w) <> Val tt ->
   exists details,
     fst (check_java h java_cmd w) = Return (java_missing details)) /\
  status (java_missing "") = 500%N.
Proof.
  pose proof (check_java_fst h java_cmd w) as K.
  split; [|split; [|reflexivity]].
  - rewrite K. split.
    + destruct (exec h _ _ _) as [e|d rc o e after|d rc why after];
        [discriminate| |destruct (5 <? d)%N; discriminate].
      destruct (N.ltb_spec 5 d); [discriminate|]. intros _.
      exists d, rc, o, e, after. split; [reflexivity | assumption].
    + intros (d & rc & o & e & after & E & L). rewrite E.
      apply N.ltb_ge in L. rewrite L. reflexivity.
  - rewrite K.
    destruct (exec h _ _ _) as [e|d rc o e after|d rc why after].
    + intros _. eexists. reflexivity.
    + destruct (5 <? d)%N; [intros _; eexists; reflexivity | congruence].
    + destruct (5 <? d)%N; intros _; eexists; reflexivity.
Qed.

(** A probe whose output is not text fails the check. *)
Example garbled_probe_fails_the_check :
  exec Demo.garbled_java ["java"; "-version"] (cwd Demo.start)
    (fs Demo.start)
  = Undecodable 1 0
      "'utf-8' codec can't decode byte 0xff in position 0: invalid start byte"
      (fs Demo.start) /\
  fst (check_java Demo.garbled_java "java" Demo.start)
  = Return (java_missing
      "Error: 'utf-8' codec can't decode byte 0xff in position 0: invalid start byte").
Proof. split; vm_compute; reflexivity. Qed.

(** ** Loading the result (lines 392-418) *)

Lemma load_output_only_logs (o : string) (w : world) :
  only_logs w (snd (load_output o w)).
Proof.
  unfold load_output, try_except, bind, log_info, log_error, logger,
    modify, read_file, return_, ret, at_path, only_logs.
  cbn [fs cwd add_log].
  destruct (Fs.lookup (Path.resolve (cwd w) o) (fs w)) as [[[|b d]|es]|];
    [| | |unfold missing; destruct (Fs.blocked _ _)]; cbn; repeat split.
Qed.

(** What [load_output] hands on, by what lies at the path. *)
Lemma load_output_fst (o : string) (w : world) :
  fst (load_output o w)
  = match at_path w o with
    | Some (Fs.File []) =>
        Return (jsonify (Text "Protected file is empty")
          (Some "The protection process completed but generated an empty file. Please try again.")
          500)
    | Some (Fs.File d) => Val d
    | Some (Fs.Dir _) =>
        Return (jsonify (Text "Failed to read protected file")
                  (Some ("Could not read the output file: "
                         ++ text (EISDIR o))%string)
                  500)
    | None =>
        Return (jsonify (Text "Failed to read protected file")
                  (Some ("Could not read the output file: "
                         ++ text (missing w o))%string)
                  500)
    end.
Proof.
  unfold load_output, try_except, bind, log_info, log_error, logger,
    modify, read_file, return_, ret, at_path.
  cbn [fs cwd add_log].
  destruct (Fs.lookup (Path.resolve (cwd w) o) (fs w)) as [[[|b d]|es]|];
    [| | |unfold missing; cbn [fs cwd add_log];
          destruct (Fs.blocked _ _)]; reflexivity.
Qed.

(** The result is read whole: a regular file that is not empty gives its
    bytes; an empty file is answered "Protected file is empty"; a path
    that is missing or a directory is answered "Failed to read protected
    file"; both answers have status 500. Nothing but the log changes and
    no exception gets out. *)
Theorem load_output_cases (o : string) (w : world) :
  only_logs w (snd (load_output o w)) /\
  match at_path w o with
  | Some (Fs.File []) =>
      fst (load_output o w)
      = Return (jsonify (Text "Protected file is empty")
          (Some "The protection process completed but generated an empty file. Please try again.")
          500)
  | Some (Fs.File d) => fst (load_output o w) = Val d
  | _ =>
      exists details,
        fst (load_output o w)
        = Return (jsonify (Text "Failed to read protected file")
                          (Some details) 500)
  end.
Proof.
  split; [apply load_output_only_logs|].
  rewrite load_output_fst.
  destruct (at_path w o) as [[[|b d]|es]|].
  - reflexivity.
  - reflexivity.
  - eexists. reflexivity.
  - eexists. reflexivity.
Qed.

Lemma load_output_val (o : string) (w w' : world) (d : list Byte.byte) :
  load_output o w = (Val d, w') ->
  at_path w o = Some (Fs.File d) /\ d <> [] /\ only_logs w w'.
Proof.
  intros E. pose proof (load_output_only_logs o w) as L.
  pose proof (load_output_fst o w) as C. rewrite E in *.
  cbn [fst snd] in *.
  destruct (at_path w o) as [[[|b d0]|es]|]; try discriminate.
  inversion C; subst. split; [reflexivity|]. split; [discriminate|exact L].
Qed.

Lemma load_output_return (o : string) (w w' : world) (r : response) :
  load_output o w = (Return r, w') -> status r = 500%N.
Proof.
  intros E. pose proof (load_output_fst o w) as C. rewrite E in C.
  cbn [fst] in C.
  destruct (at_path w o) as [[[|b d0]|es]|]; inversion C; reflexivity.
Qed.

Lemma load_output_examples :
  fst (load_output "/tmp/w/output/second.aab" Demo.after_run)
  = Val [Byte.x03] /\
  (exists details,
     fst (load_output "/tmp/w/output/deep" Demo.after_run)
     = Return (jsonify (Text "Failed to read protected file")
                       (Some details) 500)).
Proof.
  split.
  - exact (proj2 (load_output_cases "/tmp/w/output/second.aab"
                    Demo.after_run)).
  - exact (proj2 (load_output_cases "/tmp/w/output/deep" Demo.after_run)).
Defined.

(** ** Teardown: what [shutil.rmtree] leaves *)

Lemma no_new_dirs_refl (w : world) : no_new_dirs w w.
Proof. intros p H. exact H. Qed.

Lemma no_new_dirs_trans (a b c : world) :
  no_new_dirs a b -> no_new_dirs b c -> no_new_dirs a c.
Proof. intros H1 H2 p H. apply H1, H2, H. Qed.

Lemma no_new_dirs_log (e : level * string) (w : world) :
  no_new_dirs w (add_log e w).
Proof. intros p H. exact H. Qed.

Lemma no_new_dirs_cwd (c : list string) (w : world) :
  no_new_dirs w (set_cwd c w).
Proof. intros p H. exact H. Qed.

Lemma sat_rmtree_shrinks (P : response -> Prop) (p : string) :
  sat no_new_dirs P (shutil_rmtree p).
Proof.
  intros w. unfold shutil_rmtree.
  destruct (at_path w p) as [[d|es]|]; simpl;
    (split; [|discriminate]); try apply no_new_dirs_refl.
  intros q H. simpl in H. apply (isdir_remove_shrinks _ _ _ H).
Qed.

Lemma rmtree_removes (p : string) (w : world) :
  Path.resolve (cwd w) p <> [] ->
  exists w', shutil_rmtree p w = (Val tt, w') /\
    Fs.isdir_at (Path.resolve (cwd w) p) (fs w') = false /\
    cwd w' = cwd w /\ procs w' = procs w /\ log w' = log w.
Proof.
  intros N. unfold shutil_rmtree, at_path, Fs.isdir_at.
  destruct (Fs.lookup (Path.resolve (cwd w) p) (fs w)) as [[d|es]|] eqn:L.
  - exists w. rewrite L. repeat split.
  - eexists. split; [reflexivity|]. simpl.
    rewrite (lookup_remove_self _ N). repeat split.
  - exists w. rewrite L. repeat split.
Qed.

(** The facts about a relation that the rules of [sat] ask for. *)
Ltac pose_no_new_dirs :=
  pose proof no_new_dirs_refl as R_refl;
  pose proof no_new_dirs_trans as R_trans;
  pose proof (fun (l : level) (s : string) (w : world) (_ : l <> ERROR) =>
                no_new_dirs_log (l, s) w) as R_log;
  pose proof (fun (s : string) (w : world) =>
                no_new_dirs_log (ERROR, s) w) as R_err;
  pose proof no_new_dirs_cwd as R_cwd.

Ltac shrink_steps :=
  cbv zeta; repeat (first [apply sat_rmtree_shrinks | sat_step]; cbv zeta).

(** A cleanup of the shape [try: rmtree(t); rest  except: hd]: when it
    is over there is no directory at [t]. *)
Lemma rmtree_then_rest (t : string) (rest : M unit) (hd : exn -> M unit)
    (w : world) :
  sat no_new_dirs no_answer rest ->
  (forall e, sat no_new_dirs no_answer (hd e)) ->
  (forall e w0, exists w1, hd e w0 = (Val tt, w1)) ->
  Path.resolve (cwd w) t <> [] ->
  exists w', try_except (bind (shutil_rmtree t) (fun _ => rest)) hd w
             = (Val tt, w') /\
    Fs.isdir_at (Path.resolve (cwd w) t) (fs w') = false.
Proof.
  intros Hr Hh Hv N.
  destruct (rmtree_removes t w N) as (w1 & E1 & G & _).
  unfold try_except. rewrite (@bind_val _ _ _ _ _ _ _ E1).
  destruct (Hr w1) as [S1 N1].
  destruct (rest w1) as [[[]|r|e] w2]; simpl in *.
  - exists w2. split; [reflexivity|].
    destruct (Fs.isdir_at _ (fs w2)) eqn:D; [|reflexivity].
    apply S1 in D. congruence.
  - destruct (N1 r eq_refl).
  - destruct (Hv e w2) as [w3 E3]. rewrite E3. exists w3.
    split; [reflexivity|]. destruct (Hh e w2) as [S3 _].
    rewrite E3 in S3. simpl in S3.
    destruct (Fs.isdir_at _ (fs w3)) eqn:D; [|reflexivity].
    apply S3, S1 in D. congruence.
Qed.

Lemma cleanup_after_success_gone (h : host) (t : string) (w : world) :
  Path.resolve (cwd w) t <> [] ->
  exists w', cleanup_after_success h t w = (Val tt, w') /\
    Fs.isdir_at (Path.resolve (cwd w) t) (fs w') = false /\
    cwd w' = cwd w /\ procs w' = procs w.
Proof.
  intros N.
  assert (C : same_cwd w (snd (cleanup_after_success h t w))).
  { apply (@sat_cleanup_after_success same_cwd any_answer
             (fun _ => eq_refl)
             (fun a b c H1 H2 => eq_trans H2 H1)
             (fun _ _ _ _ => eq_refl) (fun _ _ => eq_refl) h t w). }
  assert (Pr : same_procs w (snd (cleanup_after_success h t w))).
  { apply (@sat_cleanup_after_success same_procs any_answer
             same_procs_refl same_procs_trans
             (fun l s w0 _ => same_procs_log (l, s) w0) same_procs_fs
             h t w). }
  unfold cleanup_after_success in *.
  match goal with
  | |- context [try_except (bind (shutil_rmtree t) (fun _ => ?rest)) ?hd w] =>
      assert (G : exists w',
                try_except (bind (shutil_rmtree t) (fun _ => rest)) hd w
                = (Val tt, w') /\
                Fs.isdir_at (Path.resolve (cwd w) t) (fs w') = false)
  end.
  { apply rmtree_then_rest.
    - pose_no_new_dirs. shrink_steps.
    - intros e. pose_no_new_dirs. shrink_steps.
    - intros e w0. eexists. reflexivity.
    - exact N. }
  destruct G as (w' & E & G). rewrite E in *. exists w'.
  split; [reflexivity|]. split; [exact G|]. split; [exact C | exact Pr].
Qed.

Lemma cleanup_after_failure_gone (h : host) (t : string) (w : world) :
  Path.resolve (cwd w) t <> [] ->
  exists w', cleanup_after_failure h t w = (Val tt, w') /\
    Fs.isdir_at (Path.resolve (cwd w) t) (fs w') = false /\
    cwd w' = cwd w /\ procs w' = procs w.
Proof.
  intros N.
  assert (C : same_cwd w (snd (cleanup_after_failure h t w))).
  { apply (@sat_cleanup_after_failure same_cwd any_answer
             (fun _ => eq_refl)
             (fun a b c H1 H2 => eq_trans H2 H1)
             (fun _ _ => eq_refl) h t w). }
  assert (Pr : same_procs w (snd (cleanup_after_failure h t w))).
  { apply (@sat_cleanup_after_failure same_procs any_answer
             same_procs_refl same_procs_trans same_procs_fs h t w). }
  unfold cleanup_after_failure, try_pass in *.
  match goal with
  | |- context [try_except (bind (shutil_rmtree t) (fun _ => ?rest)) ?hd w] =>
      assert (G : exists w',
                try_except (bind (shutil_rmtree t) (fun _ => rest)) hd w
                = (Val tt, w') /\
                Fs.isdir_at (Path.resolve (cwd w) t) (fs w') = false)
  end.
  { apply rmtree_then_rest.
    - pose_no_new_dirs. shrink_steps.
    - intros e. pose_no_new_dirs. shrink_steps.
    - intros e w0. eexists. reflexivity.
    - exact N. }
  destruct G as (w' & E & G). rewrite E in *. exists w'.
  split; [reflexivity|]. split; [exact G|]. split; [exact C | exact Pr].
Qed.

Lemma cleanup_after_success_spec (h : host) (t : string) (w : world) :
  exists w', cleanup_after_success h t w = (Val tt, w') /\
    cwd w' = cwd w /\ procs w' = procs w /\
    (Path.resolve (cwd w) t <> [] ->
     Fs.isdir_at (Path.resolve (cwd w) t) (fs w') = false).
Proof.
  destruct (list_eq_dec string_dec (Path.resolve (cwd w) t) []) as [E|N].
  - assert (C : same_cwd w (snd (cleanup_after_success h t w))).
    { apply (@sat_cleanup_after_success same_cwd any_answer
               (fun _ => eq_refl)
               (fun a b c H1 H2 => eq_trans H2 H1)
               (fun _ _ _ _ => eq_refl) (fun _ _ => eq_refl) h t w). }
    assert (Pr : same_procs w (snd (cleanup_after_success h t w))).
    { apply (@sat_cleanup_after_success same_procs any_answer
               same_procs_refl same_procs_trans
               (fun l s w0 _ => same_procs_log (l, s) w0) same_procs_fs
               h t w). }
    destruct (@sat_cleanup_after_success anywhere no_answer
                (fun _ => I) (fun _ _ _ _ _ => I) (fun _ _ _ _ => I)
                (fun _ _ => I) h t w) as [_ NR].
    assert (T : forall e, fst (cleanup_after_success h t w) <> Raise e).
    { unfold cleanup_after_success. apply try_except_total.
      intros e w1. eexists. eexists. reflexivity. }
    destruct (cleanup_after_success h t w) as [[[]|r|e] w'];
      simpl in *.
    + exists w'. split; [reflexivity|]. split; [exact C|].
      split; [exact Pr | congruence].
    + destruct (NR r eq_refl).
    + destruct (T e eq_refl).
  - destruct (cleanup_after_success_gone h t w N) as (w' & E & G & C & Pr).
    exists w'. split; [exact E|]. split; [exact C|]. split; [exact Pr|].
    intros _. exact G.
Qed.

Lemma resolve_absolute (c : list string) (t : string) :
  PyStr.startswith t "/" = true -> Path.resolve c t = Path.components t.
Proof. unfold Path.resolve. intros ->. reflexivity. Qed.

Lemma resolve_render (c p : list string) :
  Path.resolve c (Path.render p) = Path.components (Path.render p).
Proof.
  unfold Path.resolve, Path.render, PyStr.startswith. simpl.
  destruct (PyStr.join "/" p); reflexivity.
Qed.

Lemma try_chdir (c : string) (w : world) :
  exists w1, try_pass (os_chdir c) w = (Val tt, w1) /\
    fs w1 = fs w /\ procs w1 = procs w /\
    cwd w1 = match at_path w c with
             | Some (Fs.Dir _) => Path.resolve (cwd w) c
             | _ => cwd w
             end.
Proof.
  unfold try_pass, try_except, os_chdir.
  destruct (at_path w c) as [[d|es]|]; eexists; simpl; repeat split.
Qed.

Lemma os_chdir_val (c : string) (w w' : world) :
  os_chdir c w = (Val tt, w') ->
  w' = set_cwd (Path.resolve (cwd w) c) w /\
  Fs.isdir_at (Path.resolve (cwd w) c) (fs w) = true.
Proof.
  unfold os_chdir, at_path, Fs.isdir_at.
  destruct (Fs.lookup (Path.resolve (cwd w) c) (fs w)) as [[d|es]|];
    try discriminate.
  intros E. inversion E. split; reflexivity.
Qed.

(** Both handlers of the inner [try] restore the directory if it is
    still there, tear the workspace down and answer. *)
Lemma on_timeout_tears_down (h : host) (t c : string) (w : world) :
  PyStr.startswith t "/" = true -> Path.components t <> [] ->
  exists w', on_timeout h t c w = (Return timed_out, w') /\
    procs w' = procs w /\
    Fs.isdir_at (Path.components t) (fs w') = false /\
    cwd w' = match at_path w c with
             | Some (Fs.Dir _) => Path.resolve (cwd w) c
             | _ => cwd w
             end.
Proof.
  intros A N. unfold on_timeout.
  destruct (try_chdir c w) as (w1 & E1 & F1 & P1 & C1).
  rewrite (@bind_val _ _ _ _ _ _ _ E1).
  do 6 (erewrite bind_val by reflexivity).
  match goal with
  | |- context [bind (cleanup_after_failure h t) _ ?wl] =>
      destruct (@cleanup_after_failure_gone h t wl) as (w2 & E2 & G & C2 & P2)
  end.
  { rewrite (@resolve_absolute _ t A). exact N. }
  rewrite (@bind_val _ _ _ _ _ _ _ E2). exists w2.
  split; [reflexivity|]. rewrite (@resolve_absolute _ t A) in G.
  simpl in *. split; [congruence|]. split; [exact G | congruence].
Qed.

Lemma on_error_tears_down (h : host) (e : exn) (t c : string) (w : world) :
  PyStr.startswith t "/" = true -> Path.components t <> [] ->
  exists w',
    on_error h e t c w
    = (Return (jsonify (Text ("Error running protection: " ++ text e))
                       None 500), w') /\
    procs w' = procs w /\
    Fs.isdir_at (Path.components t) (fs w') = false /\
    cwd w' = match at_path w c with
             | Some (Fs.Dir _) => Path.resolve (cwd w) c
             | _ => cwd w
             end.
Proof.
  intros A N. unfold on_error.
  destruct (try_chdir c w) as (w1 & E1 & F1 & P1 & C1).
  rewrite (@bind_val _ _ _ _ _ _ _ E1).
  erewrite bind_val by reflexivity.
  match goal with
  | |- context [bind (cleanup_after_failure h t) _ ?wl] =>
      destruct (@cleanup_after_failure_gone h t wl) as (w2 & E2 & G & C2 & P2)
  end.
  { rewrite (@resolve_absolute _ t A). exact N. }
  rewrite (@bind_val _ _ _ _ _ _ _ E2). exists w2.
  split; [reflexivity|]. rewrite (@resolve_absolute _ t A) in G.
  simpl in *. split; [congruence|]. split; [exact G | congruence].
Qed.

(** The signature check as a step of a sequence. *)
Lemma verify_signature_val (h : host) (o : string) (w : world) :
  exists w', verify_signature h o w = (Val tt, w') /\ steady w w'.
Proof.
  destruct (@sat_verify_signature steady no_answer steady_refl steady_trans
              steady_log steady_fs steady_invoke h o w) as [S N].
  assert (T : forall e, fst (verify_signature h o w) <> Raise e).
  { unfold verify_signature. apply try_except_total.
    intros e w1. eexists. eexists. reflexivity. }
  destruct (verify_signature h o w) as [[[]|r|e] w'] eqn:E; simpl in *.
  - exists w'. split; [reflexivity | exact S].
  - destruct (N r eq_refl).
  - destruct (T e eq_refl).
Qed.

Lemma respond_eq (d : list Byte.byte) (n : string) (w : world) :
  exists w', respond d n w = (Return (file_response d n), w') /\
             only_logs w w'.
Proof. eexists. split; [reflexivity | repeat split]. Qed.

Lemma sweep_keeps (h : host) (w : world) :
  cwd (snd (sweep_dump_folders h w)) = cwd w /\
  procs (snd (sweep_dump_folders h w)) = procs w /\
  forall r, fst (sweep_dump_folders h w) <> Return r.
Proof.
  split; [|split].
  - apply (@sat_sweep_dump_folders same_cwd any_answer (fun _ => eq_refl)
             (fun a b c H1 H2 => eq_trans H2 H1)
             (fun _ _ _ _ => eq_refl) (fun _ _ => eq_refl) h w).
  - apply (@sat_sweep_dump_folders same_procs any_answer
             same_procs_refl same_procs_trans
             (fun l s w0 _ => same_procs_log (l, s) w0) same_procs_fs h w).
  - intros r E.
    apply (proj2 (@sat_sweep_dump_folders anywhere no_answer
             (fun _ => I) (fun _ _ _ _ _ => I) (fun _ _ _ _ => I)
             (fun _ _ => I) h w) r E).
Qed.

Ltac bind_ret H a w1 E :=
  apply bind_inv in H;
  destruct H as [(a & w1 & E & H)|[(? & E & H)|(? & _ & H)]];
  [| | discriminate].

(** What [deliver] (lines 271-493) returns: a failure of the loading
    step, or the file that was read, after the directory has been
    restored and the workspace removed. *)
Lemma deliver_return (h : host) (f : upload) (t c o : string)
    (w w' : world) (r : response) :
  deliver h f t c o w = (Return r, w') ->
  status r = 500%N \/
  (exists d, d <> [] /\
     r = file_response d ("protected_" ++ secure_filename h (filename f))) /\
  cwd w' = Path.resolve (cwd w) c /\
  procs w' = procs w /\
  (Path.resolve (Path.resolve (cwd w) c) t <> [] ->
   Fs.isdir_at (Path.resolve (Path.resolve (cwd w) c) t) (fs w') = false).
Proof.
  unfold deliver. intros H.
  destruct (verify_signature_val h o w) as (w1 & E1 & C1 & P1 & _).
  rewrite (@bind_val _ _ _ _ _ _ _ E1) in H.
  bind_ret H u2 w2 E2.
  2:{ unfold os_chdir in E2.
      destruct (at_path w1 c) as [[|]|]; discriminate. }
  destruct u2. apply os_chdir_val in E2. destruct E2 as [-> _].
  bind_ret H u3 w3 E3.
  2:{ destruct (sweep_keeps h (set_cwd (Path.resolve (cwd w1) c) w1))
        as (_ & _ & N3). rewrite E3 in N3. destruct (N3 _ eq_refl). }
  destruct (sweep_keeps h (set_cwd (Path.resolve (cwd w1) c) w1))
    as (C3 & P3 & _). rewrite E3 in C3, P3. simpl in C3, P3.
  bind_ret H sz w4 E4.
  2:{ unfold os_path_getsize in E4.
      destruct (at_path w3 o) as [[|]|]; discriminate. }
  apply os_path_getsize_world in E4. subst w4.
  bind_ret H u5 w5 E5; [|discriminate].
  inversion E5; subst u5 w5. clear E5. cbv zeta in H.
  bind_ret H d w6 E6.
  2:{ left. inversion H; subst. apply (load_output_return _ _ E6). }
  apply load_output_val in E6. destruct E6 as (_ & Dne & F6 & C6 & P6).
  destruct (cleanup_after_success_spec h t w6) as (w7 & E7 & C7 & P7 & G7).
  rewrite (@bind_val _ _ _ _ _ _ _ E7) in H.
  destruct (respond_eq d ("protected_" ++ secure_filename h (filename f)) w7)
    as (w8 & E8 & F8 & C8 & P8).
  rewrite E8 in H. inversion H; subst. right. simpl in *.
  assert (CW : cwd w' = Path.resolve (cwd w) c) by congruence.
  split; [exists d; split; [exact Dne | reflexivity]|].
  split; [exact CW|]. split; [congruence|].
  intros N. rewrite F8.
  replace (Path.resolve (cwd w) c) with (cwd w6) by congruence.
  apply G7. replace (cwd w6) with (Path.resolve (cwd w) c) by congruence.
  exact N.
Qed.

(** ** Failures are answered with status 500 *)

Ltac sat_failure :=
  match goal with
  | H : forall r, failed r -> ?P r |- ?P _ => solve [apply H; reflexivity]
  end.

Section Failures.

Variable R : world -> world -> Prop.
Variable P : response -> Prop.
Hypothesis R_refl : forall w, R w w.
Hypothesis R_trans : forall a b c, R a b -> R b c -> R a c.
Hypothesis R_log : forall l s w, l <> ERROR -> R w (add_log (l, s) w).
Hypothesis R_fs : forall f w, R w (set_fs f w).
Hypothesis R_invoke : forall a w, R w (invoke a w).
Hypothesis R_err : forall s w, R w (add_log (ERROR, s) w).
Hypothesis R_cwd : forall c w, R w (set_cwd c w).
Hypothesis P_failed : forall r, failed r -> P r.

Variable h : host.

Lemma failing_check_java j : sat R P (check_java h j).
Proof. unfold check_java. sat_steps; sat_failure. Qed.

Lemma failing_prepare req f : sat R P (prepare h req f).
Proof.
  unfold prepare.
  apply sat_bind; [assumption | apply sat_stage; assumption |].
  intros [[t i] o].
  apply sat_bind; [assumption | apply sat_find_java; assumption | intros j].
  apply sat_bind; [assumption | apply failing_check_java | intros _].
  apply sat_bind; [assumption | apply sat_build_cmd; assumption |].
  intros cmd. sat_steps.
Qed.

Lemma failing_resolve_output c o : sat R P (resolve_output c o).
Proof. unfold resolve_output, find_output_files. sat_steps; sat_failure. Qed.

Lemma failing_on_server_error e : sat R P (on_server_error e).
Proof. unfold on_server_error. sat_steps; sat_failure. Qed.

End Failures.

Lemma on_error_returns (h : host) (e : exn) (t c : string) (w : world) :
  exists w',
    on_error h e t c w
    = (Return (jsonify (Text ("Error running protection: " ++ text e))
                       None 500), w') /\
    procs w' = procs w.
Proof.
  assert (S : same_procs w (snd (on_error h e t c w))).
  { apply (@sat_on_error same_procs any_answer same_procs_refl
             same_procs_trans same_procs_fs
             (fun s w0 => same_procs_log (ERROR, s) w0) same_procs_cwd
             (fun r _ => I) h e t c w). }
  revert S. unfold on_error.
  destruct (try_chdir c w) as (w1 & E1 & _).
  rewrite (@bind_val _ _ _ _ _ _ _ E1).
  erewrite bind_val by reflexivity.
  match goal with
  | |- context [bind (cleanup_after_failure h t) _ ?wl] =>
      destruct (cleanup_after_failure_val h t wl) as [w2 E2]
  end.
  rewrite (@bind_val _ _ _ _ _ _ _ E2). intros S. exists w2.
  split; [reflexivity | exact S].
Qed.

Lemma subprocess_run_keeps (h : host) (args : list string) (t : N)
    (dir : option string) (w : world) :
  cwd (snd (subprocess_run h args t dir w)) = cwd w /\
  procs (snd (subprocess_run h args t dir w)) = procs w /\
  log (snd (subprocess_run h args t dir w)) = log w.
Proof.
  destruct (subprocess_run_world h args t dir w) as [[E|[f E]] _];
    rewrite E; repeat split.
Qed.

(** What the body of the inner [try] returns. *)
Lemma protection_body_return (h : host) (f : upload) (cmd : list string)
    (t o c : string) (w w' : world) (r : response) :
  protection_body h f cmd t o c w = (Return r, w') ->
  status r = 500%N \/
  (exists d, d <> [] /\
     r = file_response d ("protected_" ++ secure_filename h (filename f))) /\
  cwd w' = Path.resolve (cwd w) c /\
  procs w' = procs w /\
  (Path.resolve (Path.resolve (cwd w) c) t <> [] ->
   Fs.isdir_at (Path.resolve (Path.resolve (cwd w) c) t) (fs w') = false).
Proof.
  unfold protection_body. intros H.
  do 2 (erewrite bind_val in H by reflexivity).
  bind_ret H res w3 E3.
  2:{ destruct (subprocess_run_world h cmd 300 (Some t)
                  (add_log (INFO, "Working directory: {temp_dir}")
                     (add_log (INFO, "Starting APK protection process...")
                        w))) as [_ N].
      rewrite E3 in N. destruct (N _ eq_refl). }
  pose proof (subprocess_run_keeps h cmd 300 (Some t)
                (add_log (INFO, "Working directory: {temp_dir}")
                   (add_log (INFO, "Starting APK protection process...")
                      w))) as (C3 & P3 & _).
  rewrite E3 in C3, P3. simpl in C3, P3.
  erewrite bind_val in H by reflexivity.
  destruct (negb (returncode res =? 0)%Z).
  - do 7 (erewrite bind_val in H by reflexivity).
    inversion H. left. reflexivity.
  - bind_ret H out w5 E5.
    2:{ left. inversion H; subst.
        apply (proj2 (@failing_resolve_output anywhere failed
                 (fun _ => I) (fun _ _ _ _ _ => I) (fun _ _ _ _ => I)
                 (fun _ _ => I) (fun r H => H) res o
                 (add_log (INFO,
                    "Command completed with return code: {result.returncode}")
                    w3)) x).
        rewrite E5. reflexivity. }
    assert (C5 : same_cwd
                   (add_log (INFO,
                      "Command completed with return code: {result.returncode}")
                      w3) w5).
    { pose proof (proj1 (@failing_resolve_output same_cwd any_answer
                   (fun _ => eq_refl) (fun a b c0 H1 H2 => eq_trans H2 H1)
                   (fun _ _ _ _ => eq_refl) (fun _ _ => eq_refl)
                   (fun _ _ => I) res o
                   (add_log (INFO,
                      "Command completed with return code: {result.returncode}")
                      w3))) as K.
      rewrite E5 in K. exact K. }
    assert (P5 : same_procs
                   (add_log (INFO,
                      "Command completed with return code: {result.returncode}")
                      w3) w5).
    { pose proof (proj1 (@failing_resolve_output same_procs any_answer
                   same_procs_refl same_procs_trans
                   (fun l s w0 _ => same_procs_log (l, s) w0)
                   (fun s w0 => same_procs_log (ERROR, s) w0)
                   (fun _ _ => I) res o
                   (add_log (INFO,
                      "Command completed with return code: {result.returncode}")
                      w3))) as K.
      rewrite E5 in K. exact K. }
    unfold same_cwd, same_procs in *. simpl in C5, P5.
    apply deliver_return in H. destruct H as [H|(D & C & Pr & G)];
      [left; exact H|]. right.
    replace (cwd w) with (cwd w5) by congruence.
    split; [exact D|]. split; [exact C|]. split; [congruence | exact G].
Qed.

(** What the inner [try] returns. *)
Lemma run_protection_return (h : host) (f : upload) (cmd : list string)
    (t o c : string) (w w' : world) (r : response) :
  run_protection h f cmd t o c w = (Return r, w') ->
  status r = 500%N \/
  (exists d, d <> [] /\
     r = file_response d ("protected_" ++ secure_filename h (filename f))) /\
  cwd w' = Path.resolve (cwd w) c /\
  procs w' = procs w /\
  (Path.resolve (Path.resolve (cwd w) c) t <> [] ->
   Fs.isdir_at (Path.resolve (Path.resolve (cwd w) c) t) (fs w') = false).
Proof.
  unfold run_protection. intros H. apply try_except_inv in H.
  destruct H as [(e & w1 & _ & H)|[H _]].
  - left. destruct (is_TimeoutExpired e).
    + destruct (on_timeout_returns h t c w1) as (w2 & E & _).
      rewrite E in H. inversion H. reflexivity.
    + destruct (on_error_returns h e t c w1) as (w2 & E & _).
      rewrite E in H. inversion H. reflexivity.
  - apply (@protection_body_return h f cmd t o c w w' r H).
Qed.

(** ** What has happened when the inner [try] is entered *)

Lemma prepare_val (h : host) (req : request) (f : upload) (w w1 : world)
    (j : job) :
  prepare h req f w = (Val j, w1) ->
  job_file j = f /\
  job_original_cwd j = Path.render (cwd w) /\
  cwd w1 = Path.resolve (cwd w) (job_temp_dir j) /\
  procs w1 = procs w /\
  Fs.isdir_at (cwd w1) (fs w1) = true /\
  at_path w (job_temp_dir j) = None.
Proof.
  unfold prepare. intros H.
  bind_val H dirs wb Eb. destruct dirs as [[t i] o].
  destruct (@stage_fresh h f w wb t i o Eb) as (Fr & Cb & Pb).
  bind_val H jc wc Ec.
  assert (Cc : cwd wc = cwd wb /\ procs wc = procs wb).
  { split.
    - pose proof (proj1 (@sat_find_java same_cwd any_answer
                   (fun _ => eq_refl) (fun a b c0 H1 H2 => eq_trans H2 H1)
                   (fun _ _ _ _ => eq_refl) h wb)) as K.
      rewrite Ec in K. exact K.
    - pose proof (proj1 (@sat_find_java same_procs any_answer
                   same_procs_refl same_procs_trans
                   (fun l s w0 _ => same_procs_log (l, s) w0) h wb)) as K.
      rewrite Ec in K. exact K. }
  bind_val H u wd Ed.
  assert (Cd : cwd wd = cwd wc /\ procs wd = procs wc).
  { split.
    - pose proof (proj1 (@failing_check_java same_cwd any_answer
                   (fun _ => eq_refl) (fun a b c0 H1 H2 => eq_trans H2 H1)
                   (fun _ _ _ _ => eq_refl) (fun _ _ => eq_refl)
                   (fun _ _ => eq_refl) (fun _ _ => eq_refl)
                   (fun _ _ => I) h jc wc)) as K.
      rewrite Ed in K. exact K.
    - pose proof (proj1 (@failing_check_java same_procs any_answer
                   same_procs_refl same_procs_trans
                   (fun l s w0 _ => same_procs_log (l, s) w0)
                   same_procs_fs same_procs_invoke
                   (fun s w0 => same_procs_log (ERROR, s) w0)
                   (fun _ _ => I) h jc wc)) as K.
      rewrite Ed in K. exact K. }
  bind_val H cmd we Ee.
  assert (Ce : cwd we = cwd wd /\ procs we = procs wd).
  { split.
    - pose proof (proj1 (@sat_build_cmd same_cwd any_answer
                   (fun _ => eq_refl) (fun a b c0 H1 H2 => eq_trans H2 H1)
                   (fun _ _ _ _ => eq_refl) h req jc i o wd)) as K.
      rewrite Ee in K. exact K.
    - pose proof (proj1 (@sat_build_cmd same_procs any_answer
                   same_procs_refl same_procs_trans
                   (fun l s w0 _ => same_procs_log (l, s) w0)
                   h req jc i o wd)) as K.
      rewrite Ee in K. exact K. }
  bind_val H oc wf Ef. inversion Ef; subst oc wf. clear Ef.
  bind_val H u' wg Eg. destruct u'. apply os_chdir_val in Eg.
  destruct Eg as [-> Dg]. inversion H; subst. simpl.
  destruct Cc, Cd, Ce.
  assert (CW : cwd we = cwd w) by congruence.
  split; [reflexivity|]. split; [congruence|].
  split; [congruence|]. split; [congruence|].
  split; [exact Dg | exact Fr].
Qed.

Lemma prelude_val (h : host) (req : request) (w w1 : world) (j : job) :
  prelude h req w = (Val j, w1) ->
  fst (validate req w) = Val (job_file j) /\
  job_original_cwd j = Path.render (cwd w) /\
  cwd w1 = Path.resolve (cwd w) (job_temp_dir j) /\
  procs w1 = procs w /\
  Fs.isdir_at (cwd w1) (fs w1) = true /\
  at_path w (job_temp_dir j) = None.
Proof.
  unfold prelude. intros H. bind_val H f wa Ea.
  destruct (validate_frame req w) as (Fa & Ca & Pa). rewrite Ea in *.
  simpl in *. apply prepare_val in H.
  destruct H as (J & O & C & Pr & D & Fr). subst f.
  split; [reflexivity|]. split; [congruence|]. split; [congruence|].
  split; [congruence|]. split; [exact D|].
  unfold at_path in *. rewrite <- Fa, <- Ca. exact Fr.
Qed.

Lemma validate_val_upload (req : request) (w : world) (f : upload) :
  fst (validate req w) = Val f ->
  MultiDict.get "apk_file" (files req) = Some f.
Proof.
  rewrite validate_fst.
  destruct (MAX_CONTENT_LENGTH <? content_length req)%N; [discriminate|].
  destruct (MultiDict.get "apk_file" (files req)) as [file|]; [|discriminate].
  destruct (String.eqb (filename file) ""); [discriminate|].
  destruct (negb _); [discriminate|].
  destruct (max_size <? seek_end_tell file)%N; [discriminate|].
  destruct (PyStr.startswith (filename file) "protected_");
    [discriminate|].
  intros E. inversion E. reflexivity.
Qed.

(** ** The answer 200 *)

(** An answer with status 200 is always the protected file: its body is
    not empty and is sent under the name [protected_] followed by the
    sanitised name of the upload, with the headers of lines 468-482 (the
    Content-Length being the length of the body). *)
Theorem ok_answer_is_the_result
    (h : host) (req : request) (w : world) (r : response) :
  answer (protect_apk h req w) = Some r ->
  status r = 200%N ->
  exists file d,
    MultiDict.get "apk_file" (files req) = Some file /\
    d <> [] /\
    r = file_response d ("protected_" ++ secure_filename h (filename file)).
Proof.
  intros A S.
  destruct (fst (validate req w)) as [f|x|e] eqn:V.
  - rewrite (protect_apk_validated h req w V) in A. unfold answer in A.
    destruct (try_except _ _ _) as [res w'] eqn:E. simpl in A.
    destruct res as [a|r0|e0]; try discriminate. inversion A; subst r0.
    apply try_except_inv in E. destruct E as [(e & w1 & _ & E)|[E _]].
    + destruct (on_server_error_returns e w1) as (r1 & w2 & E1 & S1).
      rewrite E1 in E. inversion E; subst. rewrite S1 in S. discriminate.
    + bind_ret E j w1 Ej.
      * apply prepare_val in Ej. destruct Ej as (J & _).
        apply run_protection_return in E.
        destruct E as [E|((d & Dne & R) & _)];
          [rewrite E in S; discriminate|].
        exists f, d. split; [apply (validate_val_upload req w V)|].
        split; [exact Dne|]. rewrite <- J. exact R.
      * inversion E; subst.
        pose proof (proj2 (@failing_prepare anywhere failed
                      (fun _ => I) (fun _ _ _ _ _ => I) (fun _ _ _ _ => I)
                      (fun _ _ => I) (fun _ _ => I) (fun _ _ => I)
                      (fun _ _ => I) (fun r H => H) h req f (snd (validate req w))))
          as K.
        rewrite Ej in K. specialize (K _ eq_refl). unfold failed in K.
        rewrite K in S. discriminate.
  - rewrite (protect_apk_rejected h req w V) in A. inversion A; subst.
    rewrite (validate_returns_rejections req w V) in S. discriminate.
  - destruct (@protect_apk_refused h req w
                (@validate_raises_over_limit req w e V)) as [B _].
    rewrite B in A. inversion A; subst. discriminate.
Qed.

Lemma ok_answer_example :
  exists file d,
    MultiDict.get "apk_file"
      (files (Demo.post "app.apk" Demo.apk_bytes [])) = Some file /\
    d <> [] /\
    file_response Demo.apk_bytes "protected_app.apk"
    = file_response d
        ("protected_" ++ secure_filename Demo.copies (filename file)).
Proof.
  apply (@ok_answer_is_the_result Demo.copies
           (Demo.post "app.apk" Demo.apk_bytes []) Demo.start
           (file_response Demo.apk_bytes "protected_app.apk")).
  - vm_compute. reflexivity.
  - reflexivity.
Defined.

(** When a request is answered with status 200, the working directory
    is the one the request started in, no child process is left and no
    directory is left at the path of the workspace. *)
Theorem ok_answer_leaves_nothing
    (h : host) (req : request) (w w1 : world) (j : job) (r : response) :
  prelude h req w = (Val j, w1) ->
  answer (protect_apk h req w) = Some r ->
  status r = 200%N ->
  Path.components (Path.render (cwd w)) = cwd w ->
  Path.resolve (cwd w) (job_temp_dir j) <> [] ->
  cwd (final (protect_apk h req w)) = cwd w /\
  procs (final (protect_apk h req w)) = procs w /\
  Fs.isdir_at (Path.resolve (cwd w) (job_temp_dir j))
              (fs (final (protect_apk h req w))) = false.
Proof.
  intros Hp A S Hc Hn.
  destruct (prelude_val h req w Hp) as (_ & O & C & Pr & _).
  unfold protect_apk, protect_body, answer, final in *.
  destruct (try_except _ _ _) as [res w'] eqn:E. simpl in *.
  destruct res as [a|r0|e0]; try discriminate. inversion A; subst r0.
  apply try_except_inv in E. destruct E as [(e & w2 & _ & E)|[E _]].
  - destruct (on_server_error_returns e w2) as (r1 & w3 & E1 & S1).
    rewrite E1 in E. inversion E; subst. rewrite S1 in S. discriminate.
  - rewrite (@bind_val _ _ _ _ _ _ _ Hp) in E.
    apply run_protection_return in E.
    destruct E as [E|(_ & C' & P' & G)]; [rewrite E in S; discriminate|].
    rewrite O, resolve_render, Hc in C', G.
    split; [exact C'|]. split; [congruence|]. apply G. exact Hn.
Qed.

Lemma ok_answer_leaves_nothing_example :
  cwd (final (protect_apk Demo.copies
                (Demo.post "app.apk" Demo.apk_bytes []) Demo.start))
  = ["home"; "user"] /\
  procs (final (protect_apk Demo.copies
                  (Demo.post "app.apk" Demo.apk_bytes []) Demo.start)) = [] /\
  Fs.isdir_at ["tmp"; "apk_protect_k3x9"]
    (fs (final (protect_apk Demo.copies
                  (Demo.post "app.apk" Demo.apk_bytes []) Demo.start)))
  = false.
Proof.
  eapply (@ok_answer_leaves_nothing Demo.copies
            (Demo.post "app.apk" Demo.apk_bytes []) Demo.start _
            (MkJob (MkUpload "app.apk" Demo.apk_bytes)
               ["java"; "-jar"; "/srv/app/executable/dpt.jar"; "-f";
                "/tmp/apk_protect_k3x9/app.apk"; "-o";
                "/tmp/apk_protect_k3x9/output"]
               "/tmp/apk_protect_k3x9" "/tmp/apk_protect_k3x9/output"
               "/home/user")
            (file_response Demo.apk_bytes "protected_app.apk")).
  - vm_compute. reflexivity.
  - vm_compute. reflexivity.
  - reflexivity.
  - reflexivity.
  - vm_compute. discriminate.
Defined.

(** ** Exceptions *)

Lemma protection_body_keeps_procs (h : host) (f : upload)
    (cmd : list string) (t o c : string) (w : world) :
  procs (snd (protection_body h f cmd t o c w)) = procs w.
Proof.
  apply (@sat_protection_body same_procs any_answer same_procs_refl
           same_procs_trans (fun l s w0 _ => same_procs_log (l, s) w0)
           same_procs_fs same_procs_invoke
           (fun s w0 => same_procs_log (ERROR, s) w0)
           same_procs_cwd (fun _ _ => I) h f cmd t o c w).
Qed.

(** An exception in the inner [try]: the matching handler answers, the
    workspace is torn down, no child is left, and the working directory
    is restored if the original one still exists. *)
Lemma inner_exception (h : host) (req : request) (w w1 w2 : world)
    (j : job) (e : exn) :
  prelude h req w = (Val j, w1) ->
  protection_body h (job_file j) (job_cmd j) (job_temp_dir j)
    (job_output_dir j) (job_original_cwd j) w1 = (Raise e, w2) ->
  PyStr.startswith (job_temp_dir j) "/" = true ->
  Path.components (job_temp_dir j) <> [] ->
  answer (protect_apk h req w)
  = Some (if is_TimeoutExpired e then timed_out
          else jsonify (Text ("Error running protection: " ++ text e))
                       None 500) /\
  Fs.isdir_at (Path.components (job_temp_dir j))
              (fs (final (protect_apk h req w))) = false /\
  procs (final (protect_apk h req w)) = procs w /\
  (Path.components (Path.render (cwd w)) = cwd w ->
   Fs.isdir_at (cwd w) (fs w2) = true ->
   cwd (final (protect_apk h req w)) = cwd w).
Proof.
  intros Hp Hb A N.
  destruct (prelude_val h req w Hp) as (_ & O & C & Pr & _).
  pose proof (protection_body_keeps_procs h (job_file j) (job_cmd j)
                (job_temp_dir j) (job_output_dir j) (job_original_cwd j) w1)
    as P2.
  rewrite Hb in P2. simpl in P2.
  assert (K : forall w',
    cwd w' = match at_path w2 (job_original_cwd j) with
             | Some (Fs.Dir _) => Path.resolve (cwd w2) (job_original_cwd j)
             | _ => cwd w2
             end ->
    Path.components (Path.render (cwd w)) = cwd w ->
    Fs.isdir_at (cwd w) (fs w2) = true -> cwd w' = cwd w).
  { intros w' Cw Hc Hd. rewrite Cw. unfold at_path.
    rewrite O, resolve_render, Hc. unfold Fs.isdir_at in Hd.
    destruct (Fs.lookup (cwd w) (fs w2)) as [[d|es]|]; try discriminate.
    reflexivity. }
  unfold protect_apk, protect_body, run_protection, try_except, answer,
    final.
  rewrite (@bind_val _ _ _ _ _ _ _ Hp), Hb.
  destruct (is_TimeoutExpired e).
  - destruct (@on_timeout_tears_down h (job_temp_dir j)
                (job_original_cwd j) w2 A N) as (w' & E & P' & G & Cw).
    rewrite E. simpl. split; [reflexivity|]. split; [exact G|].
    split; [congruence|]. apply K. exact Cw.
  - destruct (@on_error_tears_down h e (job_temp_dir j)
                (job_original_cwd j) w2 A N) as (w' & E & P' & G & Cw).
    rewrite E. simpl. split; [reflexivity|]. split; [exact G|].
    split; [congruence|]. apply K. exact Cw.
Qed.

Lemma popen_dir_of_prelude (h : host) (req : request) (w w1 : world)
    (j : job) :
  prelude h req w = (Val j, w1) ->
  PyStr.startswith (job_temp_dir j) "/" = true ->
  Path.resolve (cwd w1) (job_temp_dir j) = cwd w1 /\
  Fs.isdir_at (Path.resolve (cwd w1) (job_temp_dir j)) (fs w1) = true.
Proof.
  intros Hp A. destruct (prelude_val h req w Hp) as (_ & _ & C & _ & D & _).
  assert (E : Path.resolve (cwd w1) (job_temp_dir j) = cwd w1).
  { rewrite C. rewrite !(@resolve_absolute _ (job_temp_dir j) A).
    reflexivity. }
  split; [exact E|]. rewrite E. exact D.
Qed.



(** A tool that cannot be started: the request is answered "Error
    running protection:" with the text of the exception, status 500, and
    the workspace is torn down. *)
Theorem unstartable_tool_is_answered
    (h : host) (req : request) (w w1 : world) (j : job) (e : exn) :
  prelude h req w = (Val j, w1) ->
  PyStr.startswith (job_temp_dir j) "/" = true ->
  Path.components (job_temp_dir j) <> [] ->
  exec h (job_cmd j) (cwd w1) (fs w1) = CannotStart e ->
  is_TimeoutExpired e = false ->
  answer (protect_apk h req w)
  = Some (jsonify (Text ("Error running protection: " ++ text e)) None 500)
  /\
  Fs.isdir_at (Path.components (job_temp_dir j))
              (fs (final (protect_apk h req w))) = false /\
  procs (final (protect_apk h req w)) = procs w.
Proof.
  intros Hp A N He Ht.
  destruct (popen_dir_of_prelude h req w Hp A) as [Er Dr].
  assert (Hb : protection_body h (job_file j) (job_cmd j) (job_temp_dir j)
                 (job_output_dir j) (job_original_cwd j) w1
               = (Raise e,
                  invoke (job_cmd j)
                    (add_log (INFO, "Working directory: {temp_dir}")
                       (add_log (INFO, "Starting APK protection process...")
                          w1)))).
  { unfold protection_body.
    do 2 (erewrite bind_val by reflexivity).
    erewrite bind_raise; [reflexivity|].
    rewrite subprocess_run_eq. unfold start_dir_error, start_dir.
    cbn [cwd fs add_log]. rewrite Dr, Er, He. reflexivity. }
  destruct (inner_exception h req w Hp Hb A N) as (An & G & Pr & _).
  rewrite Ht in An. split; [exact An|]. split; [exact G | exact Pr].
Qed.

Lemma unstartable_tool_example :
  answer (protect_apk Demo.unstartable
            (Demo.post "app.apk" Demo.apk_bytes []) Demo.start)
  = Some (jsonify (Text "Error running protection: Exec format error")
                  None 500) /\
  Fs.isdir_at ["tmp"; "apk_protect_k3x9"]
    (fs (final (protect_apk Demo.unstartable
                  (Demo.post "app.apk" Demo.apk_bytes []) Demo.start)))
  = false.
Proof.
  edestruct (@unstartable_tool_is_answered Demo.unstartable
               (Demo.post "app.apk" Demo.apk_bytes []) Demo.start)
    as (A & G & _).
  - vm_compute. reflexivity.
  - reflexivity.
  - vm_compute. discriminate.
  - vm_compute. reflexivity.
  - reflexivity.
  - split; [exact A | exact G].
Defined.

(** A tool that ends within the 300 units but whose output does not
    decode as text: reading the output raises, whatever the exit status,
    and the request is answered "Error running protection:" with the
    text of the decoding error, status 500; the workspace is torn down
    and no child is left. *)
Theorem garbled_tool_is_answered
    (h : host) (req : request) (w w1 : world) (j : job)
    (d : N) (rc : Z) (why : string) (after : Fs.node) :
  prelude h req w = (Val j, w1) ->
  PyStr.startswith (job_temp_dir j) "/" = true ->
  Path.components (job_temp_dir j) <> [] ->
  exec h (job_cmd j) (cwd w1) (fs w1) = Undecodable d rc why after ->
  (d <= 300)%N ->
  answer (protect_apk h req w)
  = Some (jsonify (Text ("Error running protection: " ++ why)) None 500)
  /\
  Fs.isdir_at (Path.components (job_temp_dir j))
              (fs (final (protect_apk h req w))) = false /\
  procs (final (protect_apk h req w)) = procs w.
Proof.
  intros Hp A N He Hd.
  destruct (popen_dir_of_prelude h req w Hp A) as [Er Dr].
  assert (Hb : protection_body h (job_file j) (job_cmd j) (job_temp_dir j)
                 (job_output_dir j) (job_original_cwd j) w1
               = (Raise (MkExn OtherException why),
                  set_fs after
                    (invoke (job_cmd j)
                       (add_log (INFO, "Working directory: {temp_dir}")
                          (add_log
                             (INFO, "Starting APK protection process...")
                             w1))))).
  { unfold protection_body.
    do 2 (erewrite bind_val by reflexivity).
    erewrite bind_raise; [reflexivity|].
    rewrite subprocess_run_eq. unfold start_dir_error, start_dir.
    cbn [cwd fs add_log]. rewrite Dr, Er, He.
    apply N.ltb_ge in Hd. rewrite Hd. reflexivity. }
  destruct (inner_exception h req w Hp Hb A N) as (An & G & Pr & _).
  split; [exact An|]. split; [exact G | exact Pr].
Qed.

Lemma garbled_tool_example :
  answer (protect_apk Demo.garbles
            (Demo.post "app.apk" Demo.apk_bytes []) Demo.start)
  = Some (jsonify (Text
      "Error running protection: 'utf-8' codec can't decode byte 0xff in position 0: invalid start byte")
      None 500) /\
  Fs.isdir_at ["tmp"; "apk_protect_k3x9"]
    (fs (final (protect_apk Demo.garbles
                  (Demo.post "app.apk" Demo.apk_bytes []) Demo.start)))
  = false.
Proof.
  edestruct (@garbled_tool_is_answered Demo.garbles
               (Demo.post "app.apk" Demo.apk_bytes []) Demo.start)
    as (A & G & _).
  - vm_compute. reflexivity.
  - reflexivity.
  - vm_compute. discriminate.
  - vm_compute. reflexivity.
  - vm_compute. discriminate.
  - split; [exact A | exact G].
Defined.

(** ** No name is left for the workspace *)

(** When every drawn name is taken, [mkdtemp] gives up with the error of
    the last attempt's kind and leaves the world as it was. *)
Lemma mkdtemp_from_taken (names : list string) (prefix dir : string)
    (w : world) :
  (forall name, In name names ->
     at_path w (Path.join dir (prefix ++ name)) <> None) ->
  mkdtemp_from names prefix dir w
  = (Raise (MkExn FileExistsError
              "[Errno 17] No usable temporary directory name found"), w).
Proof.
  induction names as [|n names IH]; intros H; [reflexivity|].
  cbn [mkdtemp_from]. unfold try_except, bind, os_mkdir. cbv zeta.
  pose proof (H n (or_introl eq_refl)) as Hn. unfold at_path in Hn.
  destruct (Fs.lookup (Path.resolve (cwd w) (Path.join dir (prefix ++ n)))
              (fs w)); [|congruence].
  cbn [EEXIST cls]. apply IH. intros name I. apply H. right. exact I.
Qed.

Lemma stage_without_free_name (h : host) (file : upload) (w : world) :
  no_free_name h w ->
  stage h file w
  = (Raise (MkExn FileExistsError
              "[Errno 17] No usable temporary directory name found"), w).
Proof.
  intros H. unfold stage, bind, os_path_exists, mkdtemp. cbv zeta.
  unfold no_free_name, temp_base in H.
  destruct (at_path w "/tmp");
    rewrite (@mkdtemp_from_taken (temp_names h) "apk_protect_" _ w H);
    reflexivity.
Qed.

(** A request that passes the validation while every name that
    [mkdtemp] draws for the workspace is taken, is answered "Server
    error: [Errno 17] No usable temporary directory name found", status
    500; nothing but the log has changed and no program has been
    started. *)
Theorem no_free_name_is_a_server_error
    (h : host) (req : request) (w : world) (file : upload) :
  fst (validate req w) = Val file ->
  no_free_name h w ->
  answer (protect_apk h req w)
  = Some (jsonify
            (Text "Server error: [Errno 17] No usable temporary directory name found")
            None 500) /\
  only_logs w (final (protect_apk h req w)) /\
  invoked (final (protect_apk h req w)) = invoked w.
Proof.
  intros V H.
  destruct (validate_frame req w) as (Fv & Cv & Pv).
  assert (Iv : invoked (snd (validate req w)) = invoked w).
  { apply (@sat_validate same_invoked any_answer (fun _ => eq_refl)
             (fun a b c H1 H2 => eq_trans H2 H1) (fun _ _ _ _ => eq_refl)
             (fun _ _ => eq_refl) (fun _ _ => I) req w). }
  assert (Hv : no_free_name h (snd (validate req w))).
  { unfold no_free_name, temp_base, at_path in *. rewrite Fv, Cv. exact H. }
  destruct (validate req w) as [rv wv] eqn:E. cbn [fst snd] in *. subst rv.
  assert (Hp : prelude h req w
               = (Raise (MkExn FileExistsError
                    "[Errno 17] No usable temporary directory name found"),
                  wv)).
  { unfold prelude. rewrite (@bind_val _ _ _ _ _ _ _ E). unfold prepare.
    apply bind_raise. apply stage_without_free_name. exact Hv. }
  unfold protect_apk, protect_body, try_except, answer, final, only_logs.
  rewrite (@bind_raise _ _ _ _ _ _ _ Hp). cbn.
  repeat split; assumption.
Qed.

Lemma no_free_name_example :
  answer (protect_apk Demo.copies
            (Demo.post "app.apk" Demo.apk_bytes []) Demo.crowded)
  = Some (jsonify
            (Text "Server error: [Errno 17] No usable temporary directory name found")
            None 500).
Proof.
  apply (@no_free_name_is_a_server_error Demo.copies
           (Demo.post "app.apk" Demo.apk_bytes []) Demo.crowded
           (MkUpload "app.apk" Demo.apk_bytes)).
  - vm_compute. reflexivity.
  - intros name [<-|[]]. vm_compute. discriminate.
Defined.

(** A tool that ends within the 300 units with a status other than 0
    and an output that decodes as text: the request is answered
    "Protection failed", status 500, with the error stream as details,
    or the output stream when the error stream is empty. Nothing is cleaned up or restored on this path: the file
    tree is the one the tool left, and the working directory is the
    workspace. *)
Theorem tool_failure_is_answered
    (h : host) (req : request) (w w1 : world) (j : job)
    (d : N) (rc : Z) (so se : string) (after : Fs.node) :
  prelude h req w = (Val j, w1) ->
  PyStr.startswith (job_temp_dir j) "/" = true ->
  exec h (job_cmd j) (cwd w1) (fs w1) = Runs d rc so se after ->
  (d <= 300)%N -> rc <> 0%Z ->
  answer (protect_apk h req w)
  = Some (jsonify (Text "Protection failed")
            (Some (if PyStr.truthy se then se else so)) 500) /\
  procs (final (protect_apk h req w)) = procs w /\
  fs (final (protect_apk h req w)) = after /\
  cwd (final (protect_apk h req w)) = Path.components (job_temp_dir j).
Proof.
  intros Hp A He Hd Hrc.
  destruct (popen_dir_of_prelude h req w Hp A) as [Er Dr].
  destruct (prelude_val h req w Hp) as (_ & _ & Cw & Pr & _).
  rewrite (@resolve_absolute _ (job_temp_dir j) A) in Cw.
  rewrite <- Er in He.
  destruct (@run_protection_failure h (job_file j) (job_cmd j)
              (job_temp_dir j) (job_output_dir j) (job_original_cwd j)
              w1 d rc so se after Dr He Hd Hrc) as (w' & E & F' & C' & P').
  unfold protect_apk, protect_body, try_except, answer, final.
  rewrite (@bind_val _ _ _ _ _ _ _ Hp), E. simpl.
  split; [reflexivity|]. split; [congruence|]. split; congruence.
Qed.

Lemma tool_failure_example :
  answer (protect_apk (Demo.fails "scanned 3 dex files" "")
            (Demo.post "app.apk" Demo.apk_bytes []) Demo.start)
  = Some (jsonify (Text "Protection failed")
            (Some "scanned 3 dex files") 500).
Proof.
  edestruct (@tool_failure_is_answered (Demo.fails "scanned 3 dex files" "")
               (Demo.post "app.apk" Demo.apk_bytes []) Demo.start)
    as (A & _).
  - vm_compute. reflexivity.
  - reflexivity.
  - vm_compute. reflexivity.
  - vm_compute. discriminate.
  - discriminate.
  - exact A.
Defined.

(** A tool that ends within the 300 units with status 0 and an output
    that decodes as text, but leaves no file ending in ".apk" or ".aab"
    below the output directory: the request is answered "No output file generated", status 500, and the
    details are the output stream, or the error stream when that is
    empty, or a fixed text when both are. Nothing is cleaned up or
    restored on this path either. *)
Theorem missing_output_is_answered
    (h : host) (req : request) (w w1 : world) (j : job)
    (d : N) (so se : string) (after : Fs.node) :
  prelude h req w = (Val j, w1) ->
  PyStr.startswith (job_temp_dir j) "/" = true ->
  exec h (job_cmd j) (cwd w1) (fs w1) = Runs d 0 so se after ->
  (d <= 300)%N ->
  flat_map (accepted_in)
    (scanned (set_fs after w1) (job_output_dir j)) = [] ->
  answer (protect_apk h req w)
  = Some (jsonify (Text "No output file generated")
            (Some (PyStr.or_else (PyStr.or_else so se)
                     "No output file found in output directory"))
            500) /\
  fs (final (protect_apk h req w)) = after /\
  cwd (final (protect_apk h req w)) = Path.components (job_temp_dir j).
Proof.
  intros Hp A He Hd Hs.
  destruct (popen_dir_of_prelude h req w Hp A) as [Er Dr].
  destruct (prelude_val h req w Hp) as (_ & _ & Cw & Pr & _).
  rewrite (@resolve_absolute _ (job_temp_dir j) A) in Cw.
  rewrite <- Er in He.
  destruct (@run_protection_no_output h (job_file j) (job_cmd j)
              (job_temp_dir j) (job_output_dir j) (job_original_cwd j)
              w1 d so se after Dr He Hd Hs) as (w' & E & F' & C').
  unfold protect_apk, protect_body, try_except, answer, final.
  rewrite (@bind_val _ _ _ _ _ _ _ Hp), E. simpl.
  split; [reflexivity|]. split; congruence.
Qed.

Lemma missing_output_example :
  answer (protect_apk Demo.silent
            (Demo.post "app.apk" Demo.apk_bytes []) Demo.start)
  = Some (jsonify (Text "No output file generated")
            (Some "No output file found in output directory") 500) /\
  cwd (final (protect_apk Demo.silent
                (Demo.post "app.apk" Demo.apk_bytes []) Demo.start))
  = ["tmp"; "apk_protect_k3x9"].
Proof.
  edestruct (@missing_output_is_answered Demo.silent
               (Demo.post "app.apk" Demo.apk_bytes []) Demo.start)
    as (A & _ & C).
  - vm_compute. reflexivity.
  - reflexivity.
  - vm_compute. reflexivity.
  - vm_compute. discriminate.
  - vm_compute. reflexivity.
  - split; [exact A | exact C].
Defined.

(** ** The launcher and its probes *)

Lemma find_java_eq (h : host) (w : world) :
  find_java h w =
  (Val (if PyStr.truthy (environ_get h "JAVA_HOME" "")
        then match at_path w (Path.join3 (environ_get h "JAVA_HOME" "")
                                 "bin" "java") with
             | Some _ => Path.join3 (environ_get h "JAVA_HOME" "") "bin" "java"
             | None => "java"
             end
        else "java"),
   add_log (INFO, "Using Java command: {java_cmd}") w).
Proof.
  unfold find_java, os_name. cbn [String.eqb Ascii.eqb Bool.eqb].
  destruct (PyStr.truthy (environ_get h "JAVA_HOME" "")); [|reflexivity].
  unfold bind, os_path_exists, ret, log_info.
  destruct (at_path w _); reflexivity.
Qed.

Lemma probe_java_eq (h : host) (w : world) (c : string) :
  fst (find_java h w) = Val c ->
  probe_java h w =
  match exec h [c; "-version"] (cwd w) (fs w) with
  | CannotStart _ => (Val (false, "Not found"), invoke [c; "-version"] w)
  | Runs d rc o e after =>
      if (5 <? d)%N
      then (Val (false, "Not found"),
            set_fs after (invoke [c; "-version"] w))
      else (Val (true, if PyStr.truthy e then first_line e else "Unknown"),
            set_fs after (invoke [c; "-version"] w))
  | Undecodable d rc why after =>
      (Val (false, "Not found"), set_fs after (invoke [c; "-version"] w))
  end.
Proof.
  rewrite find_java_eq. cbn [fst]. intros Hc. injection Hc as Hc.
  unfold probe_java, os_name. cbn [String.eqb Ascii.eqb Bool.eqb].
  unfold try_except.
  assert (E : forall k : string -> M (bool * string),
    bind (if PyStr.truthy (environ_get h "JAVA_HOME" "")
          then bind (os_path_exists
                       (Path.join3 (environ_get h "JAVA_HOME" "") "bin"
                          "java"))
                 (fun ex => ret (if negb ex then "java"
                                 else Path.join3
                                        (environ_get h "JAVA_HOME" "")
                                        "bin" "java"))
          else ret "java") k w = k c w).
  { intros k. rewrite <- Hc.
    destruct (PyStr.truthy (environ_get h "JAVA_HOME" "")); [|reflexivity].
    unfold bind, os_path_exists, ret. destruct (at_path w _); reflexivity. }
  rewrite E. unfold bind. rewrite subprocess_run_eq.
  unfold start_dir_error, start_dir. cbv beta iota zeta.
  destruct (exec h [c; "-version"] (cwd w) (fs w))
    as [e|d rc o e after|d rc why after];
    [reflexivity| |]; destruct (5 <? d)%N; reflexivity.
Qed.

(** ** The health report (lines 585-616) *)

(** [health] always hands out a report with status "ok": no exception of
    the probe gets out. It writes no log line and leaves the working
    directory and the children as they are; whether [dpt.jar] exists is
    looked up after the probe has run. *)
Theorem health_always_reports (h : host) (w : world) :
  exists rep w',
    health h w = (Val rep, w') /\
    health_status rep = "ok" /\
    cwd w' = cwd w /\ procs w' = procs w /\ log w' = log w /\
    dpt_jar_exists rep
    = match at_path w' (DPT_JAR_PATH h) with
      | Some _ => true
      | None => false
      end.
Proof.
  destruct (find_java h w) as [r wj] eqn:F.
  pose proof (find_java_eq h w) as Fe. rewrite F in Fe.
  injection Fe as Fr _. 
  assert (Fc : fst (find_java h w) = r) by (rewrite F; reflexivity).
  rewrite Fr in Fc.
  unfold health, bind. rewrite (probe_java_eq h w Fc).
  destruct (exec h _ (cwd w) (fs w)) as [e|d rc o e after|d rc why after].
  - eexists; eexists. split; [reflexivity|]. repeat split.
  - destruct (5 <? d)%N; (eexists; eexists; split; [reflexivity|]);
      repeat split.
  - eexists; eexists. split; [reflexivity|]. repeat split.
Qed.

(** [health] reports [java_available] exactly when the Java check of
    [protect_apk] passes for the launcher [find_java] gives in the same
    state; the version it reports is then the first line of the
    launcher's error stream, "Unknown" if that is empty, and "Not found"
    when Java is not available. *)
Theorem health_agrees_with_check_java
    (h : host) (w : world) (c : string) (rep : health_report) :
  fst (find_java h w) = Val c ->
  fst (health h w) = Val rep ->
  (java_available rep = true <-> fst (check_java h c w) = Val tt) /\
  (java_available rep = false -> java_version rep = "Not found") /\
  (java_available rep = true ->
   exists d rc o e after,
     exec h [c; "-version"] (cwd w) (fs w) = Runs d rc o e after /\
     java_version rep
     = if PyStr.truthy e then first_line e else "Unknown").
Proof.
  intros Fc Hr. rewrite check_java_fst.
  unfold health, bind in Hr. rewrite (probe_java_eq h w Fc) in Hr.
  destruct (exec h [c; "-version"] (cwd w) (fs w))
    as [e|d rc o e after|d rc why after].
  - cbn in Hr. injection Hr as <-. cbn.
    split; [split; discriminate|]. split; [reflexivity | discriminate].
  - destruct (5 <? d)%N; cbn in Hr; injection Hr as <-; cbn.
    + split; [split; discriminate|]. split; [reflexivity | discriminate].
    + split; [split; reflexivity|]. split; [discriminate|].
      intros _. exists d, rc, o, e, after. split; reflexivity.
  - cbn in Hr. injection Hr as <-. cbn.
    split; [split; [discriminate|destruct (5 <? d)%N; discriminate]|].
    split; [reflexivity | discriminate].
Qed.

Lemma health_example :
  java_available
    (MkHealth "ok" true true "openjdk version 21") = true /\
  fst (check_java Demo.copies "java" Demo.start) = Val tt.
Proof.
  destruct (@health_agrees_with_check_java Demo.copies Demo.start "java"
              (MkHealth "ok" true true "openjdk version 21"))
    as ([K _] & _).
  - vm_compute. reflexivity.
  - vm_compute. reflexivity.
  - split; [reflexivity | apply K; reflexivity].
Defined.

(** ** C3: the command line that is run *)

(** A relation that every step of a sequence keeps also holds from the
    end of its first part to the end of the whole. *)
Lemma after_bind (R : world -> world -> Prop) (P : response -> Prop)
    A B (m : M A) (k : A -> M B) (w : world) :
  (forall w0, R w0 w0) -> (forall a, sat R P (k a)) ->
  R (snd (m w)) (snd (bind m k w)).
Proof.
  intros R_refl Hk. unfold bind.
  destruct (m w) as [[a|r|e] w1]; cbn [snd]; [|apply R_refl..].
  apply (Hk a w1).
Qed.

Lemma after_try_except (R : world -> world -> Prop) (P : response -> Prop)
    A (m : M A) (hd : exn -> M A) (w : world) :
  (forall w0, R w0 w0) -> (forall e, sat R P (hd e)) ->
  R (snd (m w)) (snd (try_except m hd w)).
Proof.
  intros R_refl Hh. unfold try_except.
  destruct (m w) as [[a|r|e] w1]; cbn [snd]; [apply R_refl..|].
  apply (Hh e w1).
Qed.

Lemma more_invoked_refl (w : world) : more_invoked w w.
Proof. exists []. reflexivity. Qed.

Lemma more_invoked_trans (a b c : world) :
  more_invoked a b -> more_invoked b c -> more_invoked a c.
Proof.
  intros [l1 E1] [l2 E2]. exists (l2 ++ l1).
  rewrite E2, E1. apply app_assoc.
Qed.

Lemma more_invoked_invoke (a : list string) (w : world) :
  more_invoked w (invoke a w).
Proof. exists [a]. reflexivity. Qed.

(** Looking for the launcher starts no program. *)
Lemma find_java_frame (h : host) (w : world) :
  cwd (snd (find_java h w)) = cwd w /\
  invoked (snd (find_java h w)) = invoked w.
Proof. rewrite find_java_eq. split; reflexivity. Qed.

(** The paths of the workspace; staging starts no program. *)
Lemma stage_paths
    (h : host) (file : upload) (w w' : world) (t i o : string) :
  stage h file w = (Val (t, i, o), w') ->
  i = Path.join t (secure_filename h (filename file)) /\
  o = Path.join t "output" /\
  invoked w' = invoked w.
Proof.
  intros H.
  assert (I : invoked w' = invoked w).
  { pose proof (proj1 (@sat_stage same_invoked any_answer (fun _ => eq_refl)
                  (fun a b c H1 H2 => eq_trans H2 H1)
                  (fun _ _ _ _ => eq_refl) (fun _ _ => eq_refl)
                  h file w)) as K.
    rewrite H in K. exact K. }
  unfold stage in H.
  bind_val H tmp w1 E1. cbv zeta in H.
  bind_val H td w2 E2.
  bind_val H u3 w3 E3.
  bind_val H u4 w4 E4.
  bind_val H u5 w5 E5.
  bind_val H sz w6 E6.
  bind_val H u7 w7 E7.
  inversion H; subst. repeat split. exact I.
Qed.

(** A check that passes has run the probe of the launcher, and nothing
    else; the working directory stays. *)
Lemma check_java_val (h : host) (java_cmd : string) (w w' : world) :
  check_java h java_cmd w = (Val tt, w') ->
  invoked w' = [java_cmd; "-version"] :: invoked w /\ cwd w' = cwd w.
Proof.
  unfold check_java, try_except. intros H.
  erewrite bind_val in H by reflexivity.
  pose proof (subprocess_run_invoked h [java_cmd; "-version"] 5 None
                (add_log (INFO, "Verifying Java installation...") w)) as I.
  pose proof (subprocess_run_keeps h [java_cmd; "-version"] 5 None
                (add_log (INFO, "Verifying Java installation...") w))
    as (C & _).
  unfold bind in H.
  destruct (subprocess_run h [java_cmd; "-version"] 5 None _)
    as [[c|x|e] w1]; cbn [snd] in I, C.
  - inversion H; subst. split; [exact I | exact C].
  - discriminate.
  - destruct (is_TimeoutExpired e); [discriminate|].
    destruct (is_FileNotFoundError e); discriminate.
Qed.

(** The vector that the handler builds. *)
Lemma build_cmd_val (h : host) (req : request)
    (java_cmd input output : string) (w w' : world) (cmd : list string) :
  build_cmd h req java_cmd input output w = (Val cmd, w') ->
  cmd = argument_vector (tool_of h java_cmd) input output
          (option_flags (options_of req) (config_file h)
             (opt_protect_config (options_of req)
              && Fs.exists_at (Path.resolve (cwd w) (config_file h))
                              (fs w))) /\
  fs w' = fs w /\ cwd w' = cwd w /\ invoked w' = invoked w.
Proof.
  intros H. pose proof (build_cmd_fst h req java_cmd input output w) as F.
  rewrite H in F. cbn [fst] in F. split; [congruence|].
  assert (K : sat (fun a b => fs b = fs a /\ cwd b = cwd a
                              /\ invoked b = invoked a) any_answer
                (build_cmd h req java_cmd input output)).
  { apply sat_build_cmd.
    - intros w0. repeat split.
    - intros a b c (A1 & A2 & A3) (B1 & B2 & B3). repeat split; congruence.
    - intros l s w0 _. repeat split. }
  pose proof (proj1 (K w)) as K'. rewrite H in K'. exact K'.
Qed.

(** What the handler has built when the inner [try] is entered. *)
Lemma prepare_cmd (h : host) (req : request) (f : upload) (w w1 : world)
    (j : job) :
  prepare h req f w = (Val j, w1) ->
  exists java_cmd,
    job_cmd j
    = argument_vector (tool_of h java_cmd)
        (Path.join (job_temp_dir j) (secure_filename h (filename f)))
        (Path.join (job_temp_dir j) "output")
        (option_flags (options_of req) (config_file h)
           (opt_protect_config (options_of req)
            && Fs.exists_at (Path.resolve (cwd w) (config_file h))
                            (fs w1))) /\
    job_output_dir j = Path.join (job_temp_dir j) "output" /\
    invoked w1 = [java_cmd; "-version"] :: invoked w.
Proof.
  unfold prepare. intros H.
  bind_val H dirs wb Eb. destruct dirs as [[t i] o].
  destruct (@stage_fresh h f w wb t i o Eb) as (_ & Cb & _).
  destruct (@stage_paths h f w wb t i o Eb) as (Pi & Po & Ib).
  bind_val H jc wc Ec.
  pose proof (find_java_frame h wb) as (Cc & Ic). rewrite Ec in Cc, Ic.
  cbn [snd] in Cc, Ic.
  bind_val H u wd Ed. destruct u.
  destruct (check_java_val h jc wc Ed) as (Id & Cd).
  bind_val H cmd we Ee.
  destruct (build_cmd_val h req jc i o wd Ee) as (Vc & Fe & Ce & Ie).
  bind_val H oc wf Ef. inversion Ef; subst oc wf. clear Ef.
  bind_val H u' wg Eg. destruct u'. apply os_chdir_val in Eg.
  destruct Eg as [-> _]. unfold ret in H. injection H as <- <-.
  cbn [job_cmd job_temp_dir job_output_dir fs invoked set_cwd].
  exists jc. split; [|split; [exact Po | congruence]].
  rewrite Fe. replace (cwd w) with (cwd wd) by congruence.
  rewrite <- Pi, <- Po. exact Vc.
Qed.

(** The first program that the inner [try] starts is the tool, with the
    vector that was built. *)
Lemma run_protection_invokes (h : host) (f : upload) (cmd : list string)
    (t o c : string) (w : world) :
  exists later,
    invoked (snd (run_protection h f cmd t o c w))
    = later ++ cmd :: invoked w.
Proof.
  pose proof more_invoked_refl as R_refl.
  pose proof more_invoked_trans as R_trans.
  assert (R_log : forall l s w0, l <> ERROR ->
            more_invoked w0 (add_log (l, s) w0))
    by (intros; exists []; reflexivity).
  assert (R_fs : forall f0 w0, more_invoked w0 (set_fs f0 w0))
    by (intros; exists []; reflexivity).
  pose proof more_invoked_invoke as R_invoke.
  assert (R_err : forall s w0, more_invoked w0 (add_log (ERROR, s) w0))
    by (intros; exists []; reflexivity).
  assert (R_cwd : forall c0 w0, more_invoked w0 (set_cwd c0 w0))
    by (intros; exists []; reflexivity).
  assert (P_served : forall r, served r -> any_answer r) by (intros; exact I).
  assert (H1 : more_invoked
                 (snd (protection_body h f cmd t o c w))
                 (snd (run_protection h f cmd t o c w))).
  { unfold run_protection.
    apply (@after_try_except more_invoked any_answer); [exact R_refl|].
    intros e. destruct (is_TimeoutExpired e);
      [apply sat_on_timeout | apply sat_on_error]; assumption. }
  assert (H2 : exists w2,
            invoked w2 = cmd :: invoked w /\
            more_invoked w2 (snd (protection_body h f cmd t o c w))).
  { unfold protection_body.
    do 2 (erewrite bind_val by reflexivity).
    eexists. split.
    2:{ apply (@after_bind more_invoked any_answer); [exact R_refl|].
        intros res.
        apply sat_bind; [assumption | sat_step | intros _].
        destruct (negb (returncode res =? 0)%Z).
        - sat_block.
        - apply sat_bind; [assumption | apply sat_resolve_output; assumption
                          | intros f'].
          apply sat_deliver; assumption. }
    rewrite subprocess_run_invoked. reflexivity. }
  destruct H2 as (w2 & I2 & M2).
  destruct (more_invoked_trans M2 H1) as [later E].
  exists later. rewrite E, I2. reflexivity.
Qed.

(** C3, amended. When a request reaches the invocation, the first program
    the handler then starts is the tool, and the argument vector it is
    started with is: the Java launcher that was probed, [-jar] and the
    jar; then [-f] and the path the upload was staged at, the sanitised
    name of the upload in the new workspace; then [-o] and the directory
    [output] of the workspace; then exactly one flag per selected option
    and none for an unselected one, in the order debug, disable-acf,
    dump-code, keep-classes ([-K]), noisy-log, smaller ([-S]),
    exclude-abis with its value ([-e]) and the configuration template
    ([-c]), the last one only when the template file exists; with no
    option selected the optional part is empty. *)
Theorem C3_argument_vector
    (h : host) (req : request) (w w1 : world) (j : job) :
  prelude h req w = (Val j, w1) ->
  exists file java_cmd,
    MultiDict.get "apk_file" (files req) = Some file /\
    at_path w (job_temp_dir j) = None /\
    job_cmd j
    = [java_cmd; "-jar"; DPT_JAR_PATH h]
      ++ ["-f"; Path.join (job_temp_dir j)
                  (secure_filename h (filename file))]
      ++ ["-o"; Path.join (job_temp_dir j) "output"]
      ++ option_flags (options_of req) (config_file h)
           (opt_protect_config (options_of req)
            && Fs.exists_at (Path.resolve (cwd w) (config_file h))
                            (fs w1)) /\
    (options_of req = no_options ->
     job_cmd j
     = [java_cmd; "-jar"; DPT_JAR_PATH h;
        "-f"; Path.join (job_temp_dir j)
                (secure_filename h (filename file));
        "-o"; Path.join (job_temp_dir j) "output"]) /\
    invoked w1 = [java_cmd; "-version"] :: invoked w /\
    exists later,
      invoked (final (protect_apk h req w))
      = later ++ job_cmd j :: invoked w1.
Proof.
  intros Hp.
  destruct (prelude_val h req w Hp) as (V & _ & _ & _ & _ & Fr).
  pose proof Hp as H. unfold prelude in H. bind_val H f wa Ea.
  assert (Ef : f = job_file j) by (rewrite Ea in V; cbn in V; congruence).
  destruct (validate_frame req w) as (Fa & Ca & _).
  assert (Ia : invoked wa = invoked w).
  { pose proof (proj1 (@sat_validate same_invoked any_answer
                  (fun _ => eq_refl) (fun a b c H1 H2 => eq_trans H2 H1)
                  (fun _ _ _ _ => eq_refl) (fun _ _ => eq_refl)
                  (fun _ _ => I) req w)) as K.
    rewrite Ea in K. exact K. }
  rewrite Ea in Fa, Ca. cbn [snd] in Fa, Ca.
  destruct (prepare_cmd h req f wa H) as (jc & Vc & _ & Ic).
  rewrite Ca in Vc. rewrite Ia in Ic.
  exists f, jc.
  split; [apply (validate_val_upload req w); rewrite Ea; reflexivity|].
  split; [exact Fr|]. split; [exact Vc|].
  split; [intros N; rewrite Vc, N; reflexivity|].
  split; [exact Ic|].
  destruct (run_protection_invokes h (job_file j) (job_cmd j)
              (job_temp_dir j) (job_output_dir j) (job_original_cwd j) w1)
    as [later E].
  unfold protect_apk, protect_body, final.
  assert (M : more_invoked
                (snd (run_protection h (job_file j) (job_cmd j)
                        (job_temp_dir j) (job_output_dir j)
                        (job_original_cwd j) w1))
                (snd (try_except
                        (bind (prelude h req)
                           (fun j0 =>
                              run_protection h (job_file j0) (job_cmd j0)
                                (job_temp_dir j0) (job_output_dir j0)
                                (job_original_cwd j0)))
                        on_server_error w))).
  { replace (snd (run_protection h (job_file j) (job_cmd j)
                    (job_temp_dir j) (job_output_dir j)
                    (job_original_cwd j) w1))
      with (snd (bind (prelude h req)
                   (fun j0 =>
                      run_protection h (job_file j0) (job_cmd j0)
                        (job_temp_dir j0) (job_output_dir j0)
                        (job_original_cwd j0)) w))
      by (rewrite (@bind_val _ _ _ _ _ _ _ Hp); reflexivity).
    apply (@after_try_except more_invoked any_answer);
      [exact more_invoked_refl|].
    intros e. apply sat_on_server_error;
      [exact more_invoked_refl | exact more_invoked_trans
      | intros; exists []; reflexivity | intros; exact I]. }
  destruct M as [l2 E2]. exists (l2 ++ later).
  unfold protect_body in E2. rewrite E2, E. apply app_assoc.
Qed.

Lemma C3_no_options :
  exists later,
    invoked (final (protect_apk Demo.copies
                      (Demo.post "app.apk" Demo.apk_bytes []) Demo.start))
    = later
      ++ ["java"; "-jar"; "/srv/app/executable/dpt.jar";
          "-f"; "/tmp/apk_protect_k3x9/app.apk";
          "-o"; "/tmp/apk_protect_k3x9/output"]
      :: [["java"; "-version"]].
Proof.
  destruct (@C3_argument_vector Demo.copies
              (Demo.post "app.apk" Demo.apk_bytes []) Demo.start
              (snd (prelude Demo.copies
                      (Demo.post "app.apk" Demo.apk_bytes []) Demo.start))
              (MkJob (MkUpload "app.apk" Demo.apk_bytes)
                 ["java"; "-jar"; "/srv/app/executable/dpt.jar";
                  "-f"; "/tmp/apk_protect_k3x9/app.apk";
                  "-o"; "/tmp/apk_protect_k3x9/output"]
                 "/tmp/apk_protect_k3x9" "/tmp/apk_protect_k3x9/output"
                 "/home/user"))
    as (file & jc & _ & _ & _ & _ & I1 & later & E).
  - vm_compute. reflexivity.
  - exists later. rewrite E. cbn [job_cmd]. rewrite I1.
    assert (J : jc = "java").
    { assert (K : invoked (snd (prelude Demo.copies
                     (Demo.post "app.apk" Demo.apk_bytes []) Demo.start))
                  = [["java"; "-version"]]) by (vm_compute; reflexivity).
      rewrite K in I1. inversion I1. reflexivity. }
    rewrite J. reflexivity.
Defined.

(** The launches of a served request, the latest first: the probe of the
    launcher, the tool, the verifier of the signature. *)
Example launches_of_a_served_request :
  invoked (final (protect_apk Demo.copies
                    (Demo.post "app.apk" Demo.apk_bytes
                       [("debug", "true"); ("smaller", "true")])
                    Demo.start))
  = [["jarsigner"; "-verify"; "-verbose"; "-certs";
      "/tmp/apk_protect_k3x9/output/app_signed.apk"];
     ["java"; "-jar"; "/srv/app/executable/dpt.jar";
      "-f"; "/tmp/apk_protect_k3x9/app.apk";
      "-o"; "/tmp/apk_protect_k3x9/output"; "--debug"; "-S"];
     ["java"; "-version"]].
Proof. vm_compute. reflexivity. Qed.

(** The template selected and missing: the tool is started without
    [-c]. *)
Example tool_started_without_template :
  invoked (final (protect_apk Demo.silent
                    (Demo.post "app.apk" Demo.apk_bytes
                       [("use_protect_config", "true")])
                    Demo.start))
  = [["java"; "-jar"; "/srv/app/executable/dpt.jar";
      "-f"; "/tmp/apk_protect_k3x9/app.apk";
      "-o"; "/tmp/apk_protect_k3x9/output"];
     ["java"; "-version"]].
Proof. vm_compute. reflexivity. Qed.

(** ** The scan and the type check *)

Lemma lower_app (a b : string) :
  PyStr.lower (a ++ b) = (PyStr.lower a ++ PyStr.lower b)%string.
Proof.
  induction a as [|c a IH]; cbn; [reflexivity | now rewrite IH].
Qed.

Lemma accepted_file_name (f : string) :
  accepted_file f = true -> accepted_name f.
Proof.
  unfold accepted_file, accepted_name, PyStr.endswith_any,
    accepted_extensions. simpl.
  rewrite orb_false_r, orb_true_iff, !endswith_spec.
  intros [[stem E]|[stem E]]; [left | right]; exists (PyStr.lower stem);
    rewrite E, lower_app; reflexivity.
Qed.

Lemma length_app (a b : string) :
  String.length (a ++ b) = String.length a + String.length b.
Proof.
  induction a as [|c a IH]; cbn; [reflexivity | now rewrite IH].
Qed.

Lemma app_suffix_eq (a b x y : string) :
  String.length x = String.length y ->
  (a ++ x)%string = (b ++ y)%string -> x = y.
Proof.
  revert b. induction a as [|c a IH]; intros [|c' b] L E; cbn in E.
  - exact E.
  - apply (f_equal String.length) in E. cbn in E.
    rewrite length_app in E. lia.
  - apply (f_equal String.length) in E. cbn in E.
    rewrite length_app in E. lia.
  - injection E as _ E. exact (IH b L E).
Qed.

(** The scan of the output directory (lines 248-253) compares the
    endings as they are, the check of the upload (line 71) after
    lower-casing. The scan selects exactly the files of a directory that
    end in ".apk" or ".aab"; the type check accepts each of their names;
    but a name ending in ".APK", which the type check accepts as well,
    is passed over by the scan. *)
Theorem scan_is_case_sensitive
    (root : string) (dirs fnames : list string) :
  (forall p, In p (accepted_in (root, dirs, fnames)) <->
     exists f, In f fnames /\ p = Path.join root f /\
               (ends_with f ".apk" \/ ends_with f ".aab")) /\
  (forall f, ends_with f ".apk" \/ ends_with f ".aab" -> accepted_name f) /\
  (forall stem,
     accepted_name (stem ++ ".APK") /\
     accepted_in (root, dirs, [stem ++ ".APK"]%string) = []).
Proof.
  assert (S : forall f, PyStr.endswith_any f accepted_extensions = true
                        <-> ends_with f ".apk" \/ ends_with f ".aab").
  { intros f. unfold PyStr.endswith_any, accepted_extensions. simpl.
    rewrite orb_false_r, orb_true_iff, !endswith_spec. reflexivity. }
  split; [|split].
  - intros p. unfold accepted_in. rewrite in_map_iff. split.
    + intros (f & <- & Hf). apply filter_In in Hf. destruct Hf as [Hf Ha].
      exists f. split; [exact Hf|]. split; [reflexivity|].
      apply S. exact Ha.
    + intros (f & Hf & -> & Ha). exists f. split; [reflexivity|].
      apply filter_In. split; [exact Hf|]. apply S. exact Ha.
  - intros f Ha. apply accepted_file_name. apply S. exact Ha.
  - intros stem. split.
    + left. exists (PyStr.lower stem). rewrite lower_app. reflexivity.
    + unfold accepted_in. cbn [filter map].
      destruct (PyStr.endswith_any (stem ++ ".APK") accepted_extensions)
        eqn:E; [|reflexivity].
      apply S in E. destruct E as [[s E]|[s E]];
        apply app_suffix_eq in E; try reflexivity; discriminate.
Qed.

Lemma scan_passes_over_upper_case :
  accepted_name "B.APK" /\ accepted_in ("/o", [], ["B.APK"]) = [].
Proof.
  exact (proj2 (proj2 (@scan_is_case_sensitive "/o" [] [])) "B").
Defined.

(** ** The set-up script (main.py) *)

Lemma check_command_eq (h : host) (cmd : string) (w : world) :
  Setup.check_command h cmd w =
  let args := [cmd; if String.eqb cmd "java" then "-version"
                    else "--version"] in
  match exec h args (cwd w) (fs w) with
  | CannotStart _ => (Val false, invoke args w)
  | Runs d rc o e after =>
      (Val (if (5 <? d)%N then false else Z.eqb rc 0),
       set_fs after (invoke args w))
  | Undecodable d rc why after =>
      (Val false, set_fs after (invoke args w))
  end.
Proof.
  unfold Setup.check_command, try_except, bind.
  rewrite subprocess_run_eq. unfold start_dir_error, start_dir.
  cbv beta iota zeta.
  destruct (String.eqb cmd "java"); cbn [negb];
    (destruct (exec h _ (cwd w) (fs w)) as [e|d rc o e after|d rc why after];
     [reflexivity | destruct (5 <? d)%N; reflexivity
     | destruct (5 <? d)%N; reflexivity]).
Qed.

(** [check_command] never raises. It answers [True] exactly when the
    probe of the command ends within 5 time units with exit status 0 and
    an output that decodes as text; the probe is [cmd -version] for
    "java" and [cmd --version] for every other command. The working
    directory and the children stay. *)
Theorem check_command_true_iff (h : host) (cmd : string) (w : world) :
  exists b w',
    Setup.check_command h cmd w = (Val b, w') /\
    cwd w' = cwd w /\ procs w' = procs w /\
    (b = true <->
     probe_ends h cmd (if String.eqb cmd "java" then "-version"
                       else "--version") w 0).
Proof.
  rewrite check_command_eq. cbv zeta. unfold probe_ends.
  destruct (exec h _ (cwd w) (fs w)) as [e|d rc o e after|d rc why after].
  - eexists; eexists. split; [reflexivity|]. repeat split; try discriminate.
    intros (d & o & e' & a & E & _). discriminate.
  - eexists; eexists. split; [reflexivity|]. repeat split.
    + destruct (N.ltb_spec 5 d) as [L|L]; [discriminate|].
      intros Hz. apply Z.eqb_eq in Hz. subst rc.
      exists d, o, e, after. split; [reflexivity | exact L].
    + intros (d' & o' & e' & a' & E & L). injection E as -> -> _ _ _.
      apply N.ltb_ge in L. rewrite L. reflexivity.
  - eexists; eexists. split; [reflexivity|]. repeat split; try discriminate.
    intros (d' & o & e' & a & E & _). discriminate.
Qed.

(** A command whose output is not text counts as absent. *)
Example garbled_command_is_absent :
  fst (Setup.check_command Demo.garbled_java "java" Demo.start) = Val false.
Proof. vm_compute. reflexivity. Qed.

Lemma split_from_nil (cur s : string) :
  Setup.split_from cur s = [] <-> cur = "" /\ all_space s = true.
Proof.
  revert cur. induction s as [|c s IH]; intros cur; cbn.
  - destruct cur; cbn; intuition discriminate.
  - destruct (PyStr.is_space c); cbn.
    + destruct cur as [|c' cur]; cbn.
      * rewrite IH. intuition.
      * intuition discriminate.
    + rewrite IH. split; [|intros [_ ?]; discriminate].
      intros [E _]. destruct cur; discriminate.
Qed.

Lemma contains_not_space (s sub : string) (c : ascii) (rest : string) :
  sub = String c rest -> PyStr.is_space c = false ->
  PyStr.contains s sub = true -> all_space s = false.
Proof.
  intros -> Hc. induction s as [|c' s IH]; cbn.
  - discriminate.
  - destruct (Ascii.ascii_dec c c') as [<-|N].
    + intros _. rewrite Hc. reflexivity.
    + destruct (String.prefix rest s); [|].
      * intros H. destruct (PyStr.is_space c'); [|reflexivity]. cbn.
        apply IH. exact H.
      * intros H. destruct (PyStr.is_space c'); [|reflexivity]. cbn.
        apply IH. exact H.
Qed.

(** The probe of lines 102-119, by what the launcher does and what the
    terminal takes. *)
Lemma check_version_fst (h : host) (terminal : Setup.output -> option exn)
    (c : string) (w : world) :
  fst (Setup.check_version h terminal c w) =
  match exec h [c; "-version"] (cwd w) (fs w) with
  | CannotStart e => version_check_failed terminal e
  | Runs d rc o e after =>
      if (5 <? d)%N
      then version_check_failed terminal (timeout_expired [c; "-version"] 5)
      else
        if PyStr.contains (PyStr.or_else e o) "21"
           || PyStr.contains (PyStr.or_else e o)
                ("openjdk version " ++ dquote ++ "21")
        then match terminal (Setup.Success "Java JDK 21 found") with
             | Some x => version_check_failed terminal x
             | None => Val (true, Some c)
             end
        else if blank (PyStr.or_else e o)
        then version_check_failed terminal
               (MkExn OtherException "list index out of range")
        else
          match terminal
                  (Setup.Warning
                     ("Java found but version might not be 21: "
                      ++ match Setup.split (PyStr.or_else e o) with
                         | x :: _ => x
                         | [] => "Unknown"
                         end)) with
          | Some x => version_check_failed terminal x
          | None =>
              match terminal (Setup.Warning "Continuing anyway...") with
              | Some x => version_check_failed terminal x
              | None => Val (true, Some c)
              end
          end
  | Undecodable d rc why after =>
      if (5 <? d)%N
      then version_check_failed terminal (timeout_expired [c; "-version"] 5)
      else version_check_failed terminal (MkExn OtherException why)
  end.
Proof.
  assert (F : forall e w0,
    fst (bind (Setup.print terminal
                 (Setup.Error ("Error checking Java: " ++ text e)))
           (fun _ => ret (false, None)) w0)
    = version_check_failed terminal e).
  { intros e w0. unfold bind, Setup.print, version_check_failed.
    destruct (terminal _); reflexivity. }
  unfold Setup.check_version, try_except, bind at 1.
  rewrite subprocess_run_eq. unfold start_dir_error, start_dir.
  cbv beta iota zeta.
  destruct (exec h _ (cwd w) (fs w)) as [e|d rc o e after|d rc why after].
  - apply F.
  - destruct (5 <? d)%N; [apply F|]. cbn [stderr stdout].
    set (vo := PyStr.or_else e o). unfold blank.
    destruct (PyStr.contains vo "21" ||
              PyStr.contains vo ("openjdk version " ++ dquote ++ "21"))
      eqn:C.
    + unfold bind at 1. unfold Setup.print at 1.
      destruct (terminal (Setup.Success "Java JDK 21 found"));
        [apply F | reflexivity].
    + apply orb_false_iff in C. destruct C as [C1 C2].
      destruct (PyStr.truthy vo) eqn:T; cbn [andb].
      * unfold Setup.split at 1, bind at 1.
        destruct (Setup.split_from "" vo) as [|x l] eqn:S.
        -- apply split_from_nil in S. destruct S as [_ S]. rewrite S.
           apply F.
        -- assert (A : all_space vo = false).
           { destruct (all_space vo) eqn:A; [|reflexivity].
             assert (S' : Setup.split_from "" vo = [])
               by (apply split_from_nil; split; [reflexivity | exact A]).
             congruence. }
           rewrite A. unfold Setup.split. rewrite S.
           cbn [Setup.item0 ret]. unfold bind at 1, Setup.print at 1.
           destruct (terminal (Setup.Warning _)); [apply F|].
           unfold bind at 1, Setup.print at 1.
           destruct (terminal (Setup.Warning "Continuing anyway..."));
             [apply F | reflexivity].
      * assert (E0 : vo = "") by (destruct vo; [reflexivity|discriminate]).
        rewrite E0. cbn [Setup.split Setup.split_from PyStr.truthy].
        unfold bind at 1. cbn [ret]. unfold bind at 1, Setup.print at 1.
        destruct (terminal (Setup.Warning _)); [apply F|].
        unfold bind at 1, Setup.print at 1.
        destruct (terminal (Setup.Warning "Continuing anyway..."));
          [apply F | reflexivity].
  - destruct (5 <? d)%N; apply F.
Qed.

Lemma version_check_failed_fine (terminal : Setup.output -> option exn)
    (c : string) (e : exn) :
  returned_or_print_error terminal c (version_check_failed terminal e).
Proof.
  unfold version_check_failed.
  destruct (terminal _) as [x|] eqn:T.
  - right. right. eexists. exists x. split; [exact T | reflexivity].
  - left. reflexivity.
Qed.

Lemma check_version_fine (h : host) (terminal : Setup.output -> option exn)
    (c : string) (w : world) :
  returned_or_print_error terminal c
    (fst (Setup.check_version h terminal c w)).
Proof.
  rewrite check_version_fst.
  destruct (exec h _ (cwd w) (fs w)) as [e|d rc o e after|d rc why after];
    repeat match goal with
           | |- returned_or_print_error _ _ (version_check_failed _ _) =>
               apply version_check_failed_fine
           | |- returned_or_print_error _ _ (Val (true, Some _)) =>
               right; left; reflexivity
           | |- returned_or_print_error _ _ (if ?b then _ else _) =>
               destruct b
           | |- returned_or_print_error _ _
                  (match terminal ?o with _ => _ end) =>
               destruct (terminal o)
           end.
Qed.

(** The probes touch neither the working directory nor the children. *)
Lemma check_command_keeps (h : host) (cmd : string) (w : world) :
  cwd (snd (Setup.check_command h cmd w)) = cwd w /\
  procs (snd (Setup.check_command h cmd w)) = procs w.
Proof.
  rewrite check_command_eq. cbv zeta.
  destruct (exec h _ (cwd w) (fs w)); split; reflexivity.
Qed.

Lemma print_keeps (terminal : Setup.output -> option exn)
    (o : Setup.output) (w : world) :
  snd (Setup.print terminal o w) = w.
Proof. unfold Setup.print. destruct (terminal o); reflexivity. Qed.

Lemma check_version_keeps (h : host)
    (terminal : Setup.output -> option exn) (c : string) (w : world) :
  cwd (snd (Setup.check_version h terminal c w)) = cwd w /\
  procs (snd (Setup.check_version h terminal c w)) = procs w.
Proof.
  assert (K : sat (fun a b => cwd b = cwd a /\ procs b = procs a) any_answer
                (Setup.check_version h terminal c)).
  { pose proof (fun w0 : world =>
                  conj (eq_refl (cwd w0)) (eq_refl (procs w0))) as R_refl.
    assert (R_trans : forall a b c0 : world,
              cwd b = cwd a /\ procs b = procs a ->
              cwd c0 = cwd b /\ procs c0 = procs b ->
              cwd c0 = cwd a /\ procs c0 = procs a)
      by (intros a b c0 [A1 A2] [B1 B2]; split; congruence).
    pose proof (fun (f : Fs.node) (w0 : world) =>
                  conj (eq_refl (cwd w0)) (eq_refl (procs w0)))
      as R_fs.
    pose proof (fun (a : list string) (w0 : world) =>
                  conj (eq_refl (cwd w0)) (eq_refl (procs w0)))
      as R_invoke.
    unfold Setup.check_version, Setup.print, Setup.item0.
    repeat first
      [ sat_step
      | match goal with
        | |- sat _ _ (if ?b then _ else _) => destruct b
        | |- sat _ _ (match ?x with _ => _ end) => destruct x
        end ]. }
  exact (proj1 (K w)).
Qed.

(** Where [check_java] of the script looks for the launcher. *)
Lemma setup_check_java_eq (h : host)
    (terminal : Setup.output -> option exn) (w : world) :
  Setup.check_java h terminal w =
  match terminal (Setup.Step 2 "Checking Java JDK 21 installation...") with
  | Some e => (Raise e, w)
  | None =>
      let on_path :=
        bind (Setup.check_command h "java")
          (fun found : bool =>
             if found then Setup.check_version h terminal "java"
             else
               Setup.print terminal (Setup.Error "Java JDK 21 not found!") ;;
               Setup.print terminal
                 (Setup.Warning "Please install Java JDK 21:") ;;
               Setup.print terminal
                 (Setup.Plain
                    "  Linux/Mac: Use package manager or download from Adoptium") ;;
               ret (false, None)) in
      if PyStr.truthy (environ_get h "JAVA_HOME" "")
      then match at_path w (Path.join3 (environ_get h "JAVA_HOME" "")
                              "bin" "java") with
           | Some _ =>
               Setup.check_version h terminal
                 (Path.join3 (environ_get h "JAVA_HOME" "") "bin" "java") w
           | None => on_path w
           end
      else on_path w
  end.
Proof.
  unfold Setup.check_java, Setup.platform_system.
  cbn [String.eqb Ascii.eqb Bool.eqb].
  unfold bind at 1. unfold Setup.print at 1.
  destruct (terminal (Setup.Step 2 _)); [reflexivity|]. cbn [ret].
  cbv zeta.
  destruct (PyStr.truthy (environ_get h "JAVA_HOME" "")).
  - unfold bind at 1 2. unfold os_path_exists at 1.
    destruct (at_path w _) eqn:E; cbn [negb ret].
    + unfold bind at 1 2. unfold os_path_exists. rewrite E.
      cbn [negb ret]. reflexivity.
    + unfold bind at 1. cbn [ret]. reflexivity.
  - unfold bind at 1 2. cbn [ret]. reflexivity.
Qed.

(** The search on the path (lines 87-97). *)
Lemma on_path_fine (h : host) (terminal : Setup.output -> option exn)
    (w : world) :
  let r :=
    bind (Setup.check_command h "java")
      (fun found : bool =>
         if found then Setup.check_version h terminal "java"
         else
           Setup.print terminal (Setup.Error "Java JDK 21 not found!") ;;
           Setup.print terminal
             (Setup.Warning "Please install Java JDK 21:") ;;
           Setup.print terminal
             (Setup.Plain
                "  Linux/Mac: Use package manager or download from Adoptium") ;;
           ret (false, None)) w in
  returned_or_print_error terminal "java" (fst r) /\
  cwd (snd r) = cwd w /\ procs (snd r) = procs w.
Proof.
  cbv zeta.
  destruct (check_command_keeps h "java" w) as [Cc Pc].
  pose proof (check_command_eq h "java" w) as E.
  destruct (Setup.check_command h "java" w) as [[[]|x|e] w1] eqn:Ec;
    cbn [fst snd] in Cc, Pc.
  - rewrite (@bind_val _ _ _ _ _ _ _ Ec).
    destruct (check_version_keeps h terminal "java" w1) as [Cv Pv].
    split; [apply check_version_fine|]. split; congruence.
  - rewrite (@bind_val _ _ _ _ _ _ _ Ec). unfold bind, Setup.print.
    destruct (terminal (Setup.Error _)) as [x|] eqn:T1; cbn [fst snd].
    { split; [|split; assumption]. right. right. eexists. exists x.
      split; [exact T1 | reflexivity]. }
    cbn [ret].
    destruct (terminal (Setup.Warning _)) as [x|] eqn:T2; cbn [fst snd].
    { split; [|split; assumption]. right. right. eexists. exists x.
      split; [exact T2 | reflexivity]. }
    destruct (terminal (Setup.Plain _)) as [x|] eqn:T3; cbn [fst snd].
    { split; [|split; assumption]. right. right. eexists. exists x.
      split; [exact T3 | reflexivity]. }
    split; [left; reflexivity | split; assumption].
  - cbv zeta in E.
    destruct (exec h _ (cwd w) (fs w)); discriminate.
  - cbv zeta in E.
    destruct (exec h _ (cwd w) (fs w)); discriminate.
Qed.

(** [check_java] of the script leaves the working directory and the
    children as they are. When it returns, its answer is either
    [(False, None)] or [(True, java_cmd)], and then [java_cmd] is the
    launcher that [find_java] of the server selects in the same state.
    It raises only what writing to the terminal raises, and it returns
    whenever the terminal takes all it writes. *)
Theorem setup_java_is_the_servers
    (h : host) (terminal : Setup.output -> option exn) (w : world) :
  cwd (snd (Setup.check_java h terminal w)) = cwd w /\
  procs (snd (Setup.check_java h terminal w)) = procs w /\
  (forall r, fst (Setup.check_java h terminal w) = Val r ->
     r = (false, None) \/
     exists c, r = (true, Some c) /\ fst (find_java h w) = Val c) /\
  (forall e, fst (Setup.check_java h terminal w) = Raise e ->
     exists o, terminal o = Some e) /\
  (forall x, fst (Setup.check_java h terminal w) <> Return x) /\
  ((forall o, terminal o = None) ->
   exists r, fst (Setup.check_java h terminal w) = Val r).
Proof.
  assert (K : exists c,
    fst (find_java h w) = Val c /\
    returned_or_print_error terminal c
      (fst (Setup.check_java h terminal w)) /\
    cwd (snd (Setup.check_java h terminal w)) = cwd w /\
    procs (snd (Setup.check_java h terminal w)) = procs w).
  { rewrite setup_check_java_eq, find_java_eq. cbn [fst].
    destruct (terminal (Setup.Step 2 _)) as [x|] eqn:T.
    - eexists. split; [reflexivity|]. cbn [fst snd].
      split; [|split; reflexivity]. right. right. eexists. exists x.
      split; [exact T | reflexivity].
    - cbv zeta.
      destruct (PyStr.truthy (environ_get h "JAVA_HOME" ""));
        [destruct (at_path w _)|].
      + eexists. split; [reflexivity|].
        split; [apply check_version_fine | apply check_version_keeps].
      + exists "java". split; [reflexivity|]. apply on_path_fine.
      + exists "java". split; [reflexivity|]. apply on_path_fine. }
  destruct K as (c & Fc & [E|[E|(o & e & T & E)]] & Cw & Pw);
    (split; [exact Cw|]); (split; [exact Pw|]); rewrite E.
  - split; [intros r H; left; congruence|].
    split; [discriminate|]. split; [discriminate|]. eexists. reflexivity.
  - split; [intros r H; right; exists c; split; [congruence | exact Fc]|].
    split; [discriminate|]. split; [discriminate|]. eexists. reflexivity.
  - split; [discriminate|].
    split; [intros e' H; exists o; congruence|].
    split; [discriminate|]. intros Q. rewrite Q in T. discriminate.
Qed.

(** On a terminal without the three symbols the check of a launcher that
    reports version 21 ends in the error of the report that follows the
    one of success. *)
Example setup_check_on_ascii_terminal :
  fst (Setup.check_java (Demo.with_jdk "openjdk version 21") Demo.ascii_only
         Demo.jdk_start)
  = Raise (MkExn OtherException
      "'ascii' codec can't encode character '\u2717' in position 5: ordinal not in range(128)").
Proof. vm_compute. reflexivity. Qed.

(** A launcher under [JAVA_HOME], on a terminal that takes all the
    script writes: the script looks neither at its exit status nor at
    the version it prints. Once its probe ends within 5 time units with
    an output that decodes as text, the answer is [(True, java_cmd)],
    unless the output (the error stream, or the output stream if that is
    empty) is not empty and holds white space only: then taking its
    first word for the warning fails and the answer is [(False, None)]. *)
Theorem setup_java_home_launcher
    (h : host) (terminal : Setup.output -> option exn)
    (w : world) (c : string) (n : Fs.node)
    (d : N) (rc : Z) (o e : string) (after : Fs.node) :
  (forall x, terminal x = None) ->
  PyStr.truthy (environ_get h "JAVA_HOME" "") = true ->
  c = Path.join3 (environ_get h "JAVA_HOME" "") "bin" "java" ->
  at_path w c = Some n ->
  exec h [c; "-version"] (cwd w) (fs w) = Runs d rc o e after ->
  (d <= 5)%N ->
  fst (Setup.check_java h terminal w)
  = Val (if blank (PyStr.or_else e o) then (false, None)
         else (true, Some c)).
Proof.
  intros Q Ht -> Hn He Hd. rewrite setup_check_java_eq, Q. cbv zeta.
  rewrite Ht, Hn.
  rewrite check_version_fst, He. apply N.ltb_ge in Hd. rewrite Hd.
  unfold version_check_failed. rewrite !Q.
  destruct (PyStr.contains (PyStr.or_else e o) "21"
            || PyStr.contains (PyStr.or_else e o)
                 ("openjdk version " ++ dquote ++ "21")) eqn:C.
  - assert (B : blank (PyStr.or_else e o) = false).
    { unfold blank. apply orb_true_iff in C. destruct C as [C|C].
      - rewrite (@contains_not_space _ "21" "2"%char "1" eq_refl eq_refl C).
        apply andb_false_r.
      - rewrite (@contains_not_space _ _ "o"%char _ eq_refl eq_refl C).
        apply andb_false_r. }
    rewrite B. reflexivity.
  - destruct (blank (PyStr.or_else e o)); reflexivity.
Qed.

Lemma setup_java_home_examples :
  fst (Setup.check_java (Demo.with_jdk "java version 1.8") Demo.utf8
         Demo.jdk_start)
  = Val (true, Some "/opt/jdk/bin/java") /\
  fst (Setup.check_java (Demo.with_jdk "  ") Demo.utf8 Demo.jdk_start)
  = Val (false, None).
Proof.
  split.
  - apply (@setup_java_home_launcher (Demo.with_jdk "java version 1.8")
             Demo.utf8 Demo.jdk_start "/opt/jdk/bin/java"
             (Fs.File [Byte.x7f]) 1 1 "" "java version 1.8" Demo.jdk_tree);
      try reflexivity. vm_compute. discriminate.
  - apply (@setup_java_home_launcher (Demo.with_jdk "  ")
             Demo.utf8 Demo.jdk_start "/opt/jdk/bin/java"
             (Fs.File [Byte.x7f]) 1 1 "" "  " Demo.jdk_tree);
      try reflexivity. vm_compute. discriminate.
Defined.

(** What the probe of lines 102-119 answers on a terminal that takes all
    the script writes. *)
Lemma check_version_quiet (h : host) (terminal : Setup.output -> option exn)
    (c : string) (w : world) :
  (forall x, terminal x = None) ->
  fst (Setup.check_version h terminal c w) =
  match exec h [c; "-version"] (cwd w) (fs w) with
  | Runs d rc o e after =>
      Val (if (5 <? d)%N then (false, None)
           else if blank (PyStr.or_else e o) then (false, None)
                else (true, Some c))
  | _ => Val (false, None)
  end.
Proof.
  intros Q. rewrite check_version_fst. unfold version_check_failed.
  destruct (exec h _ (cwd w) (fs w)) as [e|d rc o e after|d rc why after];
    rewrite ?Q; [reflexivity| |destruct (5 <? d)%N; reflexivity].
  destruct (5 <? d)%N; [reflexivity|].
  destruct (PyStr.contains (PyStr.or_else e o) "21"
            || PyStr.contains (PyStr.or_else e o)
                 ("openjdk version " ++ dquote ++ "21")) eqn:C.
  - assert (B : blank (PyStr.or_else e o) = false).
    { unfold blank. apply orb_true_iff in C. destruct C as [C|C].
      - rewrite (@contains_not_space _ "21" "2"%char "1" eq_refl eq_refl C).
        apply andb_false_r.
      - rewrite (@contains_not_space _ _ "o"%char _ eq_refl eq_refl C).
        apply andb_false_r. }
    rewrite B. reflexivity.
  - destruct (blank (PyStr.or_else e o)); reflexivity.
Qed.

(** A launcher on the search path, when none is found under
    [JAVA_HOME], on a terminal that takes all the script writes: the
    script runs [java -version] twice. The answer is [(True, "java")]
    exactly when the first run ends within 5 time units with exit status
    0 and the second, started in what the first left, ends within 5 time
    units with an output that is not blank, both with an output that
    decodes as text. *)
Theorem setup_path_launcher
    (h : host) (terminal : Setup.output -> option exn) (w : world) :
  (forall x, terminal x = None) ->
  (PyStr.truthy (environ_get h "JAVA_HOME" "") = false \/
   at_path w (Path.join3 (environ_get h "JAVA_HOME" "") "bin" "java")
   = None) ->
  (fst (Setup.check_java h terminal w) = Val (true, Some "java") <->
   exists d o e after d2 rc2 o2 e2 after2,
     exec h ["java"; "-version"] (cwd w) (fs w) = Runs d 0 o e after /\
     (d <= 5)%N /\
     exec h ["java"; "-version"] (cwd w) after
     = Runs d2 rc2 o2 e2 after2 /\
     (d2 <= 5)%N /\ blank (PyStr.or_else e2 o2) = false).
Proof.
  intros Q Hh.
  assert (E : Setup.check_java h terminal w
              = bind (Setup.check_command h "java")
                  (fun found : bool =>
                     if found then Setup.check_version h terminal "java"
                     else ret (false, None)) w).
  { rewrite setup_check_java_eq, Q. cbv zeta.
    assert (P : forall k : M (bool * option string),
              bind (Setup.check_command h "java")
                (fun found : bool =>
                   if found then k
                   else
                     Setup.print terminal
                       (Setup.Error "Java JDK 21 not found!") ;;
                     Setup.print terminal
                       (Setup.Warning "Please install Java JDK 21:") ;;
                     Setup.print terminal
                       (Setup.Plain
                          "  Linux/Mac: Use package manager or download from Adoptium") ;;
                     ret (false, None)) w
              = bind (Setup.check_command h "java")
                  (fun found : bool => if found then k else ret (false, None))
                  w).
    { intros k. unfold bind at 1 5.
      destruct (Setup.check_command h "java" w) as [[[]|x|e] w1];
        try reflexivity.
      unfold bind, Setup.print. rewrite !Q. reflexivity. }
    destruct (PyStr.truthy (environ_get h "JAVA_HOME" ""));
      [|apply P].
    destruct Hh as [Hh|Hh]; [discriminate|]. rewrite Hh. apply P. }
  rewrite E. unfold bind. rewrite check_command_eq. cbv zeta.
  cbn [String.eqb Ascii.eqb Bool.eqb].
  destruct (exec h ["java"; "-version"] (cwd w) (fs w))
    as [x|d rc o e after|d rc why after].
  - cbn. split; [discriminate|].
    intros (? & ? & ? & ? & ? & ? & ? & ? & ? & H & _). discriminate.
  - destruct (N.ltb_spec 5 d) as [L|L].
    + cbn. split; [discriminate|].
      intros (? & ? & ? & ? & ? & ? & ? & ? & ? & H & L' & _).
      injection H as <- _ _ _ _. lia.
    + destruct (Z.eqb_spec rc 0) as [->|Nz].
      * rewrite (@check_version_quiet h terminal "java" _ Q).
        cbn [cwd fs set_fs invoke].
        destruct (exec h ["java"; "-version"] (cwd w) after)
          as [x|d2 rc2 o2 e2 after2|d2 rc2 why2 after2] eqn:E2.
        -- split; [discriminate|].
           intros (? & ? & ? & ? & ? & ? & ? & ? & ? & H & _ & H2 & _).
           injection H as _ _ _ <-. congruence.
        -- destruct (N.ltb_spec 5 d2) as [L2|L2].
           ++ split; [discriminate|].
              intros (? & ? & ? & ? & ? & ? & ? & ? & ? & H & _ & H2 & L3
                      & _).
              injection H as _ _ _ <-. rewrite E2 in H2.
              injection H2 as <- _ _ _ _. lia.
           ++ destruct (blank (PyStr.or_else e2 o2)) eqn:B.
              ** split; [discriminate|].
                 intros (? & ? & ? & ? & ? & ? & ? & ? & ? & H & _ & H2 & _
                         & B').
                 injection H as _ _ _ <-. rewrite E2 in H2.
                 injection H2 as _ _ <- <- _. congruence.
              ** split; [|reflexivity]. intros _.
                 exists d, o, e, after, d2, rc2, o2, e2, after2.
                 repeat split; auto.
        -- split; [discriminate|].
           intros (? & ? & ? & ? & ? & ? & ? & ? & ? & H & _ & H2 & _).
           injection H as _ _ _ <-. congruence.
      * cbn. split; [discriminate|].
        intros (? & ? & ? & ? & ? & ? & ? & ? & ? & H & _).
        injection H as _ Hrc _ _ _. congruence.
  - cbn. split; [discriminate|].
    intros (? & ? & ? & ? & ? & ? & ? & ? & ? & H & _). discriminate.
Qed.

Lemma setup_path_example :
  fst (Setup.check_java Demo.copies Demo.utf8 Demo.start)
  = Val (true, Some "java").
Proof.
  apply (@setup_path_launcher Demo.copies Demo.utf8 Demo.start).
  - reflexivity.
  - left. reflexivity.
  - exists 1%N, "", "openjdk version 21", Demo.tree,
      1%N, 0%Z, "", "openjdk version 21", Demo.tree.
    repeat split; vm_compute; discriminate.
Defined.

(** ** The sweep of the project root *)

Lemma split_on_slash (a b cur : string) :
  Path.split_on (a ++ String "/" b) cur
  = Path.split_on a cur ++ Path.split_on b "".
Proof.
  revert cur. induction a as [|ch a IH]; intros cur; cbn.
  - reflexivity.
  - destruct (Ascii.eqb ch "/"); rewrite IH; reflexivity.
Qed.

Lemma append_nil_r (s : string) : (s ++ "")%string = s.
Proof. induction s as [|c s IH]; cbn; [reflexivity | now rewrite IH]. Qed.

Lemma append_assoc (a b c : string) :
  ((a ++ b) ++ c)%string = (a ++ (b ++ c))%string.
Proof. induction a as [|x a IH]; cbn; [reflexivity | now rewrite IH]. Qed.

Lemma contains_slash_cons (ch : ascii) (s : string) :
  PyStr.contains (String ch s) "/" = false ->
  Ascii.eqb ch "/" = false /\ PyStr.contains s "/" = false.
Proof.
  cbn [PyStr.contains String.prefix].
  destruct (Ascii.ascii_dec "/" ch) as [<-|N].
  - destruct s; discriminate.
  - intros H. split; [|exact H].
    apply Ascii.eqb_neq. congruence.
Qed.

Lemma split_on_plain (n cur : string) :
  PyStr.contains n "/" = false -> Path.split_on n cur = [(cur ++ n)%string].
Proof.
  revert cur. induction n as [|ch n IH]; intros cur H; cbn [Path.split_on].
  - rewrite append_nil_r. reflexivity.
  - apply contains_slash_cons in H. destruct H as [-> H].
    rewrite (IH (cur ++ String ch "")%string H), append_assoc. reflexivity.
Qed.

Lemma components_plain (n : string) :
  plain_name n -> Path.components n = [n].
Proof.
  intros (N1 & N2 & H). unfold Path.components.
  rewrite (@split_on_plain n "" H). cbn [append filter].
  destruct (String.eqb_spec n ""); [contradiction|].
  destruct (String.eqb_spec n "."); [contradiction|]. reflexivity.
Qed.

Lemma components_slash (a n : string) :
  plain_name n ->
  Path.components (a ++ String "/" n) = Path.components a ++ [n].
Proof.
  intros Hn. unfold Path.components at 1 2.
  rewrite split_on_slash, filter_app. f_equal.
  apply (@components_plain n Hn).
Qed.

Lemma startswith_app (a b : string) :
  a <> "" ->
  PyStr.startswith (a ++ b) "/" = PyStr.startswith a "/".
Proof.
  destruct a as [|ch a]; [congruence|]. intros _.
  unfold PyStr.startswith. cbn [append String.prefix].
  destruct (Ascii.ascii_dec "/" ch); [|reflexivity].
  destruct (a ++ b)%string, a; reflexivity.
Qed.

Lemma resolve_join_plain (c : list string) (root n : string) :
  plain_name n ->
  Path.resolve c (Path.join root n) = Path.resolve c root ++ [n].
Proof.
  intros Hn. pose proof Hn as (N1 & N2 & H).
  assert (S : PyStr.startswith n "/" = false).
  { destruct n as [|ch n]; [congruence|].
    apply contains_slash_cons in H. destruct H as [H _].
    unfold PyStr.startswith. cbn [String.prefix].
    destruct (Ascii.ascii_dec "/" ch) as [<-|]; [discriminate | reflexivity]. }
  unfold Path.join. rewrite S.
  destruct (String.eqb_spec root "") as [->|Nr].
  - cbn [orb append]. unfold Path.resolve. rewrite S.
    rewrite (@components_plain n Hn). cbn. rewrite app_nil_r. reflexivity.
  - cbn [orb]. destruct (PyStr.endswith root "/") eqn:E.
    + apply endswith_spec in E. destruct E as [a ->].
      rewrite append_assoc. cbn [append]. unfold Path.resolve.
      assert (Ca : Path.components (a ++ "/") = Path.components a).
      { unfold Path.components. rewrite split_on_slash, filter_app.
        cbn. rewrite app_nil_r. reflexivity. }
      assert (Sa : PyStr.startswith (a ++ String "/" n) "/"
                   = PyStr.startswith (a ++ "/") "/").
      { destruct a as [|ch a]; [destruct n; reflexivity|].
        rewrite !startswith_app by discriminate. reflexivity. }
      rewrite Sa, Ca, (@components_slash a n Hn).
      destruct (PyStr.startswith (a ++ "/") "/");
        [reflexivity | rewrite app_assoc; reflexivity].
    + unfold Path.resolve. cbn [append].
      rewrite (@startswith_app root _ Nr), (@components_slash root n Hn).
      destruct (PyStr.startswith root "/");
        [reflexivity | rewrite app_assoc; reflexivity].
Qed.

Lemma lookup_remove_sibling (r : list string) (i n : string) (t : Fs.node) :
  i <> n ->
  Fs.lookup (r ++ [n]) (Fs.remove_at (r ++ [i]) t) = Fs.lookup (r ++ [n]) t.
Proof.
  intros Hn. revert t. induction r as [|c r IH]; intros t.
  - cbn [app Fs.remove_at]. destruct t as [d|es]; [reflexivity|].
    cbn [Fs.lookup]. rewrite find_drop.
    destruct (String.eqb_spec i n); [contradiction | reflexivity].
  - cbn [app]. destruct t as [d|es]; [reflexivity|].
    cbn [Fs.remove_at].
    destruct (r ++ [i]) as [|x l] eqn:Er;
      [destruct r; discriminate|]. rewrite <- Er in *.
    destruct (Fs.find c es) as [child|] eqn:F; [|reflexivity].
    cbn [Fs.lookup]. rewrite find_put, String.eqb_refl, F. apply IH.
Qed.

Section Sweep.

Variable c0 : list string.
Variable rootc : list string.
Variable sel : string -> option Fs.node -> bool.
Variable body : string -> M unit.

Hypothesis body_spec : forall i w,
  plain_name i -> cwd w = c0 ->
  exists w', body i w = (Val tt, w') /\ cwd w' = cwd w /\
    fs w' = if sel i (Fs.lookup (rootc ++ [i]) (fs w))
            then Fs.remove_at (rootc ++ [i]) (fs w)
            else fs w.

Lemma sweep_loop (items : list string) (w : world) :
  (forall i, In i items -> plain_name i) -> cwd w = c0 ->
  exists w', for_each items body w = (Val tt, w') /\ cwd w' = cwd w /\
    forall n,
      Fs.lookup (rootc ++ [n]) (fs w')
      = if existsb (String.eqb n) items
           && sel n (Fs.lookup (rootc ++ [n]) (fs w))
        then None
        else Fs.lookup (rootc ++ [n]) (fs w).
Proof.
  revert w. induction items as [|i items IH]; intros w Hp Hc.
  - exists w. split; [reflexivity|]. split; [reflexivity|].
    intros n. reflexivity.
  - destruct (@body_spec i w (Hp i (or_introl eq_refl)) Hc)
      as (w2 & E2 & C2 & F2).
    destruct (IH w2 (fun j Hj => Hp j (or_intror Hj))
                (eq_trans C2 Hc)) as (w' & E & C & L).
    exists w'. cbn [for_each]. rewrite (@bind_val _ _ _ _ _ _ _ E2).
    split; [exact E|]. split; [congruence|].
    intros n. rewrite L, F2. cbn [existsb].
    assert (Nn : rootc ++ [n] <> []) by (destruct rootc; discriminate).
    destruct (String.eqb_spec n i) as [->|Ne].
    + cbn [orb andb].
      destruct (sel i (Fs.lookup (rootc ++ [i]) (fs w))) eqn:S.
      * rewrite (@lookup_remove_self _ _ Nn).
        destruct (existsb _ items && sel i None); reflexivity.
      * rewrite S, andb_false_r. reflexivity.
    + cbn [orb].
      assert (K : Fs.lookup (rootc ++ [n])
                    (if sel i (Fs.lookup (rootc ++ [i]) (fs w))
                     then Fs.remove_at (rootc ++ [i]) (fs w)
                     else fs w)
                  = Fs.lookup (rootc ++ [n]) (fs w)).
      { destruct (sel i _); [|reflexivity].
        apply lookup_remove_sibling. congruence. }
      rewrite K. reflexivity.
Qed.

End Sweep.

Lemma rmtree_val (p : string) (w : world) :
  shutil_rmtree p w = (Val tt, snd (shutil_rmtree p w)) /\
  cwd (snd (shutil_rmtree p w)) = cwd w.
Proof.
  unfold shutil_rmtree. destruct (at_path w p) as [[d|es]|];
    split; reflexivity.
Qed.

Lemma failure_body_spec (h : host) (c0 : list string) (i : string)
    (w : world) :
  plain_name i -> cwd w = c0 ->
  exists w',
    (bind (os_path_isdir (Path.join (project_root h) i))
       (fun d : bool =>
          when (d && dotted_name i)
            (try_pass (shutil_rmtree (Path.join (project_root h) i))))) w
    = (Val tt, w') /\ cwd w' = cwd w /\
    fs w' = if swept_on_failure i
                 (Fs.lookup (Path.resolve c0 (project_root h) ++ [i]) (fs w))
            then Fs.remove_at (Path.resolve c0 (project_root h) ++ [i])
                   (fs w)
            else fs w.
Proof.
  intros Hi <-.
  assert (A : at_path w (Path.join (project_root h) i)
              = Fs.lookup (Path.resolve (cwd w) (project_root h) ++ [i])
                  (fs w)).
  { unfold at_path.
    rewrite (@resolve_join_plain (cwd w) (project_root h) i Hi).
    reflexivity. }
  rewrite <- A.
  unfold bind, os_path_isdir, when, try_pass, try_except, shutil_rmtree,
    swept_on_failure.
  destruct (at_path w _) as [[d|es]|] eqn:L; cbn [Fs.is_dir andb].
  - exists w. repeat split.
  - destruct (dotted_name i); cbv beta; [rewrite L|];
      eexists; (split; [reflexivity|]); split; try reflexivity.
    cbn [fs set_fs].
    rewrite (@resolve_join_plain (cwd w) (project_root h) i Hi).
    reflexivity.
  - exists w. repeat split.
Qed.

Lemma success_body_spec (h : host) (c0 : list string) (i : string)
    (w : world) :
  plain_name i -> cwd w = c0 ->
  exists w',
    (bind (os_path_isdir (Path.join (project_root h) i))
       (fun d : bool =>
          when (d && dotted_name i)
            (try_except
               (bind (has_json_below (Path.join (project_root h) i))
                  (fun has_json : bool =>
                     when has_json
                       (bind (log_info "Cleaning up dump-code folder: {item}")
                          (fun _ => shutil_rmtree
                                      (Path.join (project_root h) i)))))
               (fun e =>
                  log_warning "Error cleaning up {item_path}: {e}")))) w
    = (Val tt, w') /\ cwd w' = cwd w /\
    fs w' = if swept_on_success (Path.join (project_root h) i) i
                 (Fs.lookup (Path.resolve c0 (project_root h) ++ [i]) (fs w))
            then Fs.remove_at (Path.resolve c0 (project_root h) ++ [i])
                   (fs w)
            else fs w.
Proof.
  intros Hi <-.
  assert (A : at_path w (Path.join (project_root h) i)
              = Fs.lookup (Path.resolve (cwd w) (project_root h) ++ [i])
                  (fs w)).
  { unfold at_path.
    rewrite (@resolve_join_plain (cwd w) (project_root h) i Hi).
    reflexivity. }
  rewrite <- A.
  unfold bind at 1. unfold os_path_isdir at 1. unfold swept_on_success.
  destruct (at_path w _) as [[d|es]|] eqn:L; cbn [Fs.is_dir andb when].
  - exists w. repeat split.
  - destruct (dotted_name i); cbn [andb when]; [|exists w; repeat split].
    unfold try_except, has_json_below, os_walk, ret. unfold bind.
    cbv beta. rewrite L.
    unfold holds_json.
    destruct (existsb _ (Fs.walk _ (Fs.Dir es))); cbn [when].
    + unfold log_info, logger, modify, shutil_rmtree, at_path.
      cbn [cwd fs add_log]. fold (at_path w (Path.join (project_root h) i)).
      rewrite L. eexists. split; [reflexivity|]. split; [reflexivity|].
      cbn [fs set_fs add_log].
      rewrite (@resolve_join_plain (cwd w) (project_root h) i Hi).
      reflexivity.
    + exists w. repeat split.
  - exists w. repeat split.
Qed.

(** The cleanup after a timeout or an error of the run (lines 511-523
    and 553-565) sweeps the project root without looking into the
    folders: of the entries the root lists once the workspace is gone,
    every directory with a dot in its name, other than [venv] and the
    names that begin with a dot, is removed with all it holds, whoever
    made it; every other entry is left as it is. *)
Theorem failure_cleanup_sweeps_dotted_folders
    (h : host) (t : string) (w : world) (es : list (string * Fs.node)) :
  at_path (snd (shutil_rmtree t w)) (project_root h) = Some (Fs.Dir es) ->
  (forall i, In i (map fst es) -> plain_name i) ->
  forall n, In n (map fst es) ->
    at_path (snd (cleanup_after_failure h t w))
            (Path.join (project_root h) n)
    = if swept_on_failure n
           (at_path (snd (shutil_rmtree t w)) (Path.join (project_root h) n))
      then None
      else at_path (snd (shutil_rmtree t w)) (Path.join (project_root h) n).
Proof.
  intros Hr Hp n Hn.
  destruct (rmtree_val t w) as [E1 C1].
  set (w1 := snd (shutil_rmtree t w)) in *.
  unfold cleanup_after_failure, try_pass, try_except.
  rewrite (@bind_val _ _ _ _ _ _ _ E1).
  assert (El : os_listdir (project_root h) w1 = (Val (map fst es), w1))
    by (unfold os_listdir; rewrite Hr; reflexivity).
  rewrite (@bind_val _ _ _ _ _ _ _ El).
  destruct (@sweep_loop (cwd w1) (Path.resolve (cwd w1) (project_root h))
              swept_on_failure _
              (fun i w0 => @failure_body_spec h (cwd w1) i w0)
              (map fst es) w1 Hp eq_refl) as (w' & E & C & L).
  cbv beta.
  match goal with
  | |- context [for_each (map fst es) ?b w1] =>
      assert (E' : for_each (map fst es) b w1 = (Val tt, w')) by exact E
  end.
  rewrite E'. cbn [snd]. unfold at_path. rewrite C.
  rewrite (@resolve_join_plain (cwd w1) (project_root h) n (Hp n Hn)).
  rewrite L.
  assert (X : existsb (String.eqb n) (map fst es) = true).
  { apply existsb_exists. exists n. split; [exact Hn|].
    apply String.eqb_refl. }
  rewrite X. reflexivity.
Qed.

Lemma failure_cleanup_example :
  at_path (snd (cleanup_after_failure Demo.copies "/tmp/w"
                  Demo.project_start))
          (Path.join (project_root Demo.copies) "backup.old") = None /\
  at_path (snd (cleanup_after_failure Demo.copies "/tmp/w"
                  Demo.project_start))
          (Path.join (project_root Demo.copies) "executable")
  = Some (Fs.Dir [("dpt.jar", Fs.File [Byte.x00])]).
Proof.
  assert (Hp : forall i,
            In i ["executable"; "backup.old"; "site.data"; "README.md"] ->
            plain_name i).
  { intros i Hi.
    repeat (destruct Hi as [<-|Hi];
            [repeat split; discriminate|]). destruct Hi. }
  split.
  - rewrite (@failure_cleanup_sweeps_dotted_folders Demo.copies "/tmp/w"
               Demo.project_start _ eq_refl Hp "backup.old");
      [reflexivity | simpl; tauto].
  - rewrite (@failure_cleanup_sweeps_dotted_folders Demo.copies "/tmp/w"
               Demo.project_start _ eq_refl Hp "executable");
      [reflexivity | simpl; tauto].
Defined.

(** The cleanup after a success (lines 420-442) sweeps the project root
    as well, but looks into the folders first: of the entries the root
    lists once the workspace is gone, a directory with a dot in its
    name, other than [venv] and the names that begin with a dot, is
    removed exactly when some directory below it holds a file ending in
    ".json"; every other entry is left as it is. *)
Theorem success_cleanup_sweeps_dump_folders
    (h : host) (t : string) (w : world) (es : list (string * Fs.node)) :
  at_path (snd (shutil_rmtree t w)) (project_root h) = Some (Fs.Dir es) ->
  (forall i, In i (map fst es) -> plain_name i) ->
  forall n, In n (map fst es) ->
    at_path (snd (cleanup_after_success h t w))
            (Path.join (project_root h) n)
    = if swept_on_success (Path.join (project_root h) n) n
           (at_path (snd (shutil_rmtree t w)) (Path.join (project_root h) n))
      then None
      else at_path (snd (shutil_rmtree t w)) (Path.join (project_root h) n).
Proof.
  intros Hr Hp n Hn.
  destruct (rmtree_val t w) as [E1 C1].
  set (w1 := snd (shutil_rmtree t w)) in *.
  unfold cleanup_after_success, try_except.
  rewrite (@bind_val _ _ _ _ _ _ _ E1).
  assert (Ex : os_path_exists (project_root h) w1 = (Val true, w1))
    by (unfold os_path_exists; rewrite Hr; reflexivity).
  rewrite (@bind_val _ _ _ _ _ _ _ Ex). cbn [when].
  assert (El : os_listdir (project_root h) w1 = (Val (map fst es), w1))
    by (unfold os_listdir; rewrite Hr; reflexivity).
  rewrite (@bind_val _ _ _ _ _ _ _ El).
  destruct (@sweep_loop (cwd w1) (Path.resolve (cwd w1) (project_root h))
              (fun i => swept_on_success (Path.join (project_root h) i) i) _
              (fun i w0 => @success_body_spec h (cwd w1) i w0)
              (map fst es) w1 Hp eq_refl) as (w' & E & C & L).
  cbv beta.
  match goal with
  | |- context [for_each (map fst es) ?b w1] =>
      assert (E' : for_each (map fst es) b w1 = (Val tt, w')) by exact E
  end.
  rewrite E'. cbn [snd]. unfold at_path. rewrite C.
  rewrite (@resolve_join_plain (cwd w1) (project_root h) n (Hp n Hn)).
  rewrite L.
  assert (X : existsb (String.eqb n) (map fst es) = true).
  { apply existsb_exists. exists n. split; [exact Hn|].
    apply String.eqb_refl. }
  rewrite X. reflexivity.
Qed.

Lemma success_cleanup_example :
  at_path (snd (cleanup_after_success Demo.copies "/tmp/w"
                  Demo.project_start))
          (Path.join (project_root Demo.copies) "site.data") = None /\
  at_path (snd (cleanup_after_success Demo.copies "/tmp/w"
                  Demo.project_start))
          (Path.join (project_root Demo.copies) "backup.old")
  = Some (Fs.Dir [("notes.txt", Fs.File [Byte.x01])]).
Proof.
  assert (Hp : forall i,
            In i ["executable"; "backup.old"; "site.data"; "README.md"] ->
            plain_name i).
  { intros i Hi.
    repeat (destruct Hi as [<-|Hi];
            [repeat split; discriminate|]). destruct Hi. }
  split.
  - rewrite (@success_cleanup_sweeps_dump_folders Demo.copies "/tmp/w"
               Demo.project_start _ eq_refl Hp "site.data");
      [reflexivity | simpl; tauto].
  - rewrite (@success_cleanup_sweeps_dump_folders Demo.copies "/tmp/w"
               Demo.project_start _ eq_refl Hp "backup.old");
      [reflexivity | simpl; tauto].
Defined.
